(** * AEGIS: the detection-and-correlation engine

    A shallow embedding of the anomaly scorer ([ml_model.py]), of the input
    validation and alert-log correlation ([aegis/utils.py]), of the
    configuration constants ([aegis/config.py]) and of the [/detect] route
    ([aegis/routes.py]), followed by the properties of the engine.

    Conventions.
    - Python strings are [string]s, one [ascii] per character: the code
      points below 256.
    - A naive [datetime] is a point of a linear time line and is represented
      by its offset from 1970-01-01 00:00:00 in microseconds; comparing two
      datetimes is comparing the offsets, and subtracting a
      [timedelta(seconds=n)] subtracts [n * 10^6].
    - Scores are IEEE binary64 numbers: the kernel's primitive [float].
    - A call that may raise returns a [result]; the payload of [Raise] is
      the text of the exception, [str(e)].
    - The database is the one behind [DATABASE_URL].  What every database
      does with the declared columns is part of the model: a column
      declared [nullable=False] takes no null, a [DateTime] column takes
      datetimes only, and a commit writes all the pending rows or none.
      What depends on the database is a parameter: whether a [Float]
      column takes a given value that is not null, and the texts of the
      exceptions. *)

From Stdlib Require Import ZArith List String Ascii Bool Lia Floats DecimalString.
From stdpp Require Import gmap strings.
Import ListNotations.
Open Scope string_scope.
Open Scope Z_scope.

(** ** Results of calls that may raise *)

Inductive result (A : Type) : Type :=
| Ok (a : A)
| Raise (msg : string).
Arguments Ok {A} a.
Arguments Raise {A} msg.

(** ** Python string operations used by the sources *)

Module PyStr.

(** [s.split(sep)] for a one-character separator. *)
Fixpoint split (sep : ascii) (s : string) : list string :=
  match s with
  | EmptyString => [EmptyString]
  | String c s' =>
      if Ascii.eqb c sep then EmptyString :: split sep s'
      else match split sep s' with
           | h :: t => String c h :: t
           | [] => [String c EmptyString]
           end
  end.

(** [sub in s]: [sub] occurs in [s] as a contiguous substring. *)
Fixpoint contains (sub s : string) : bool :=
  String.prefix sub s ||
  match s with
  | EmptyString => false
  | String _ s' => contains sub s'
  end.

(** [sep.join(parts)]. *)
Fixpoint join (sep : string) (parts : list string) : string :=
  match parts with
  | [] => EmptyString
  | [p] => p
  | p :: rest => p ++ sep ++ join sep rest
  end.

(** [str(n)] for an integer. *)
Definition str_int (n : Z) : string := NilZero.string_of_int (Z.to_int n).

(** [str(n).zfill(width)] for a natural number [n]: what [%02d] and [%04d]
    print. *)
Fixpoint zeros (k : nat) : string :=
  match k with
  | O => EmptyString
  | S k' => String "0" (zeros k')
  end.

Definition zfill (width : nat) (n : Z) : string :=
  let s := str_int n in
  zeros (width - String.length s) ++ s.

(** The double quote, as a text. *)
Definition quote : string := String "034"%char EmptyString.

End PyStr.

(** ** Naive datetimes: [datetime.strptime], [strftime], [timedelta] *)

Module PyTime.

(** Microseconds since 1970-01-01 00:00:00 on the naive time line. *)
Definition datetime : Type := Z.

(** [timedelta(seconds=n)], in microseconds. *)
Definition timedelta (seconds : Z) : Z := seconds * 1000000.

Definition is_leap (y : Z) : bool :=
  (y mod 4 =? 0) && (negb (y mod 100 =? 0) || (y mod 400 =? 0)).

Definition days_in_month (y m : Z) : Z :=
  if m =? 2 then (if is_leap y then 29 else 28)
  else if (m =? 4) || (m =? 6) || (m =? 9) || (m =? 11) then 30
  else 31.

(** Days from 1970-01-01 to the proleptic Gregorian date [y-m-d]. *)
Definition days_from_civil (y m d : Z) : Z :=
  let y' := if m <=? 2 then y - 1 else y in
  let era := y' / 400 in
  let yoe := y' - era * 400 in
  let doy := (153 * (if 2 <? m then m - 3 else m + 9) + 2) / 5 + d - 1 in
  let doe := yoe * 365 + yoe / 4 - yoe / 100 + doy in
  era * 146097 + doe - 719468.

(** The date [(y, m, d)] that lies [z] days after 1970-01-01. *)
Definition civil_from_days (z : Z) : Z * Z * Z :=
  let z := z + 719468 in
  let era := z / 146097 in
  let doe := z - era * 146097 in
  let yoe := (doe - doe / 1460 + doe / 36524 - doe / 146096) / 365 in
  let doy := doe - (365 * yoe + yoe / 4 - yoe / 100) in
  let mp := (5 * doy + 2) / 153 in
  let d := doy - (153 * mp + 2) / 5 + 1 in
  let m := if mp <? 10 then mp + 3 else mp - 9 in
  let y := yoe + era * 400 in
  (if m <=? 2 then y + 1 else y, m, d).

(** [datetime(y, mo, d, h, mi, s)]; a field out of range raises. *)
Definition make_datetime (y mo d h mi s : Z) : option datetime :=
  if (1 <=? y) && (y <=? 9999) && (1 <=? mo) && (mo <=? 12)
     && (1 <=? d) && (d <=? days_in_month y mo)
     && (0 <=? h) && (h <=? 23) && (0 <=? mi) && (mi <=? 59)
     && (0 <=? s) && (s <=? 59)
  then Some (timedelta (((days_from_civil y mo d * 24 + h) * 60 + mi) * 60 + s))
  else None.

(** *** Parsing with the format [%Y-%m-%d %H:%M:%S]

    [strptime] compiles the format to the regular expression
    [(\d\d\d\d)-(1[0-2]|0[1-9]|[1-9])-(3[01]|[12]\d|0[1-9]|[1-9]| [1-9])\s+
     (2[0-3]|[0-1]\d|\d):([0-5]\d|\d):(6[0-1]|[0-5]\d|\d)],
    matches it at the start of the string, refuses a string with text left
    over, and builds the datetime from the fields.  Each numeric field is
    followed by a literal character (or by the end of the text), so taking
    the first alternative that matches is what the regular expression
    engine ends up with.  A character is a code point below 256: the
    digits of [\d] are the ASCII ones, the blanks of [\s] are the ASCII
    ones (the separators U+001C to U+001F among them), U+0085 and
    U+00A0. *)

Definition is_digit (c : ascii) : bool :=
  let n := Z.of_nat (nat_of_ascii c) in (48 <=? n) && (n <=? 57).

Definition digit (c : ascii) : Z := Z.of_nat (nat_of_ascii c) - 48.

Definition in_range (lo hi : Z) (c : ascii) : bool :=
  is_digit c && (lo <=? digit c) && (digit c <=? hi).

(** [\s]: the characters for which [str.isspace] holds, among the code
    points below 256. *)
Definition is_space (c : ascii) : bool :=
  let n := Z.of_nat (nat_of_ascii c) in
  ((9 <=? n) && (n <=? 13)) || ((28 <=? n) && (n <=? 32))
  || (n =? 133) || (n =? 160).

(** A field read off the front of the text: its value and the rest. *)
Definition field : Type := option (Z * string).

Definition two_digits (ok : ascii -> ascii -> bool) (s : string) : field :=
  match s with
  | String a (String b rest) =>
      if ok a b then Some (10 * digit a + digit b, rest) else None
  | _ => None
  end.

Definition one_digit (ok : ascii -> bool) (s : string) : field :=
  match s with
  | String a rest => if ok a then Some (digit a, rest) else None
  | _ => None
  end.

Definition orelse (f g : string -> field) (s : string) : field :=
  match f s with
  | Some r => Some r
  | None => g s
  end.

(** [%Y]: [\d\d\d\d]. *)
Definition parse_Y (s : string) : field :=
  match s with
  | String a (String b (String c (String d rest))) =>
      if is_digit a && is_digit b && is_digit c && is_digit d
      then Some (1000 * digit a + 100 * digit b + 10 * digit c + digit d, rest)
      else None
  | _ => None
  end.

(** [%m]: [1[0-2]|0[1-9]|[1-9]]. *)
Definition parse_m : string -> field :=
  orelse (two_digits (fun a b => in_range 1 1 a && in_range 0 2 b))
 (orelse (two_digits (fun a b => in_range 0 0 a && in_range 1 9 b))
         (one_digit (in_range 1 9))).

(** [%d]: [3[01]|[12]\d|0[1-9]|[1-9]| [1-9]]. *)
Definition parse_d : string -> field :=
  orelse (two_digits (fun a b => in_range 3 3 a && in_range 0 1 b))
 (orelse (two_digits (fun a b => in_range 1 2 a && is_digit b))
 (orelse (two_digits (fun a b => in_range 0 0 a && in_range 1 9 b))
 (orelse (one_digit (in_range 1 9))
         (fun s => match s with
                   | String " " rest => one_digit (in_range 1 9) rest
                   | _ => None
                   end)))).

(** [%H]: [2[0-3]|[0-1]\d|\d]. *)
Definition parse_H : string -> field :=
  orelse (two_digits (fun a b => in_range 2 2 a && in_range 0 3 b))
 (orelse (two_digits (fun a b => in_range 0 1 a && is_digit b))
         (one_digit is_digit)).

(** [%M]: [[0-5]\d|\d]. *)
Definition parse_M : string -> field :=
  orelse (two_digits (fun a b => in_range 0 5 a && is_digit b))
         (one_digit is_digit).

(** [%S]: [6[0-1]|[0-5]\d|\d]. *)
Definition parse_S : string -> field :=
  orelse (two_digits (fun a b => in_range 6 6 a && in_range 0 1 b))
 (orelse (two_digits (fun a b => in_range 0 5 a && is_digit b))
         (one_digit is_digit)).

(** A literal character of the format. *)
Definition literal (c : ascii) (s : string) : option string :=
  match s with
  | String a rest => if Ascii.eqb a c then Some rest else None
  | EmptyString => None
  end.

(** [\s+]: one blank or more. *)
Fixpoint skip_spaces (s : string) : string :=
  match s with
  | String a rest => if is_space a then skip_spaces rest else s
  | EmptyString => s
  end.

Definition spaces (s : string) : option string :=
  match s with
  | String a rest => if is_space a then Some (skip_spaces rest) else None
  | EmptyString => None
  end.

(** [datetime.strptime(s, "%Y-%m-%d %H:%M:%S")]; [None] is [ValueError]. *)
Definition strptime (s : string) : option datetime :=
  match parse_Y s with None => None | Some (y, s) =>
  match literal "-" s with None => None | Some s =>
  match parse_m s with None => None | Some (mo, s) =>
  match literal "-" s with None => None | Some s =>
  match parse_d s with None => None | Some (d, s) =>
  match spaces s with None => None | Some s =>
  match parse_H s with None => None | Some (h, s) =>
  match literal ":" s with None => None | Some s =>
  match parse_M s with None => None | Some (mi, s) =>
  match literal ":" s with None => None | Some s =>
  match parse_S s with None => None | Some (sec, s) =>
  match s with
  | EmptyString => make_datetime y mo d h mi sec
  | _ => None
  end end end end end end end end end end end end.

(** [t.strftime("%Y-%m-%d %H:%M:%S")], for the years from 1000 on: the
    microseconds are dropped. *)
Definition strftime (t : datetime) : string :=
  let secs := t / 1000000 in
  let '(y, mo, d) := civil_from_days (secs / 86400) in
  let r := secs mod 86400 in
  PyStr.zfill 4 y ++ "-" ++ PyStr.zfill 2 mo ++ "-" ++ PyStr.zfill 2 d ++ " "
  ++ PyStr.zfill 2 (r / 3600) ++ ":" ++ PyStr.zfill 2 (r mod 3600 / 60) ++ ":"
  ++ PyStr.zfill 2 (r mod 60).

(** *** Parsing with the format [%Y-%m-%dT%H:%M:%S]

    The regular expression is the one above with the letter [T] in the
    place of [\s+]; it is compiled with [IGNORECASE], so the letter
    matches in either case. *)

Definition literal_T (s : string) : option string :=
  match s with
  | String a rest =>
      if Ascii.eqb a "T" || Ascii.eqb a "t" then Some rest else None
  | EmptyString => None
  end.

(** [datetime.strptime(s, "%Y-%m-%dT%H:%M:%S")]; [None] is [ValueError]. *)
Definition strptime_T (s : string) : option datetime :=
  match parse_Y s with None => None | Some (y, s) =>
  match literal "-" s with None => None | Some s =>
  match parse_m s with None => None | Some (mo, s) =>
  match literal "-" s with None => None | Some s =>
  match parse_d s with None => None | Some (d, s) =>
  match literal_T s with None => None | Some s =>
  match parse_H s with None => None | Some (h, s) =>
  match literal ":" s with None => None | Some s =>
  match parse_M s with None => None | Some (mi, s) =>
  match literal ":" s with None => None | Some s =>
  match parse_S s with None => None | Some (sec, s) =>
  match s with
  | EmptyString => make_datetime y mo d h mi sec
  | _ => None
  end end end end end end end end end end end end.

(** [t.strftime("%Y%m%d%H%M%S")], for the years from 1000 on. *)
Definition strftime_compact (t : datetime) : string :=
  let secs := t / 1000000 in
  let '(y, mo, d) := civil_from_days (secs / 86400) in
  let r := secs mod 86400 in
  PyStr.zfill 4 y ++ PyStr.zfill 2 mo ++ PyStr.zfill 2 d
  ++ PyStr.zfill 2 (r / 3600) ++ PyStr.zfill 2 (r mod 3600 / 60)
  ++ PyStr.zfill 2 (r mod 60).

End PyTime.

(** ** Formatting a score: the format specification [.4f] *)

Module PyFloat.

(** [num / den] rounded to the nearest integer, ties to the even one
    ([0 <= num], [0 < den]). *)
Definition round_half_even (num den : Z) : Z :=
  let q := num / den in
  let r := num mod den in
  if 2 * r <? den then q
  else if den <? 2 * r then q + 1
  else if Z.even q then q else q + 1.

(** [n] ten-thousandths, written with four decimals. *)
Definition fixed4 (n : Z) : string :=
  PyStr.str_int (n / 10000) ++ "." ++ PyStr.zfill 4 (n mod 10000).

(** [f"{x:.4f}"]: the exact binary value of [x], correctly rounded to four
    decimals. *)
Definition format_4f (x : float) : string :=
  match Prim2SF x with
  | S754_nan => "nan"
  | S754_infinity s => if s then "-inf" else "inf"
  | S754_zero s => if s then "-0.0000" else "0.0000"
  | S754_finite s m e =>
      let n := if 0 <=? e then Z.pos m * 10000 * 2 ^ e
               else round_half_even (Z.pos m * 10000) (2 ^ (- e)) in
      (if s then "-" else "") ++ fixed4 n
  end.

(** *** [repr] of a float: the shortest decimal that reads back *)

(** [a * 10^p] compared with [b * 2^q], for integers [p] and [q]. *)
Definition compare_scaled (a p b q : Z) : comparison :=
  (a * 10 ^ Z.max p 0 * 2 ^ Z.max (- q) 0
   ?= b * 2 ^ Z.max q 0 * 10 ^ Z.max (- p) 0).

(** The least [k] from [k0] on with [b * 2^q < 10^k]. *)
Fixpoint decimal_exponent (fuel : nat) (k0 b q : Z) : Z :=
  match fuel with
  | O => k0
  | S fuel' =>
      match compare_scaled 1 k0 b q with
      | Gt => k0
      | _ => decimal_exponent fuel' (k0 + 1) b q
      end
  end.

(** [d * 10^p] lies in the interval of the numbers that round to the
    float: between [lo * 2^q] and [hi * 2^q], the ends included when the
    mantissa is even. *)
Definition in_interval (even : bool) (lo hi q d p : Z) : bool :=
  match compare_scaled d p lo q, compare_scaled d p hi q with
  | Gt, Lt => true
  | Eq, Lt | Gt, Eq => even
  | _, _ => false
  end.

(** The digits of the shortest decimal that reads back as [m * 2^e]
    (the nearest one of that length), from [n] digits on, and the position
    [decpt] of its decimal point: the value is [0.d1d2... * 10^decpt].
    Seventeen digits always suffice. *)
Fixpoint shortest (fuel : nat) (n : Z) (m e k : Z) : Z * Z :=
  let q := e - 2 in
  let x := 4 * m in
  let hi := 4 * m + 2 in
  let lo := if (m =? 2 ^ 52) && (-1074 <? e) then 4 * m - 1 else 4 * m - 2 in
  let even := Z.even m in
  let p := k - n in
  let d_lo := (x * 2 ^ Z.max q 0 * 10 ^ Z.max (- p) 0)
              / (2 ^ Z.max (- q) 0 * 10 ^ Z.max p 0) in
  let d_hi := d_lo + 1 in
  let ok_lo := in_interval even lo hi q d_lo p in
  let ok_hi := in_interval even lo hi q d_hi p in
  let closer_lo :=
    match compare_scaled (2 * d_lo + 1) p (2 * x) q with
    | Gt => true
    | Lt => false
    | Eq => Z.even d_lo
    end in
  let pick d := if d =? 10 ^ n then (1, k + 1) else (d, k) in
  match fuel with
  | O => pick d_lo
  | S fuel' =>
      if ok_lo && ok_hi then pick (if closer_lo then d_lo else d_hi)
      else if ok_lo then pick d_lo
      else if ok_hi then pick d_hi
      else shortest fuel' (n + 1) m e k
  end.

(** The digits without their trailing zeros. *)
Fixpoint strip_zeros (fuel : nat) (d : Z) : Z :=
  match fuel with
  | O => d
  | S fuel' =>
      if (d mod 10 =? 0) && negb (d =? 0) then strip_zeros fuel' (d / 10)
      else d
  end.

(** The exponent of the scientific notation: a sign and two digits at
    least. *)
Definition two_digit_exp (x : Z) : string :=
  (if x <? 0 then "-" else "+")
  ++ (if Z.abs x <? 10 then "0" else "") ++ PyStr.str_int (Z.abs x).

(** [repr] of the positive number [m * 2^e]: scientific notation when
    [decpt <= -4] or [16 < decpt], positional notation otherwise. *)
Definition repr_finite (m e : Z) : string :=
  let k := decimal_exponent 700 (-330) (4 * m) (e - 2) in
  let '(d, decpt) := shortest 17 1 m e k in
  let digits := PyStr.str_int (strip_zeros 20 d) in
  let n := Z.of_nat (String.length digits) in
  if (decpt <=? -4) || (16 <? decpt) then
    (match digits with
     | String c EmptyString => String c EmptyString
     | String c rest => String c ("." ++ rest)
     | EmptyString => EmptyString
     end) ++ "e" ++ two_digit_exp (decpt - 1)
  else if decpt <=? 0 then "0." ++ PyStr.zeros (Z.to_nat (- decpt)) ++ digits
  else if n <=? decpt then digits ++ PyStr.zeros (Z.to_nat (decpt - n)) ++ ".0"
  else substring 0 (Z.to_nat decpt) digits ++ "."
       ++ substring (Z.to_nat decpt) (Z.to_nat (n - decpt)) digits.

(** [repr(x)], which is also [str(x)]. *)
Definition repr (x : float) : string :=
  match Prim2SF x with
  | S754_nan => "nan"
  | S754_infinity s => if s then "-inf" else "inf"
  | S754_zero s => if s then "-0.0" else "0.0"
  | S754_finite s m e => (if s then "-" else "") ++ repr_finite (Z.pos m) e
  end.

End PyFloat.

(** ** JSON values and request bodies *)

(** A decoded JSON value.  [VOther] is an array or an object, kept with the
    text [str()] gives for it: the sources only ever test its type or print
    it. *)
Inductive value : Type :=
| VNone
| VBool (b : bool)
| VInt (n : Z)
| VFloat (x : float)
| VStr (s : string)
| VOther (text : string).

(** A request body: the keys of a JSON object with their values, in the
    order of the document (a Python [dict] keeps it); no key occurs
    twice. *)
Definition dict : Type := list (string * value).

Module PyDict.

Fixpoint lookup (key : string) (d : dict) : option value :=
  match d with
  | [] => None
  | (k, v) :: rest => if String.eqb k key then Some v else lookup key rest
  end.

(** [key in d]. *)
Definition mem (key : string) (d : dict) : bool :=
  match lookup key d with
  | Some _ => true
  | None => false
  end.

(** [d.get(key, default)]. *)
Definition get_default (key : string) (default : value) (d : dict) : value :=
  match lookup key d with
  | Some v => v
  | None => default
  end.

(** [d.get(key)]. *)
Definition get (key : string) (d : dict) : value := get_default key VNone d.

(** [d[key]]: [KeyError] when the key is absent; [str(KeyError(k))] is the
    key between quotes. *)
Definition item (key : string) (d : dict) : result value :=
  match lookup key d with
  | Some v => Ok v
  | None => Raise ("'" ++ key ++ "'")
  end.

(** [d[key] = v]: a key of [d] keeps its place, a new key goes last. *)
Fixpoint setitem (key : string) (v : value) (d : dict) : dict :=
  match d with
  | [] => [(key, v)]
  | (k, x) :: rest =>
      if String.eqb k key then (k, v) :: rest
      else (k, x) :: setitem key v rest
  end.

(** [d.update(other)], for the items of [other] in their order. *)
Definition update (d other : dict) : dict :=
  fold_left (fun acc kv => setitem (fst kv) (snd kv) acc) other d.

End PyDict.

(** [isinstance(v, (int, float))]: [bool] is a subclass of [int]. *)
Definition isinstance_int_float (v : value) : bool :=
  match v with
  | VBool _ | VInt _ | VFloat _ => true
  | _ => false
  end.

(** ** [aegis/config.py] *)

Module Config.

(** [ANOMALY_THRESHOLD = -0.2]: the binary64 number nearest to it. *)
Definition ANOMALY_THRESHOLD : float := (-0x1.999999999999ap-3)%float.

Definition MALWARE_WINDOW_SECONDS : Z := 300.
Definition MALWARE_THRESHOLD_COUNT : Z := 3.

Definition MODEL_FEATURES : list string := ["temperature"; "pressure"; "rpm"].

Definition REQUIRED_FIELDS : list string :=
  ["timestamp"; "device_id"; "temperature"; "pressure"; "rpm"].

Definition DEFAULT_LOG_ENTRIES : Z := 100.

End Config.

(** ** [aegis/utils.py] *)

Module Utils.
Import Config PyTime.

(** *** [validate_data] *)

(** The loop over [numeric_fields]: it returns at the first field that is
    not an [int] or a [float]. *)
Fixpoint check_numeric (fields : list string) (data : dict) : bool * string :=
  match fields with
  | [] => (true, "")
  | field :: rest =>
      if negb (isinstance_int_float (PyDict.get field data))
      then (false, "Field '" ++ field ++ "' must be numeric")
      else check_numeric rest data
  end.

Definition numeric_fields : list string := ["temperature"; "pressure"; "rpm"].

Definition validate_data (data : dict) : bool * string :=
  let missing_fields :=
    List.filter (fun field => negb (PyDict.mem field data)) REQUIRED_FIELDS in
  match missing_fields with
  | _ :: _ =>
      (false, "Missing required fields: " ++ PyStr.join ", " missing_fields)
  | [] => check_numeric numeric_fields data
  end.

(** *** The alerts log

    The file at [ALERTS_LOG_PATH]: [None] when it does not exist, its text
    otherwise.  Opening, reading and writing the file succeed: the
    handlers of [check_for_malware] and [log_anomaly] that answer an I/O
    error with [(False, 0)] and [False] are not modelled. *)
Definition alerts_log : Type := option string.

Definition LF : ascii := "010"%char.
Definition CR : ascii := "013"%char.

(** [f.readlines()] of a file opened in text mode: a line ends with its
    line break, which universal newlines turn into a line feed. *)
Fixpoint readlines (text : string) : list string :=
  match text with
  | EmptyString => []
  | String c rest =>
      if Ascii.eqb c LF then String LF EmptyString :: readlines rest
      else if Ascii.eqb c CR then
        match rest with
        | String c' rest' =>
            if Ascii.eqb c' LF then String LF EmptyString :: readlines rest'
            else String LF EmptyString :: readlines rest
        | EmptyString => [String LF EmptyString]
        end
      else
        match readlines rest with
        | [] => [String c EmptyString]
        | line :: lines => String c line :: lines
        end
  end.

(** [f.write(text)] on the file opened with mode ["a"]. *)
Definition append_text (log : alerts_log) (text : string) : alerts_log :=
  match log with
  | None => Some text
  | Some content => Some (content ++ text)
  end.

(** *** [check_for_malware] *)

(** [datetime.strptime(line.split('[')[1].split(']')[0], ...)]; [None]
    when the line raises ([IndexError] or [ValueError]) and is skipped. *)
Definition parse_log_time (line : string) : option datetime :=
  match PyStr.split "[" line with
  | _ :: after :: _ =>
      match PyStr.split "]" after with
      | timestamp_str :: _ => strptime timestamp_str
      | [] => None
      end
  | _ => None
  end.

(** One turn of the loop over [alert_lines]. *)
Definition count_line (window_start : datetime) (device_id : string)
    (anomaly_count : Z) (line : string) : Z :=
  match parse_log_time line with
  | Some log_time =>
      if window_start <=? log_time then
        if PyStr.contains ("Device " ++ device_id) line
        then anomaly_count + 1
        else anomaly_count
      else anomaly_count
  | None => anomaly_count
  end.

(** [check_for_malware(device_id)], run when the wall clock
    ([datetime.now()]) reads [now] on the alerts log [log]. *)
Definition check_for_malware (log : alerts_log) (now : datetime)
    (device_id : string) : bool * Z :=
  match log with
  | None => (false, 0)
  | Some content =>
      let alert_lines := readlines content in
      let current_time := now in
      let window_start := current_time - timedelta MALWARE_WINDOW_SECONDS in
      let anomaly_count :=
        fold_left (count_line window_start device_id) alert_lines 0 in
      let is_potential_malware := anomaly_count >=? MALWARE_THRESHOLD_COUNT in
      (is_potential_malware, anomaly_count)
  end.

(** *** [log_anomaly] *)

(** [str(v)], which is what an f-string prints for [v]. *)
Definition str_value (v : value) : string :=
  match v with
  | VNone => "None"
  | VBool b => if b then "True" else "False"
  | VInt n => PyStr.str_int n
  | VFloat x => PyFloat.repr x
  | VStr s => s
  | VOther text => text
  end.

Definition logged_fields : list string := ["temperature"; "pressure"; "rpm"].

(** The line [log_anomaly] writes, without its line feed. *)
Definition log_message (now : datetime) (data : dict) (anomaly_score : float)
    : string :=
  let timestamp := strftime now in
  let device_id := PyDict.get_default "device_id" (VStr "unknown") data in
  "[" ++ timestamp ++ "] ANOMALY DETECTED: Device " ++ str_value device_id
  ++ ", Score: " ++ PyFloat.format_4f anomaly_score ++ ", Data: "
  ++ PyStr.join ", "
       (map (fun kv => fst kv ++ "=" ++ str_value (snd kv))
            (List.filter (fun kv => existsb (String.eqb (fst kv)) logged_fields)
                    data)).

(** [log_anomaly(data, anomaly_score)] at wall-clock time [now]: the new
    state of the alerts log and the value returned. *)
Definition log_anomaly (log : alerts_log) (now : datetime) (data : dict)
    (anomaly_score : float) : alerts_log * bool :=
  (append_text log (log_message now data anomaly_score ++ String LF EmptyString),
   true).

(** *** [preprocess_data] *)

(** [int(t.timestamp())] for a naive datetime [t]: the seconds since the
    epoch of the local time [t], which the time zone of the host decides.
    The call raises for a time the platform cannot convert: a
    [ValueError], or another exception with its text. *)
Inductive epoch_seconds : Type :=
| Seconds (n : Z)
| SecondsValueError
| SecondsError (msg : string).

Section Preprocessing.

Variable timestamp : datetime -> epoch_seconds.

(** [preprocess_data(data)] when [int(time.time())] is [clock].  The
    [try] covers [strptime] and [timestamp()]: a [ValueError] of either
    leaves the timestamp as it is, any other exception leaves the
    function. *)
Definition preprocess_data (clock : Z) (data : dict) : result dict :=
  let processed := data in
  let converted :=
    match PyDict.get "timestamp" processed with
    | VStr s =>
        match strptime_T s with
        | Some t =>
            match timestamp t with
            | Seconds n => Ok (PyDict.setitem "timestamp" (VInt n) processed)
            | SecondsValueError => Ok processed
            | SecondsError msg => Raise msg
            end
        | None => Ok processed
        end
    | _ => Ok processed
    end in
  match converted with
  | Ok processed => Ok (PyDict.setitem "received_at" (VInt clock) processed)
  | Raise msg => Raise msg
  end.

End Preprocessing.

(** *** [get_recent_logs] *)

(** [l[start:]]: a negative [start] counts from the end, and a [start]
    beyond either end of the list is cut to it. *)
Definition slice_from {A : Type} (start : Z) (l : list A) : list A :=
  let len := Z.of_nat (List.length l) in
  let start := if start <? 0 then Z.max (start + len) 0 else Z.min start len in
  skipn (Z.to_nat start) l.

(** [get_recent_logs(n)]: the entries ["data_logs"] and ["alerts"] of the
    dictionary returned.  [data_logs] is what the first block of the
    function has read from the CSV data log with pandas (the empty list
    when the file does not exist or cannot be read); the second block
    reads the alerts log. *)
Definition get_recent_logs (data_logs : list dict) (log : alerts_log) (n : Z)
    : list dict * list string :=
  let alerts :=
    match log with
    | None => []
    | Some content =>
        let alert_lines := readlines content in
        slice_from (- n) alert_lines
    end in
  (data_logs, alerts).

End Utils.

(** ** Sequencing calls that may raise *)

Definition bind {A B : Type} (r : result A) (k : A -> result B) : result B :=
  match r with
  | Ok a => k a
  | Raise msg => Raise msg
  end.

Notation "'let*' x ':=' r 'in' k" := (bind r (fun x => k))
  (at level 10, x name, r at level 100, k at level 200).

(** ** [aegis/models.py]: the rows the detection route stores *)

Module Models.
Import PyTime.

(** The attribute [timestamp] as [from_dict] fills it: a datetime, or the
    raw value of the request when the timestamp was not a string.  The
    column is a [DateTime], which takes datetimes only: a session that
    holds a row with a raw value fails at its commit. *)
Inductive time_column : Type :=
| Parsed (t : datetime)
| Unparsed (v : value).

Record Device : Type := {
  id : Z;
  last_seen : option datetime;
  status : string
}.

Record SensorData : Type := {
  sd_device_id : Z;
  sd_timestamp : time_column;
  sd_temperature : value;
  sd_pressure : value;
  sd_rpm : value
}.

Record Anomaly : Type := {
  an_device_id : Z;
  an_timestamp : time_column;
  an_anomaly_score : float;
  an_is_malware : bool;
  an_temperature : float;
  an_pressure : float;
  an_rpm : float
}.

(** The committed tables.  [devices] is keyed by the unique column
    [device_id]. *)
Record database : Type := {
  devices : gmap string Device;
  sensor_data : list SensorData;
  anomalies : list Anomaly
}.

Definition set_devices (ds : gmap string Device) (d : database) : database :=
  {| devices := ds; sensor_data := sensor_data d; anomalies := anomalies d |}.

(** What the session asked the database to write when the database
    refused it: the row of a new device, or the rows of a reading. *)
Inductive refused : Type :=
| RefusedDevice (device_id : value)
| RefusedRows (row : SensorData) (anomaly : option Anomaly).

(** [cls.query.filter_by(device_id=device_id).first()].  The column
    [device_id] takes no null, so no row answers a null; any other value
    is found by its text. *)
Definition first_by_device_id (device_id : value) (d : database)
    : option Device :=
  match device_id with
  | VNone => None
  | _ => devices d !! Utils.str_value device_id
  end.

Section Database.

(** The database behind [DATABASE_URL]: whether it takes a value that is
    not null in a [Float] column, and [str(e)] of the exception it raises
    for what it refuses. *)
Variable float_column : value -> bool.
Variable database_error : refused -> string.

(** The columns declared [nullable=False]: a [DateTime] takes a datetime,
    a [Float] takes no null. *)
Definition takes_time (t : time_column) : bool :=
  match t with
  | Parsed _ => true
  | Unparsed _ => false
  end.

Definition takes_float (v : value) : bool :=
  match v with
  | VNone => false
  | _ => float_column v
  end.

Definition takes_sensor_data (row : SensorData) : bool :=
  takes_time (sd_timestamp row)
  && takes_float (sd_temperature row)
  && takes_float (sd_pressure row)
  && takes_float (sd_rpm row).

Definition takes_anomaly (a : Anomaly) : bool :=
  takes_time (an_timestamp a)
  && takes_float (VFloat (an_anomaly_score a))
  && takes_float (VFloat (an_temperature a))
  && takes_float (VFloat (an_pressure a))
  && takes_float (VFloat (an_rpm a)).

(** [Device.get_or_create(device_id)]: a new row gets the next primary key
    and the default status ['active'], and is committed at once; the
    commit raises for a null [device_id], which the column does not
    take. *)
Definition get_or_create (device_id : value) (d : database)
    : result (Device * database) :=
  match first_by_device_id device_id d with
  | Some device => Ok (device, d)
  | None =>
      let device := {| id := Z.of_nat (size (devices d)) + 1;
                       last_seen := None;
                       status := "active" |} in
      match device_id with
      | VNone => Raise (database_error (RefusedDevice device_id))
      | _ =>
          Ok (device,
              set_devices (<[Utils.str_value device_id := device]> (devices d))
                d)
      end
  end.

End Database.

(** [device.update_last_seen()] when [datetime.utcnow()] reads [utcnow]:
    the row of the device, committed at once. *)
Definition update_last_seen (device_id : string) (device : Device)
    (utcnow : datetime) (d : database) : Device * database :=
  let device := {| id := id device;
                   last_seen := Some utcnow;
                   status := status device |} in
  (device, set_devices (<[device_id := device]> (devices d)) d).

(** [device.status = s], written at the next commit. *)
Definition set_status (s : string) (device : Device) : Device :=
  {| id := id device; last_seen := last_seen device; status := s |}.

(** A row of the table [model_metadata]. *)
Record ModelMetadata : Type := {
  mm_id : Z;
  mm_version : string;
  mm_created_at : datetime;
  mm_features : string;
  mm_parameters : option string;
  mm_training_samples : Z;
  mm_performance_metrics : option string;
  mm_is_active : bool
}.

Definition set_is_active (b : bool) (row : ModelMetadata) : ModelMetadata :=
  {| mm_id := mm_id row; mm_version := mm_version row;
     mm_created_at := mm_created_at row; mm_features := mm_features row;
     mm_parameters := mm_parameters row;
     mm_training_samples := mm_training_samples row;
     mm_performance_metrics := mm_performance_metrics row;
     mm_is_active := b |}.

(** [ModelMetadata.create_version()] when [datetime.utcnow()] reads
    [utcnow]. *)
Definition create_version (utcnow : datetime) : string :=
  let timestamp := strftime_compact utcnow in
  "model-" ++ timestamp.

(** [ModelMetadata.deactivate_all()]: the table after the commit. *)
Definition deactivate_all (table : list ModelMetadata) : list ModelMetadata :=
  map (set_is_active false) table.

(** [ModelMetadata.get_active_model()] is the first row of
    [filter_by(is_active=True).order_by(created_at.desc())].  The rows
    that may come first in that order are the active rows with the latest
    [created_at]; the database decides between them when there are
    several, and the query returns [None] when there is none. *)
Definition latest_active (table : list ModelMetadata) : list ModelMetadata :=
  let active := List.filter mm_is_active table in
  List.filter
    (fun row => forallb (fun other => mm_created_at other <=? mm_created_at row)
                  active)
    active.

End Models.

(** ** The state of the process and of its files *)

(** A fitted scoring model: [model.score_samples(np.array([row]))[0]] for
    a row of feature values, lower meaning more abnormal. *)
Record Model : Type := {
  score_samples : list value -> result float
}.

(** The file at [MODEL_PATH]. *)
Inductive model_file : Type :=
| NoModelFile
| SavedModel (m : Model)
| UnreadableModel (err : string).

Inductive level : Type := INFO | WARNING | ERROR.

Record world : Type := {
  isolation_forest_model : option Model;
  model_path : model_file;
  alerts : Utils.alerts_log;
  logging : list (level * string);
  db : Models.database
}.

Definition set_model (m : option Model) (w : world) : world :=
  {| isolation_forest_model := m; model_path := model_path w;
     alerts := alerts w; logging := logging w; db := db w |}.

Definition set_alerts (a : Utils.alerts_log) (w : world) : world :=
  {| isolation_forest_model := isolation_forest_model w;
     model_path := model_path w;
     alerts := a; logging := logging w; db := db w |}.

Definition set_db (d : Models.database) (w : world) : world :=
  {| isolation_forest_model := isolation_forest_model w;
     model_path := model_path w;
     alerts := alerts w; logging := logging w; db := d |}.

(** [logging.info], [logging.warning], [logging.error]. *)
Definition log (l : level) (msg : string) (w : world) : world :=
  {| isolation_forest_model := isolation_forest_model w;
     model_path := model_path w;
     alerts := alerts w; logging := (logging w ++ [(l, msg)])%list;
     db := db w |}.

(** The file at [MODEL_PATH] replaced. *)
Definition set_model_path (f : model_file) (w : world) : world :=
  {| isolation_forest_model := isolation_forest_model w;
     model_path := f;
     alerts := alerts w; logging := logging w; db := db w |}.

(** ** [ml_model.py] *)

Module MlModel.
Import Config.

(** [MODEL_PATH]; the directory is that of the installation and only shows
    in log messages. *)
Definition MODEL_PATH : string := "aegis/model/model.pkl".

Definition load_model (w : world) : world :=
  match model_path w with
  | SavedModel m =>
      let w := log INFO ("Loading model from " ++ MODEL_PATH) w in
      let w := set_model (Some m) w in
      log INFO "Model loaded successfully" w
  | NoModelFile =>
      let w := log WARNING
                 "Model file not found. You need to train the model first." w in
      set_model None w
  | UnreadableModel e =>
      let w := log INFO ("Loading model from " ++ MODEL_PATH) w in
      let w := log ERROR ("Error loading model: " ++ e) w in
      set_model None w
  end.

Definition get_model (w : world) : option Model * world :=
  match isolation_forest_model w with
  | None => let w := load_model w in (isolation_forest_model w, w)
  | Some m => (Some m, w)
  end.

(** [[data_point[feature] for feature in MODEL_FEATURES]]. *)
Fixpoint features_of (features : list string) (data_point : dict)
    : result (list value) :=
  match features with
  | [] => Ok []
  | feature :: rest =>
      let* v := PyDict.item feature data_point in
      let* vs := features_of rest data_point in
      Ok (v :: vs)
  end.

(** The body of the [try] of [predict_anomaly]. *)
Definition score_point (model : Model) (data_point : dict)
    : result (bool * float * string) :=
  let* features := features_of MODEL_FEATURES data_point in
  let* anomaly_score := score_samples model features in
  let is_anomaly := (anomaly_score <? ANOMALY_THRESHOLD)%float in
  let message :=
    if is_anomaly
    then "Anomaly detected with score " ++ PyFloat.format_4f anomaly_score
    else "Normal data point with score " ++ PyFloat.format_4f anomaly_score in
  Ok (is_anomaly, anomaly_score, message).

Definition predict_anomaly (w : world) (data_point : dict)
    : (bool * float * string) * world :=
  let (model, w) := get_model w in
  match model with
  | None =>
      ((false, 0%float,
        "Model not loaded, unable to perform anomaly detection"), w)
  | Some model =>
      match score_point model data_point with
      | Ok r => (r, w)
      | Raise e =>
          let w := log ERROR ("Error during anomaly prediction: " ++ e) w in
          ((false, 0%float, "Error during prediction: " ++ e), w)
      end
  end.

(** *** [save_model] *)

Section Saving.

(** [joblib.dump(model, MODEL_PATH)] on the file as it is: the file it
    leaves, and the text of the exception when it raises. *)
Variable joblib_dump : Model -> model_file -> model_file * option string.
(** [json.dumps] of a dictionary of parameters. *)
Variable json_dumps : dict -> result string.
(** [getattr(model, name, default)]. *)
Variable getattr : Model -> string -> value -> value.

(** [json.dumps(MODEL_FEATURES)]. *)
Definition MODEL_FEATURES_json : string :=
  "[" ++ PyStr.join ", " (map (fun f => PyStr.quote ++ f ++ PyStr.quote)
                           MODEL_FEATURES) ++ "]".

(** The parameters recorded with a model: those given, overwritten by the
    attributes of the model. *)
Definition recorded_parameters (model : Model) (parameters : option dict)
    : dict :=
  let parameters := match parameters with
                    | None => []
                    | Some parameters => parameters
                    end in
  PyDict.update parameters
    [("n_estimators", getattr model "n_estimators" (VInt 100));
     ("max_samples", getattr model "max_samples" (VStr "auto"));
     ("contamination",
      getattr model "contamination" (VFloat 0x1.999999999999ap-4%float));
     ("random_state", getattr model "random_state" (VInt 42))].

(** [save_model(model, training_data_size, parameters)] on the table
    [model_metadata] as [table].  [in_app_context] tells whether
    [flask.current_app] is bound; [version_time] and [insert_time] are
    what [datetime.utcnow()] reads in [create_version] and when the new
    row gets its default [created_at].  The database accepts the row. *)
Definition save_model (w : world) (table : list Models.ModelMetadata)
    (in_app_context : bool) (version_time insert_time : PyTime.datetime)
    (model : Model) (training_data_size : option Z)
    (parameters : option dict)
    : bool * world * list Models.ModelMetadata :=
  match joblib_dump model (model_path w) with
  | (file, Some e) =>
      let w := set_model_path file w in
      (false, log ERROR ("Error saving model: " ++ e) w, table)
  | (file, None) =>
      let w := set_model_path file w in
      let w := log INFO ("Model saved to " ++ MODEL_PATH) w in
      if in_app_context then
        let table := Models.deactivate_all table in
        let model_version := Models.create_version version_time in
        let parameters := recorded_parameters model parameters in
        match json_dumps parameters with
        | Raise e =>
            (true,
             log ERROR ("Error saving model metadata to database: " ++ e) w,
             table)
        | Ok parameters_json =>
            let metadata :=
              {| Models.mm_id := Z.of_nat (List.length table) + 1;
                 Models.mm_version := model_version;
                 Models.mm_created_at := insert_time;
                 Models.mm_features := MODEL_FEATURES_json;
                 Models.mm_parameters := Some parameters_json;
                 Models.mm_training_samples :=
                   match training_data_size with
                   | Some n => n
                   | None => 0
                   end;
                 Models.mm_performance_metrics := None;
                 Models.mm_is_active := true |} in
            (true,
             log INFO ("Model metadata saved to database with version "
                       ++ model_version) w,
             (table ++ [metadata])%list)
        end
      else
        (true,
         log WARNING
           "Not in Flask app context, skipping model metadata database entry"
           w,
         table)
  end.

End Saving.

End MlModel.

(** ** [aegis/train_model.py] *)

Module TrainModel.

(** [float(n)] for an integer [n], as the product of [n] with a float takes
    it: the nearest binary64 number; an integer beyond the range of the
    floats raises [OverflowError]. *)
Definition int_to_float (n : Z) : result float :=
  let x := SF2Prim (binary_normalize 53 1024 n 0 false) in
  match Prim2SF x with
  | S754_infinity _ => Raise "int too large to convert to float"
  | _ => Ok x
  end.

(** [int(x)] for a float [x]: its integer part; [nan] raises
    [ValueError], an infinity [OverflowError]. *)
Definition int_of_float (x : float) : result Z :=
  match Prim2SF x with
  | S754_nan => Raise "cannot convert float NaN to integer"
  | S754_infinity _ => Raise "cannot convert float infinity to integer"
  | S754_zero _ => Ok 0
  | S754_finite s m e =>
      let n := if 0 <=? e then Z.pos m * 2 ^ e else Z.pos m / 2 ^ (- e) in
      Ok (if s then - n else n)
  end.

(** A row of a data frame with the columns temperature, pressure and
    rpm. *)
Definition row : Type := (float * float * float)%type.

(** [pd.DataFrame({"temperature": t, "pressure": p, "rpm": r})]: the rows
    of the frame; columns of different lengths raise [ValueError]. *)
Definition DataFrame (t p r : list float) : result (list row) :=
  if (List.length t =? List.length p)%nat && (List.length p =? List.length r)%nat
  then Ok (combine (combine t p) r)
  else Raise "All arrays must be of the same length".

Section Sampling.

(** The state of the random generator of numpy. *)
Variable rng : Type.
(** [np.random.normal(loc, scale, size)] in a state of the generator: the
    draws, or the exception raised (for a negative size), and the state
    left. *)
Variable normal : float -> float -> Z -> rng -> result (list float) * rng.
(** [frame.sample(frac=1).reset_index(drop=True)]: the rows in a random
    order. *)
Variable sample : list row -> rng -> list row * rng.

(** A computation that draws: its result or its exception, and the state
    of the generator it leaves. *)
Definition drawing (A : Type) : Type := rng -> result A * rng.

Definition ret {A : Type} (a : A) : drawing A := fun g => (Ok a, g).

Definition and_then {A B : Type} (m : drawing A) (k : A -> drawing B)
    : drawing B :=
  fun g => match m g with
           | (Ok a, g) => k a g
           | (Raise e, g) => (Raise e, g)
           end.

Definition lift {A : Type} (r : result A) : drawing A := fun g => (r, g).

Local Notation "'draw' x ':=' m 'in' k" := (and_then m (fun x => k))
  (at level 10, x name, m at level 100, k at level 200).

(** [generate_synthetic_data(n_samples, contamination)]. *)
Definition generate_synthetic_data (n_samples : Z) (contamination : float)
    : drawing (list row) :=
  draw n := lift (int_to_float n_samples) in
  draw n_normal := lift (int_of_float (n * (1 - contamination))%float) in
  let n_anomalous := n_samples - n_normal in
  draw temperature := normal 75 5 n_normal in
  draw pressure := normal 100 10 n_normal in
  draw rpm := normal 3000 200 n_normal in
  draw normal_data := lift (DataFrame temperature pressure rpm) in
  draw colder := normal 40 5 (n_anomalous / 3) in
  draw hotter := normal 110 10 (n_anomalous / 3) in
  draw wider := normal 75 20 (n_anomalous / 3) in
  let temperature := (colder ++ hotter ++ wider)%list in
  draw lower := normal 50 10 (n_anomalous / 3) in
  draw higher := normal 150 15 (n_anomalous / 3) in
  draw wider := normal 100 30 (n_anomalous / 3) in
  let pressure := (lower ++ higher ++ wider)%list in
  draw slower := normal 1000 200 (n_anomalous / 3) in
  draw faster := normal 5000 300 (n_anomalous / 3) in
  draw wider := normal 3000 800 (n_anomalous / 3) in
  let rpm := (slower ++ faster ++ wider)%list in
  draw anomalous_data := lift (DataFrame temperature pressure rpm) in
  let all_data := (normal_data ++ anomalous_data)%list in
  fun g => let (all_data, g) := sample all_data g in (Ok all_data, g).

End Sampling.

End TrainModel.

(** ** [aegis/routes.py]: the [/detect] route *)

Module Routes.
Import Config PyTime Models MlModel.

(** What the route has computed for a reading when it commits: the
    scorer's verdict and the malware correlation. *)
Record DetectionResult : Type := {
  is_anomaly : bool;
  anomaly_score : float;
  message : string;
  is_potential_malware : bool;
  anomaly_count : Z
}.

(** A response: the HTTP status and the JSON body. *)
Definition response : Type := (Z * dict)%type.

Definition error_response (http_status : Z) (msg : string) : response :=
  (http_status, [("status", VStr "error"); ("message", VStr msg)]).

Definition required_fields : list string :=
  ["device_id"; "timestamp"; "temperature"; "pressure"; "rpm"].

(** The loop over [required_fields]: the first one that is not in the
    body. *)
Fixpoint first_missing (fields : list string) (data : dict) : option string :=
  match fields with
  | [] => None
  | field :: rest =>
      if negb (PyDict.mem field data) then Some field
      else first_missing rest data
  end.

(** [s.replace('Z', '+00:00')]. *)
Fixpoint replace_Z (s : string) : string :=
  match s with
  | EmptyString => EmptyString
  | String c rest =>
      if Ascii.eqb c "Z" then "+00:00" ++ replace_Z rest
      else String c (replace_Z rest)
  end.

Section Collaborators.

(** The runtime and library calls of the route whose results the engine
    only passes on. *)
Variable fromisoformat : string -> result datetime.
Variable fromtimestamp : value -> result datetime.
Variable isoformat : datetime -> string.
(** [float(v)]. *)
Variable py_float : value -> result float.
(** The database behind [DATABASE_URL], as in [Models]. *)
Variable float_column : value -> bool.
Variable database_error : refused -> string.

(** The timestamp of the request as a datetime. *)
Definition parse_timestamp (v : value) : result datetime :=
  match v with
  | VStr s => fromisoformat (replace_Z s)
  | _ => fromtimestamp v
  end.

(** The timestamp as [from_dict] keeps it: only a string is converted. *)
Definition stored_timestamp (v : value) : result time_column :=
  match v with
  | VStr s => let* t := fromisoformat (replace_Z s) in Ok (Parsed t)
  | _ => Ok (Unparsed v)
  end.

(** [SensorData.from_dict(data, device)]. *)
Definition SensorData_from_dict (data : dict) (device : Device)
    : result SensorData :=
  let* timestamp := stored_timestamp (PyDict.get "timestamp" data) in
  Ok {| sd_device_id := id device;
        sd_timestamp := timestamp;
        sd_temperature := PyDict.get "temperature" data;
        sd_pressure := PyDict.get "pressure" data;
        sd_rpm := PyDict.get "rpm" data |}.

(** [Anomaly.from_dict(data, device, anomaly_score, is_malware)]. *)
Definition Anomaly_from_dict (data : dict) (device : Device)
    (anomaly_score : float) (is_malware : bool) : result Anomaly :=
  let* timestamp := stored_timestamp (PyDict.get "timestamp" data) in
  let* temperature := py_float (PyDict.get_default "temperature" (VInt 0) data) in
  let* pressure := py_float (PyDict.get_default "pressure" (VInt 0) data) in
  let* rpm := py_float (PyDict.get_default "rpm" (VInt 0) data) in
  Ok {| an_device_id := id device;
        an_timestamp := timestamp;
        an_anomaly_score := anomaly_score;
        an_is_malware := is_malware;
        an_temperature := temperature;
        an_pressure := pressure;
        an_rpm := rpm |}.

(** The text [f"Device {device_id}"] prints for the id of the request;
    the devices table is keyed by it. *)
Definition device_key (data : dict) : string :=
  Utils.str_value (PyDict.get "device_id" data).

(** "Detect anomaly" and "Check for potential malware if it's an anomaly":
    the scorer's verdict, and the correlation when the verdict is an
    anomaly.  [now] is what [datetime.now()] reads inside
    [check_for_malware]. *)
Definition classify (w : world) (now : datetime) (data : dict)
    : DetectionResult * world :=
  let '((is_anomaly, anomaly_score, message), w) := predict_anomaly w data in
  let is_potential_malware := false in
  let anomaly_count := 0 in
  let '(is_potential_malware, anomaly_count) :=
    if is_anomaly
    then Utils.check_for_malware (alerts w) now (device_key data)
    else (is_potential_malware, anomaly_count) in
  ({| is_anomaly := is_anomaly;
      anomaly_score := anomaly_score;
      message := message;
      is_potential_malware := is_potential_malware;
      anomaly_count := anomaly_count |}, w).

(** The tables once the pending rows of the request are written. *)
Definition flushed (device_id : string) (device : Device) (row : SensorData)
    (anomaly : option Anomaly) (d : database) : database :=
  {| devices := <[device_id := device]> (devices d);
     sensor_data := (sensor_data d ++ [row])%list;
     anomalies := (anomalies d ++ match anomaly with
                                  | Some a => [a]
                                  | None => []
                                  end)%list |}.

(** [db.session.commit()] with the pending rows of the request: the
    database writes them all, or it refuses one, the commit raises and
    nothing of them is written. *)
Definition commit (device_id : string) (device : Device) (row : SensorData)
    (anomaly : option Anomaly) (d : database) : result database :=
  if takes_sensor_data float_column row
     && match anomaly with
        | Some a => takes_anomaly float_column a
        | None => true
        end
  then Ok (flushed device_id device row anomaly d)
  else Raise (database_error (RefusedRows row anomaly)).

(** The JSON body of a successful detection. *)
Definition detection_body (data : dict) (timestamp : datetime)
    (r : DetectionResult) : dict :=
  let result :=
    [("status", VStr "success");
     ("device_id", PyDict.get "device_id" data);
     ("timestamp", VStr (isoformat timestamp));
     ("is_anomaly", VBool (is_anomaly r));
     ("anomaly_score", VFloat (anomaly_score r));
     ("threshold", VFloat ANOMALY_THRESHOLD);
     ("message", VStr (message r))] in
  let malware_info :=
    if is_anomaly r then
      ([("is_potential_malware", VBool (is_potential_malware r));
        ("anomaly_count", VInt (anomaly_count r))]
       ++ (if is_potential_malware r then
             [("warning",
               VStr "CRITICAL: Multiple anomalies detected in short timeframe. Possible malware activity!")]
           else []))%list
    else [] in
  (result ++ malware_info)%list.

(** The inner [try] of [detect_anomaly]: the response, or the exception
    that ends it, with the state left behind.  The device is committed by
    [get_or_create] and [update_last_seen]; the rows added to the session
    and the new status are written by the final commit only, and are lost
    when the request ends without it. *)
Definition process (w : world) (now utcnow : datetime) (data : dict)
    : result response * world :=
  match parse_timestamp (PyDict.get "timestamp" data) with
  | Raise e => (Raise e, w)
  | Ok timestamp =>
      let device_id := device_key data in
      match get_or_create database_error (PyDict.get "device_id" data)
              (db w) with
      | Raise e => (Raise e, w)
      | Ok (device, d) =>
          let (device, d) := update_last_seen device_id device utcnow d in
          let w := set_db d w in
          match SensorData_from_dict data device with
          | Raise e => (Raise e, w)
          | Ok sensor_data =>
              let (r, w) := classify w now data in
              let stored :=
                if is_anomaly r then
                  let* anomaly := Anomaly_from_dict data device
                                    (anomaly_score r)
                                    (is_potential_malware r) in
                  let device := if is_potential_malware r
                                then set_status "compromised" device
                                else device in
                  Ok (Some anomaly, device)
                else Ok (None, device) in
              match stored with
              | Raise e => (Raise e, w)
              | Ok (anomaly, device) =>
                  match commit device_id device sensor_data anomaly
                          (db w) with
                  | Raise e => (Raise e, w)
                  | Ok d =>
                      (Ok (200, detection_body data timestamp r), set_db d w)
                  end
              end
          end
      end
  end.

(** [detect_anomaly()] for the request body [data], when the local clock
    reads [now] and the UTC clock [utcnow].  The body is a JSON object
    (the outer handler answers any other body with the status 500). *)
Definition detect_anomaly (w : world) (now utcnow : datetime) (data : dict)
    : response * world :=
  match first_missing required_fields data with
  | Some field =>
      (error_response 400 ("Missing required field: " ++ field), w)
  | None =>
      let (model, w) := get_model w in
      match model with
      | None =>
          (error_response 400
             "No trained model available for anomaly detection", w)
      | Some _ =>
          match process w now utcnow data with
          | (Ok resp, w) => (resp, w)
          | (Raise e, w) =>
              let w := log ERROR ("Error processing anomaly detection: " ++ e)
                         w in
              (error_response 500 ("Error during anomaly detection: " ++ e), w)
          end
      end
  end.

(** The requests of [requests] served one after the other, each with the
    readings of the two clocks at its arrival: the responses, and the
    state left behind. *)
Fixpoint serve (w : world) (requests : list (datetime * datetime * dict))
    : list response * world :=
  match requests with
  | [] => ([], w)
  | (now, utcnow, data) :: rest =>
      let (resp, w) := detect_anomaly w now utcnow data in
      let (resps, w) := serve w rest in
      (resp :: resps, w)
  end.

(** *** The [/ingest] route *)

(** The inner [try] of [ingest_data]. *)
Definition store (w : world) (utcnow : datetime) (data : dict)
    : result response * world :=
  match parse_timestamp (PyDict.get "timestamp" data) with
  | Raise e => (Raise e, w)
  | Ok timestamp =>
      let device_id := device_key data in
      match get_or_create database_error (PyDict.get "device_id" data)
              (db w) with
      | Raise e => (Raise e, w)
      | Ok (device, d) =>
          let (device, d) := update_last_seen device_id device utcnow d in
          let w := set_db d w in
          match SensorData_from_dict data device with
          | Raise e => (Raise e, w)
          | Ok sensor_data =>
              match commit device_id device sensor_data None (db w) with
              | Raise e => (Raise e, w)
              | Ok d =>
                  (Ok (200, [("status", VStr "success");
                             ("message", VStr "Data ingested successfully")]),
                   set_db d w)
              end
          end
      end
  end.

(** [ingest_data()] for the request body [data] when the UTC clock reads
    [utcnow], under the conventions of [detect_anomaly]. *)
Definition ingest_data (w : world) (utcnow : datetime) (data : dict)
    : response * world :=
  match first_missing required_fields data with
  | Some field =>
      (error_response 400 ("Missing required field: " ++ field), w)
  | None =>
      match store w utcnow data with
      | (Ok resp, w) => (resp, w)
      | (Raise e, w) =>
          let w := log ERROR ("Error processing data: " ++ e) w in
          (error_response 500 ("Error processing data: " ++ e), w)
      end
  end.

End Collaborators.

(** *** The [/train-synthetic] route *)

Section Training.

(** [int(v)] and [float(v)] for a value of the request. *)
Variable py_int : value -> result Z.
Variable py_float : value -> result float.
(** The random generator of numpy, with its draws and its reordering. *)
Variable rng : Type.
Variable normal : float -> float -> Z -> rng -> result (list float) * rng.
Variable sample : list TrainModel.row -> rng -> list TrainModel.row * rng.
(** [create_model()] fitted on the rows of the frame. *)
Variable fit : list TrainModel.row -> result Model.
(** The calls of [save_model]. *)
Variable joblib_dump : Model -> model_file -> model_file * option string.
Variable json_dumps : dict -> result string.
Variable getattr : Model -> string -> value -> value.

(** What a training request works on: the process and its files, the
    table [model_metadata], and the random generator. *)
Definition trainer : Type := (world * list ModelMetadata * rng)%type.

(** The response of a training route: the HTTP status, the entries of the
    body other than ["details"], and the entries of ["details"]. *)
Definition training_response : Type := (Z * dict * dict)%type.

Definition training_error (http_status : Z) (msg : string)
    : training_response :=
  (http_status, [("status", VStr "error"); ("message", VStr msg)], []).

(** The [try] of [train_synthetic]: the response, or the exception that
    ends it, with the state left behind.  [start_time] and [end_time] are
    the two readings of [time.time()]; a route runs inside an application
    context. *)
Definition train_synthetic_try (st : trainer) (start_time end_time : float)
    (version_time insert_time : datetime) (params : dict)
    : result training_response * trainer :=
  let '(w, table, g) := st in
  match py_int (PyDict.get_default "sample_count" (VInt 5000) params) with
  | Raise e => (Raise e, st)
  | Ok sample_count =>
  match py_float (PyDict.get_default "contamination"
                    (VFloat 0x1.999999999999ap-4%float) params) with
  | Raise e => (Raise e, st)
  | Ok contamination =>
      if (sample_count <? 1000) || (50000 <? sample_count) then
        (Ok (training_error 400
               "Sample count must be between 1,000 and 50,000"), st)
      else if ((contamination <? 0x1.47ae147ae147bp-7)
               || (0.5 <? contamination))%float then
        (Ok (training_error 400
               "Contamination rate must be between 0.01 and 0.5"), st)
      else
        match TrainModel.generate_synthetic_data rng normal sample
                sample_count contamination g with
        | (Raise e, g) => (Raise e, (w, table, g))
        | (Ok training_data, g) =>
            match fit training_data with
            | Raise e => (Raise e, (w, table, g))
            | Ok model =>
                let parameters :=
                  [("n_samples", VInt sample_count);
                   ("contamination", VFloat contamination)] in
                let n := Z.of_nat (List.length training_data) in
                let '(success, w, table) :=
                  save_model joblib_dump json_dumps getattr w table true
                    version_time insert_time model (Some n)
                    (Some parameters) in
                let training_time := (end_time - start_time)%float in
                if negb success then
                  (Ok (training_error 500 "Failed to save the trained model"),
                   (w, table, g))
                else
                  (Ok (200,
                       [("status", VStr "success");
                        ("message",
                         VStr "Model trained and saved successfully with synthetic data")],
                       [("n_samples", VInt n);
                        ("contamination", VFloat contamination);
                        ("features",
                         VOther "['temperature', 'pressure', 'rpm']");
                        ("training_time", VFloat training_time)]),
                   (w, table, g))
            end
        end
  end end.

(** [train_synthetic()] for the request body [params]. *)
Definition train_synthetic (st : trainer) (start_time end_time : float)
    (version_time insert_time : datetime) (params : dict)
    : training_response * trainer :=
  match train_synthetic_try st start_time end_time version_time insert_time
          params with
  | (Ok resp, st) => (resp, st)
  | (Raise e, (w, table, g)) =>
      let w := log ERROR ("Error in train_synthetic endpoint: " ++ e) w in
      (training_error 500 ("An error occurred: " ++ e), (w, table, g))
  end.

End Training.

(** *** The [/model] route *)

Section ModelInformation.

Variable isoformat : datetime -> string.
(** [json.loads]. *)
Variable json_loads : string -> result value.

(** The response of [/model]: the HTTP status, the entries of the body
    other than ["model"], and the entries of ["model"]. *)
Definition model_response : Type := (Z * dict * dict)%type.

(** [json.loads(text) if text else default], for a column that may be
    empty or null. *)
Definition loads_or (default : value) (column : option string)
    : result value :=
  match column with
  | Some (String c rest) => json_loads (String c rest)
  | Some EmptyString | None => Ok default
  end.

(** [get_model_info()] when [ModelMetadata.get_active_model()] returns
    [model_metadata]. *)
Definition get_model_info (w : world)
    (model_metadata : option ModelMetadata) : model_response * world :=
  match model_metadata with
  | None =>
      ((200,
        [("status", VStr "warning");
         ("message", VStr "No active model found in database")],
        [("version", VStr "default");
         ("created_at", VNone);
         ("features", VOther "['temperature', 'pressure', 'rpm']");
         ("training_samples", VInt 0)]), w)
  | Some model_metadata =>
      let model_data :=
        let* features :=
          loads_or (VOther "['temperature', 'pressure', 'rpm']")
            (Some (mm_features model_metadata)) in
        let* parameters :=
          loads_or (VOther "{}") (mm_parameters model_metadata) in
        let* performance_metrics :=
          loads_or (VOther "{}") (mm_performance_metrics model_metadata) in
        Ok [("version", VStr (mm_version model_metadata));
            ("created_at", VStr (isoformat (mm_created_at model_metadata)));
            ("features", features);
            ("parameters", parameters);
            ("training_samples", VInt (mm_training_samples model_metadata));
            ("performance_metrics", performance_metrics)] in
      match model_data with
      | Ok model_data => ((200, [("status", VStr "success")], model_data), w)
      | Raise e =>
          let w := log ERROR ("Error in get_model_info endpoint: " ++ e) w in
          ((500, [("status", VStr "error");
                  ("message", VStr ("An error occurred: " ++ e))], []), w)
      end
  end.

End ModelInformation.

End Routes.

(** * Properties of the engine *)

Import Config PyTime Utils Models MlModel Routes.

(** ** Vocabulary of the statements *)

(** A line of the alerts log is counted for [device_id] by a check whose
    window starts at [window_start]: its timestamp parses and is not
    earlier than [window_start], and the text ["Device <device_id>"]
    occurs in it. *)
Definition counted (window_start : datetime) (device_id : string)
    (line : string) : bool :=
  match parse_log_time line with
  | Some t =>
      (window_start <=? t) && PyStr.contains ("Device " ++ device_id) line
  | None => false
  end.

(** The number of lines of [log] counted for [device_id] by a window that
    starts at [window_start]. *)
Definition window_count (window_start : datetime) (device_id : string)
    (log : alerts_log) : Z :=
  match log with
  | None => 0
  | Some content =>
      Z.of_nat (List.length (List.filter (counted window_start device_id)
                               (readlines content)))
  end.

(** The two ways [validate_data] rejects a reading, told by its message. *)
Definition missing_field_error (r : bool * string) : Prop :=
  fst r = false /\ String.prefix "Missing required fields: " (snd r) = true.


(** The field is a key of the reading; the value [get] finds for it is
    an [int] or a [float]. *)
Definition present (data : dict) (field : string) : bool :=
  PyDict.mem field data.

Definition numeric (data : dict) (field : string) : bool :=
  isinstance_int_float (PyDict.get field data).

(** The status of the device [device_id] in the devices table, if it has
    a row. *)
Definition status_of (w : world) (device_id : string) : option string :=
  status <$> devices (db w) !! device_id.

(** Loading the model fails: there is no file at [MODEL_PATH], or
    [joblib.load] raises on it. *)
Definition load_fails (w : world) : Prop :=
  match model_path w with
  | SavedModel _ => False
  | NoModelFile | UnreadableModel _ => True
  end.

(** What [predict_anomaly] returns for its message when no model can be
    had. *)
Definition MODEL_NOT_LOADED : string :=
  "Model not loaded, unable to perform anomaly detection".

(** ** Sample readings, logs, models and states *)

(** A reading of device [D1] with its five fields, and one of device
    [D10]. *)
Definition reading_D1 : dict :=
  [("timestamp", VStr "2024-01-01T12:01:00"); ("device_id", VStr "D1");
   ("temperature", VInt 500); ("pressure", VInt 2); ("rpm", VInt 3)].

Definition reading_D10 : dict :=
  [("timestamp", VStr "2024-01-01T12:00:00"); ("device_id", VStr "D10");
   ("temperature", VInt 900); ("pressure", VInt 2); ("rpm", VInt 3)].


Definition reading_text_temperature : dict :=
  [("timestamp", VStr "2024-01-01T12:01:00"); ("device_id", VStr "D1");
   ("temperature", VStr "hot"); ("rpm", VInt 3)].

Definition reading_booleans : dict :=
  [("timestamp", VStr "2024-01-01T12:01:00"); ("device_id", VStr "D1");
   ("temperature", VBool true); ("pressure", VBool false);
   ("rpm", VBool true)].

(** A reading whose temperature is a boolean and whose pressure is a
    text; a reading whose temperature is a boolean, without timestamp and
    device id. *)
Definition reading_boolean_and_text : dict :=
  [("timestamp", VStr "2024-01-01T12:01:00"); ("device_id", VStr "D1");
   ("temperature", VBool true); ("pressure", VStr "high");
   ("rpm", VInt 3)].

Definition reading_boolean_without_ids : dict :=
  [("temperature", VBool true); ("pressure", VInt 2); ("rpm", VInt 3)].

(** 2024-01-01 12:00:00. *)
Definition noon : datetime := 1704110400000000.

(** The line [log_anomaly] writes at noon for an anomaly of [D1], and the
    log made of [n] such lines. *)
Definition sample_line : string :=
  "[2024-01-01 12:00:00] ANOMALY DETECTED: Device D1, Score: -0.5000, Data: temperature=500, pressure=2, rpm=3"
  ++ String LF EmptyString.

Fixpoint sample_log (n : nat) : string :=
  match n with
  | O => EmptyString
  | S k => sample_line ++ sample_log k
  end.

(** The alerts log after [log_anomaly] has recorded the readings of
    [readings] one after the other, each with the score -0.5 and at the
    time paired with it. *)
Fixpoint record_all (log : alerts_log) (readings : list (datetime * dict))
    : alerts_log :=
  match readings with
  | [] => log
  | (now, data) :: rest =>
      record_all (fst (log_anomaly log now data (-0.5)%float)) rest
  end.

(** A model that gives every row the score [s]. *)
Definition constant_model (s : float) : Model :=
  {| score_samples := fun _ => Ok s |}.

Definition empty_db : database :=
  {| devices := ∅; sensor_data := []; anomalies := [] |}.

(** A process that holds the model [m], with the file [f] at
    [MODEL_PATH], the alerts log [a], and nothing logged or stored yet. *)
Definition fresh_world (m : option Model) (f : model_file) (a : alerts_log)
    : world :=
  {| isolation_forest_model := m; model_path := f; alerts := a;
     logging := []; db := empty_db |}.

(** A process that holds a model for which every reading is normal (score
    0.125), with three alerts of [D1] in the log. *)
Definition quiet_world : world :=
  fresh_world (Some (constant_model 0.125%float)) NoModelFile
    (Some (sample_log 3)).

(** A process that holds a model for which every reading is an anomaly
    (score -0.5), on an installation whose alerts log does not exist
    yet. *)
Definition alarmed_world : world :=
  fresh_world (Some (constant_model (-0.5)%float)) NoModelFile None.

(** A process without a model on an installation without a model file,
    and the same process with a model that gives every reading the score
    0.0. *)
Definition untrained_world : world := fresh_world None NoModelFile None.

Definition indifferent_world : world :=
  fresh_world (Some (constant_model 0%float)) NoModelFile None.

(** A process with an active model (score -0.5 for every reading) whose
    model file has become unreadable. *)
Definition reloading_world : world :=
  fresh_world (Some (constant_model (-0.5)%float))
    (UnreadableModel "invalid load key") None.

(** *** Collaborators for the sample requests

    The library calls whose results the route passes on, in the form the
    sample readings need: ISO timestamps [YYYY-MM-DDTHH:MM:SS] without a
    zone, epoch seconds read as UTC, and [float()] of numbers. *)

Fixpoint replace_char (a b : ascii) (s : string) : string :=
  match s with
  | EmptyString => EmptyString
  | String c rest =>
      String (if Ascii.eqb c a then b else c) (replace_char a b rest)
  end.

Definition sample_fromisoformat (s : string) : result datetime :=
  match strptime (replace_char "T" " " s) with
  | Some t => Ok t
  | None => Raise ("Invalid isoformat string: '" ++ s ++ "'")
  end.

Definition sample_fromtimestamp (v : value) : result datetime :=
  match v with
  | VInt n => Ok (timedelta n)
  | _ => Raise "an integer is required"
  end.

Definition sample_isoformat (t : datetime) : string :=
  replace_char " " "T" (strftime t).

(** [float(n)] for an integer: the nearest binary64 number. *)
Definition float_of_int (n : Z) : float :=
  SF2Prim (binary_normalize 53 1024 n 0 false).

Definition sample_py_float (v : value) : result float :=
  match v with
  | VInt n => Ok (float_of_int n)
  | VFloat x => Ok x
  | VBool b => Ok (if b then 1%float else 0%float)
  | _ => Raise "float() argument must be a string or a real number"
  end.

(** A database that takes numbers in its [Float] columns, and the texts
    of its refusals. *)
Definition sample_float_column (v : value) : bool := isinstance_int_float v.

Definition sample_database_error (r : refused) : string :=
  match r with
  | RefusedDevice _ => "null value in column device_id"
  | RefusedRows _ _ => "the rows of the reading are refused"
  end.

(** The route with the sample collaborators, both clocks reading [now];
    and the state it leaves. *)
Definition sample_detect (w : world) (now : datetime) (data : dict)
    : response * world :=
  detect_anomaly sample_fromisoformat sample_fromtimestamp sample_isoformat
    sample_py_float sample_float_column sample_database_error w now now data.

Definition after (w : world) (now : datetime) (data : dict) : world :=
  snd (sample_detect w now data).

(** ** Vocabulary of the further properties *)

(** The year of a datetime, and the datetime cut to the whole second. *)
Definition year_of (t : datetime) : Z :=
  fst (fst (civil_from_days (t / 1000000 / 86400))).

Definition whole_second (t : datetime) : datetime := t - t mod 1000000.

(** The four digits that [strftime] prints for the year [y] read back as
    [y]. *)
Definition four_digits_read_back (y : Z) : bool :=
  match parse_Y (PyStr.zfill 4 y) with
  | Some (y', EmptyString) =>
      (y' =? y) && (String.length (PyStr.zfill 4 y) =? 4)%nat
  | _ => false
  end.

(** Every character of [s] satisfies [p]; [s] is free of the character
    [sep]; [s] holds no line break. *)
Fixpoint all_chars (p : ascii -> bool) (s : string) : bool :=
  match s with
  | EmptyString => true
  | String c rest => p c && all_chars p rest
  end.

Definition without (sep : ascii) (s : string) : bool :=
  all_chars (fun c => negb (Ascii.eqb c sep)) s.

Definition one_line (s : string) : bool := without LF s && without CR s.

(** The characters of a formatted number or time. *)
Definition plain (c : ascii) : bool :=
  is_digit c || Ascii.eqb c "-" || Ascii.eqb c ":" || Ascii.eqb c " "
  || Ascii.eqb c ".".

(** A text is complete when it is empty or ends with a line feed; an
    alerts log is complete when it does not exist or its text is
    complete.  [log_anomaly] leaves a complete log. *)
Fixpoint complete (text : string) : bool :=
  match text with
  | EmptyString => true
  | String c rest =>
      match rest with
      | EmptyString => Ascii.eqb c LF
      | String _ _ => complete rest
      end
  end.

Definition complete_log (log : alerts_log) : bool :=
  match log with
  | None => true
  | Some content => complete content
  end.

(** The device of a reading as [log_anomaly] prints it, and the values of
    the reading that [log_anomaly] prints. *)
Definition device_text (data : dict) : string :=
  str_value (PyDict.get_default "device_id" (VStr "unknown") data).

Definition logged_values (data : dict) : list value :=
  PyDict.get_default "device_id" (VStr "unknown") data
  :: map snd (List.filter (fun kv => existsb (String.eqb (fst kv)) logged_fields)
                data).

(** A reading can be recorded at the time [now] when none of the values
    printed holds a line break and the year of [now] has four digits. *)
Definition one_line_reading (data : dict) : bool :=
  forallb (fun v => one_line (str_value v)) (logged_values data).

Definition recordable (now : datetime) (data : dict) : Prop :=
  one_line_reading data = true /\ 1000 <= year_of now <= 9999.

(** The alerts log after [log_anomaly] has recorded the readings of
    [records] one after the other, each at its time and with its score. *)
Fixpoint log_anomalies (log : alerts_log)
    (records : list (datetime * dict * float)) : alerts_log :=
  match records with
  | [] => log
  | (now, data, score) :: rest =>
      log_anomalies (fst (log_anomaly log now data score)) rest
  end.

(** A record of [log_anomalies] that a check for [device_id] at the time
    [now'] counts: it can be recorded, it is of the device, and the window
    of the check starts no later than the second of its recording. *)
Definition counted_record (now' : datetime) (device_id : string)
    (r : datetime * dict * float) : Prop :=
  recordable (fst (fst r)) (snd (fst r))
  /\ device_text (snd (fst r)) = device_id
  /\ now' - timedelta MALWARE_WINDOW_SECONDS <= whole_second (fst (fst r)).

(** The lines of the alerts log. *)
Definition alert_lines (log : alerts_log) : list string :=
  match log with
  | None => []
  | Some content => readlines content
  end.

(** The row of the device [key] and the devices table with it: the row
    the table has, or a new one with the next primary key and the status
    ['active']. *)
Definition registered (key : string) (d : database) : Device * database :=
  match devices d !! key with
  | Some device => (device, d)
  | None =>
      let device := {| id := Z.of_nat (size (devices d)) + 1;
                       last_seen := None;
                       status := "active" |} in
      (device, set_devices (<[key := device]> (devices d)) d)
  end.

(** The device of a request and the database when the reading is about to
    be stored: the row of the device is there, and it has just been
    seen. *)
Definition seen (utcnow : datetime) (data : dict) (d : database)
    : Device * database :=
  let created := registered (device_key data) d in
  update_last_seen (device_key data) (fst created) utcnow (snd created).

(** The database takes the reading of a request as the routes hand it
    over: the device id is not null, the timestamp is a string (no other
    is converted to a datetime by [from_dict]) and the [Float] columns
    take the three values, none of them null. *)
Definition not_null (v : value) : bool :=
  match v with
  | VNone => false
  | _ => true
  end.

Definition is_str (v : value) : bool :=
  match v with
  | VStr _ => true
  | _ => false
  end.

Definition takes_reading (float_column : value -> bool) (data : dict) : bool :=
  not_null (PyDict.get "device_id" data)
  && is_str (PyDict.get "timestamp" data)
  && takes_float float_column (PyDict.get "temperature" data)
  && takes_float float_column (PyDict.get "pressure" data)
  && takes_float float_column (PyDict.get "rpm" data).


(** The names of the attributes of a model that [save_model] records. *)
Definition model_attributes : list string :=
  ["n_estimators"; "max_samples"; "contamination"; "random_state"].

(** [r] is what [first()] may return for a query whose first row is one
    of [candidates]. *)
Definition may_be_first {A : Type} (candidates : list A) (r : option A)
    : Prop :=
  match r with
  | None => candidates = []
  | Some x => In x candidates
  end.

(** ** Samples for the further properties *)

(** [timestamp()] on a host whose local time is UTC. *)
Definition utc_timestamp (t : datetime) : epoch_seconds :=
  Seconds (t / 1000000).

(** The reading of [D1] after [preprocess_data], forty seconds after its
    timestamp. *)
Definition preprocessed_D1 : dict :=
  [("timestamp", VInt 1704110460); ("device_id", VStr "D1");
   ("temperature", VInt 500); ("pressure", VInt 2); ("rpm", VInt 3);
   ("received_at", VInt 1704110500)].

(** A reading of another device with the feature values of the reading of
    [D1]. *)
Definition reading_D2 : dict :=
  [("timestamp", VStr "2024-01-01T12:05:00"); ("device_id", VStr "D2");
   ("temperature", VInt 500); ("pressure", VInt 2); ("rpm", VInt 3);
   ("site", VStr "north")].



(** A dump that writes the model, a serializer that prints an empty
    object, and models without attributes. *)
Definition sample_dump (m : Model) (f : model_file)
    : model_file * option string :=
  (SavedModel m, None).

Definition sample_dumps (d : dict) : result string := Ok "{}".

Definition sample_getattr (m : Model) (name : string) (default : value)
    : value := default.

(** [int(v)] of numbers; a generator without state whose draws are all
    the mean, and whose reordering keeps the order; a fit that returns a
    model for which every reading is normal. *)
Definition sample_py_int (v : value) : result Z :=
  match v with
  | VInt n => Ok n
  | VBool b => Ok (if b then 1 else 0)
  | VFloat x => TrainModel.int_of_float x
  | _ => Raise "int() argument must be a string or a real number"
  end.

Definition sample_normal (loc scale : float) (size : Z) (g : unit)
    : result (list float) * unit :=
  if size <? 0 then (Raise "negative dimensions are not allowed", g)
  else (Ok (repeat loc (Z.to_nat size)), g).

Definition sample_shuffle (rows : list TrainModel.row) (g : unit)
    : list TrainModel.row * unit :=
  (rows, g).

Definition sample_fit (rows : list TrainModel.row) : result Model :=
  Ok (constant_model 0.125%float).

(** The route [/train-synthetic] with the sample collaborators, on a
    fresh installation, timed from 0 to 1.5 seconds. *)
Definition sample_train (params : dict)
    : training_response * trainer unit :=
  train_synthetic sample_py_int sample_py_float unit sample_normal
    sample_shuffle sample_fit sample_dump sample_dumps sample_getattr
    (untrained_world, [], tt) 0%float 1.5%float noon noon params.

(** [json.loads] that keeps the text, and the row of the table of models
    that the first save of a model trained on 4998 rows writes at noon. *)
Definition sample_loads (text : string) : result value := Ok (VOther text).

Definition first_model_row : ModelMetadata :=
  {| mm_id := 1;
     mm_version := "model-20240101120000";
     mm_created_at := noon;
     mm_features := MlModel.MODEL_FEATURES_json;
     mm_parameters := Some "{}";
     mm_training_samples := 4998;
     mm_performance_metrics := None;
     mm_is_active := true |}.




(** ** The malware verdict (C9) *)

Lemma count_line_counted window_start device_id n line :
  count_line window_start device_id n line
  = n + (if counted window_start device_id line then 1 else 0).
Proof.
  unfold count_line, counted.
  destruct (parse_log_time line) as [t|]; [|lia].
  destruct (window_start <=? t); cbn [andb]; [|lia].
  destruct (PyStr.contains _ line); lia.
Qed.

Lemma fold_count_line window_start device_id lines : forall n,
  fold_left (count_line window_start device_id) lines n
  = n + Z.of_nat (List.length (List.filter (counted window_start device_id) lines)).
Proof.
  induction lines as [|line lines IH]; intros n; cbn [fold_left List.filter].
  - cbn. lia.
  - rewrite IH, count_line_counted.
    destruct (counted window_start device_id line); cbn [List.length]; lia.
Qed.

(** What [check_for_malware] returns: the count of the lines in the window
    that starts [MALWARE_WINDOW_SECONDS] before [now], and the comparison
    of that count with the threshold. *)
Lemma check_for_malware_spec log now device_id :
  check_for_malware log now device_id
  = (window_count (now - timedelta MALWARE_WINDOW_SECONDS) device_id log
       >=? MALWARE_THRESHOLD_COUNT,
     window_count (now - timedelta MALWARE_WINDOW_SECONDS) device_id log).
Proof.
  destruct log as [content|]; [|reflexivity].
  unfold check_for_malware, window_count.
  rewrite fold_count_line. reflexivity.
Qed.

Lemma window_count_nonneg window_start device_id log :
  0 <= window_count window_start device_id log.
Proof. destruct log; cbn; lia. Qed.

Lemma readlines_sample_line rest :
  readlines (sample_line ++ rest) = sample_line :: readlines rest.
Proof. vm_compute. reflexivity. Qed.

Lemma window_count_sample_log n :
  window_count (noon + timedelta 60 - timedelta MALWARE_WINDOW_SECONDS) "D1"
    (Some (sample_log n)) = Z.of_nat n.
Proof.
  unfold window_count. f_equal.
  induction n as [|n IH]; [reflexivity|].
  cbn [sample_log]. rewrite readlines_sample_line.
  cbn [List.filter].
  replace (counted _ "D1" sample_line) with true by (vm_compute; reflexivity).
  cbn [List.length]. rewrite IH. reflexivity.
Qed.

(** C9. For every log, clock and device, the malware verdict of
    [check_for_malware] is the inclusive comparison
    [anomaly_count >= MALWARE_THRESHOLD_COUNT] of the count it returns;
    the counts are the natural numbers (none is negative, and every
    natural number is the count of some log), so the comparison is made for
    every count; and the configured defaults are a threshold of 3
    anomalies and a window of 300 seconds. *)
Theorem malware_verdict_is_inclusive_threshold :
  (forall log now device_id,
     fst (check_for_malware log now device_id)
     = (snd (check_for_malware log now device_id) >=? MALWARE_THRESHOLD_COUNT)
     /\ 0 <= snd (check_for_malware log now device_id))
  /\ (forall n : nat, exists log now device_id,
        check_for_malware log now device_id
        = (Z.of_nat n >=? MALWARE_THRESHOLD_COUNT, Z.of_nat n))
  /\ MALWARE_THRESHOLD_COUNT = 3
  /\ MALWARE_WINDOW_SECONDS = 300.
Proof.
  split; [|split; [|split; reflexivity]].
  - intros log now device_id. rewrite check_for_malware_spec. cbn [fst snd].
    split; [reflexivity|apply window_count_nonneg].
  - intros n. exists (Some (sample_log n)), (noon + timedelta 60), "D1".
    rewrite check_for_malware_spec, window_count_sample_log. reflexivity.
Qed.

(** ** The scorer's verdict (C4) *)

Lemma eqb_true_ltb_false (x y : float) :
  (x =? y)%float = true -> (x <? y)%float = false.
Proof.
  rewrite FloatAxioms.eqb_spec, FloatAxioms.ltb_spec. unfold SFeqb, SFltb.
  destruct (SFcompare (Prim2SF x) (Prim2SF y)) as [[| |]|]; congruence.
Qed.

Lemma predict_anomaly_scored w data m features s :
  fst (get_model w) = Some m ->
  features_of MODEL_FEATURES data = Ok features ->
  score_samples m features = Ok s ->
  fst (predict_anomaly w data)
  = ((s <? ANOMALY_THRESHOLD)%float, s,
     if (s <? ANOMALY_THRESHOLD)%float
     then "Anomaly detected with score " ++ PyFloat.format_4f s
     else "Normal data point with score " ++ PyFloat.format_4f s).
Proof.
  intros Hm Hf Hs. unfold predict_anomaly.
  destruct (get_model w) as [model w']. cbn [fst] in Hm. subst model.
  unfold score_point. rewrite Hf. cbn [bind]. rewrite Hs. reflexivity.
Qed.

(** C4. When a model is loaded and scores the feature vector of a reading
    with [s], the verdict of [predict_anomaly] is exactly the strict
    comparison [s < ANOMALY_THRESHOLD] and the score returned is [s]; in
    particular a score equal to the threshold is not an anomaly. *)
Theorem anomaly_verdict_is_strict_comparison w data m features s :
  fst (get_model w) = Some m ->
  features_of MODEL_FEATURES data = Ok features ->
  score_samples m features = Ok s ->
  fst (fst (predict_anomaly w data)) = ((s <? ANOMALY_THRESHOLD)%float, s)
  /\ ((s =? ANOMALY_THRESHOLD)%float = true ->
      fst (fst (fst (predict_anomaly w data))) = false)
  /\ (s = ANOMALY_THRESHOLD ->
      fst (fst (fst (predict_anomaly w data))) = false).
Proof.
  intros Hm Hf Hs.
  rewrite (predict_anomaly_scored w data m features s Hm Hf Hs).
  cbn [fst]. split; [reflexivity|]. split.
  - apply eqb_true_ltb_false.
  - intros ->. vm_compute. reflexivity.
Qed.

(** A model that scores the reading exactly at the threshold: the verdict
    is "not an anomaly". *)
Lemma anomaly_verdict_at_threshold :
  fst (fst (predict_anomaly
              (fresh_world (Some (constant_model ANOMALY_THRESHOLD))
                 NoModelFile None) reading_D1))
  = (false, ANOMALY_THRESHOLD).
Proof.
  exact (proj1 (anomaly_verdict_is_strict_comparison
                  (fresh_world (Some (constant_model ANOMALY_THRESHOLD))
                     NoModelFile None)
                  reading_D1 (constant_model ANOMALY_THRESHOLD)
                  [VInt 500; VInt 2; VInt 3] ANOMALY_THRESHOLD
                  eq_refl eq_refl eq_refl)).
Defined.

(** ** Validation of a reading (C8, C10) *)

Section Validation.

Variable data : dict.

Local Abbreviation present := (present data).
Local Abbreviation numeric := (numeric data).

Lemma missing_fields_nil (fields : list string) :
  List.filter (fun field => negb (present field)) fields = []
  <-> forall field, In field fields -> present field = true.
Proof.
  induction fields as [|f fields IH]; cbn [List.filter].
  - split; [intros _ field []|reflexivity].
  - destruct (present f) eqn:Hf; cbn [negb].
    + rewrite IH. split.
      * intros H field [<-|Hin]; [exact Hf|exact (H field Hin)].
      * intros H field Hin. apply H. right. exact Hin.
    + split; [discriminate|].
      intros H. specialize (H f (or_introl eq_refl)). congruence.
Qed.

Lemma check_numeric_valid (fields : list string) :
  check_numeric fields data = (true, "")
  <-> forall field, In field fields -> numeric field = true.
Proof.
  induction fields as [|f fields IH]; cbn [check_numeric].
  - split; [intros _ field []|reflexivity].
  - fold (numeric f). destruct (numeric f) eqn:Hf; cbn [negb].
    + rewrite IH. split.
      * intros H field [<-|Hin]; [exact Hf|exact (H field Hin)].
      * intros H field Hin. apply H. right. exact Hin.
    + split; [discriminate|].
      intros H. specialize (H f (or_introl eq_refl)). congruence.
Qed.

(** A rejection by the loop names the first field that is not numeric. *)
Lemma check_numeric_rejects (fields : list string) :
  check_numeric fields data <> (true, "") ->
  exists field, In field fields /\ numeric field = false
    /\ check_numeric fields data
       = (false, "Field '" ++ field ++ "' must be numeric").
Proof.
  induction fields as [|f fields IH]; cbn [check_numeric].
  - intros H. contradiction H. reflexivity.
  - fold (numeric f). destruct (numeric f) eqn:Hf; cbn [negb].
    + intros H. destruct (IH H) as (field & Hin & Hn & Heq).
      exists field. split; [right; exact Hin|]. split; assumption.
    + intros _. exists f. split; [left; reflexivity|].
      split; [exact Hf|reflexivity].
Qed.

Lemma validate_data_missing :
  List.filter (fun field => negb (present field)) REQUIRED_FIELDS <> [] ->
  validate_data data
  = (false, "Missing required fields: "
            ++ PyStr.join ", "
                 (List.filter (fun field => negb (present field))
                    REQUIRED_FIELDS)).
Proof.
  unfold validate_data, present.
  destruct (List.filter _ REQUIRED_FIELDS); [congruence|reflexivity].
Qed.

Lemma validate_data_present :
  List.filter (fun field => negb (present field)) REQUIRED_FIELDS = [] ->
  validate_data data = check_numeric numeric_fields data.
Proof. unfold validate_data, present. intros ->. reflexivity. Qed.

Lemma missing_fields_cons (fields : list string) f rest :
  List.filter (fun field => negb (present field)) fields = f :: rest ->
  In f fields /\ present f = false.
Proof.
  intros H.
  assert (Hin : In f (List.filter (fun field => negb (present field)) fields))
    by (rewrite H; left; reflexivity).
  apply filter_In in Hin. destruct Hin as [Hin Hf].
  split; [exact Hin|]. destruct (present f); [discriminate|reflexivity].
Qed.

Lemma prefix_append (s t : string) : String.prefix s (s ++ t) = true.
Proof.
  induction s as [|a s IH].
  - destruct t; reflexivity.
  - change (String a s ++ t) with (String a (s ++ t)). cbn [String.prefix].
    destruct (ascii_dec a a); [exact IH|congruence].
Qed.


End Validation.


(** The readings that [validate_data] reports valid. *)
Lemma validate_data_valid (data : dict) :
  validate_data data = (true, "")
  <-> (forall f, In f REQUIRED_FIELDS -> present data f = true)
      /\ forall f, In f numeric_fields -> numeric data f = true.
Proof.
  destruct (List.filter (fun field => negb (present data field))
              REQUIRED_FIELDS) as [|g rest] eqn:Hmiss.
  - pose proof (proj1 (missing_fields_nil data REQUIRED_FIELDS) Hmiss) as Hall.
    rewrite (validate_data_present data Hmiss), check_numeric_valid.
    split; [intros H; split; [exact Hall|exact H]|intros [_ H]; exact H].
  - destruct (missing_fields_cons data REQUIRED_FIELDS g rest Hmiss)
      as [Hin Hg].
    assert (Hne : List.filter (fun field => negb (present data field))
                    REQUIRED_FIELDS <> []) by (rewrite Hmiss; discriminate).
    rewrite (validate_data_missing data Hne). split; [discriminate|].
    intros [Hall _]. rewrite (Hall g Hin) in Hg. discriminate Hg.
Qed.

(** C10, as amended. A boolean in one of temperature, pressure, rpm
    passes for a number, and for no more than that: a reading that holds
    a boolean in one of the three is reported valid exactly when it has
    the five required fields and holds [int], [float] or [bool] values in
    the other two. *)
Theorem validate_data_accepts_booleans (data : dict) (field : string)
    (b : bool) :
  In field numeric_fields ->
  PyDict.lookup field data = Some (VBool b) ->
  validate_data data = (true, "")
  <-> (forall f, In f REQUIRED_FIELDS -> present data f = true)
      /\ (forall f, In f numeric_fields -> f <> field -> numeric data f = true).
Proof.
  intros Hin Hb.
  assert (Hnum : numeric data field = true).
  { unfold numeric, PyDict.get, PyDict.get_default. rewrite Hb. reflexivity. }
  rewrite validate_data_valid. split.
  - intros [Hall Hn]. split; [exact Hall|]. intros f Hf _. exact (Hn f Hf).
  - intros [Hall Hothers]. split; [exact Hall|].
    intros f Hf. destruct (String.eqb_spec f field) as [->|Hne].
    + exact Hnum.
    + exact (Hothers f Hf Hne).
Qed.

Lemma validate_data_accepts_booleans_example :
  validate_data reading_booleans = (true, "").
Proof.
  apply (validate_data_accepts_booleans reading_booleans "temperature" true).
  - vm_compute. tauto.
  - reflexivity.
  - split.
    + intros f Hf. cbn in Hf.
      repeat (destruct Hf as [<-|Hf]; [reflexivity|]). destruct Hf.
    + intros f Hf _. cbn in Hf.
      repeat (destruct Hf as [<-|Hf]; [reflexivity|]). destruct Hf.
Defined.

(** C10, as stated, fails. A boolean in a numeric field does not make
    the reading valid: a reading whose temperature is [True] is rejected
    when its pressure is a text, and when its timestamp and device id
    are absent. *)
Lemma boolean_reading_is_rejected :
  (PyDict.lookup "temperature" reading_boolean_and_text = Some (VBool true)
   /\ validate_data reading_boolean_and_text
      = (false, "Field 'pressure' must be numeric"))
  /\ (PyDict.lookup "temperature" reading_boolean_without_ids
      = Some (VBool true)
      /\ validate_data reading_boolean_without_ids
         = (false, "Missing required fields: timestamp, device_id")).
Proof. vm_compute. repeat split; reflexivity. Qed.

(** ** The correlation window (C1) *)

Lemma counted_iff window_start device_id line :
  counted window_start device_id line = true
  <-> exists t, parse_log_time line = Some t
        /\ window_start <= t
        /\ PyStr.contains ("Device " ++ device_id) line = true.
Proof.
  unfold counted. destruct (parse_log_time line) as [t|].
  - rewrite andb_true_iff, Z.leb_le. split.
    + intros [Hle Hc]. exists t. auto.
    + intros (t' & Ht & Hle & Hc). injection Ht as <-. auto.
  - split; [discriminate|]. intros (t & Ht & _). discriminate.
Qed.

(** C1, as amended. [check_for_malware] counts exactly the lines of the
    alerts log whose timestamp is not earlier than the wall clock at the
    time of the check minus [MALWARE_WINDOW_SECONDS] (and in which the
    text ["Device <id>"] occurs): the boundary of the window is
    [datetime.now() - 300 s], the timestamp of the anomaly is no input of
    the check, and the check only reads the log. *)
Theorem check_for_malware_window_is_wall_clock log now device_id :
  check_for_malware log now device_id
  = (window_count (now - 300 * 1000000) device_id log
       >=? MALWARE_THRESHOLD_COUNT,
     window_count (now - 300 * 1000000) device_id log)
  /\ (forall line,
        counted (now - 300 * 1000000) device_id line = true
        <-> exists t, parse_log_time line = Some t
              /\ now - 300 * 1000000 <= t
              /\ PyStr.contains ("Device " ++ device_id) line = true).
Proof.
  split.
  - exact (check_for_malware_spec log now device_id).
  - intros line. apply counted_iff.
Qed.

(** C1, as stated, fails.  The log holds one alert of device [D1] written
    at 12:00:00; an anomaly of [D1] carries the timestamp 12:01:00.  A
    window that ends at the anomaly's timestamp keeps the alert.  The
    check made at 13:00:00 by the wall clock counts nothing, and the check
    made at 12:01:00 counts one: the count follows the wall clock. *)
Lemma check_for_malware_follows_wall_clock :
  strptime "2024-01-01 12:01:00" = Some (noon + timedelta 60)
  /\ window_count (noon + timedelta 60 - timedelta MALWARE_WINDOW_SECONDS)
       "D1" (Some (sample_log 1)) = 1
  /\ check_for_malware (Some (sample_log 1)) (noon + timedelta 3600) "D1"
     = (false, 0)
  /\ check_for_malware (Some (sample_log 1)) (noon + timedelta 60) "D1"
     = (false, 1).
Proof. vm_compute. repeat split; reflexivity. Qed.

(** ** The scorer and the alerts log *)

Lemma load_model_alerts w : alerts (load_model w) = alerts w.
Proof. unfold load_model. destruct (model_path w); reflexivity. Qed.

Lemma load_model_db w : db (load_model w) = db w.
Proof. unfold load_model. destruct (model_path w); reflexivity. Qed.

Lemma get_model_alerts w : alerts (snd (get_model w)) = alerts w.
Proof.
  unfold get_model. destruct (isolation_forest_model w); cbn [snd];
    [reflexivity|apply load_model_alerts].
Qed.

Lemma get_model_db w : db (snd (get_model w)) = db w.
Proof.
  unfold get_model. destruct (isolation_forest_model w); cbn [snd];
    [reflexivity|apply load_model_db].
Qed.

Lemma predict_anomaly_alerts w data :
  alerts (snd (predict_anomaly w data)) = alerts w.
Proof.
  unfold predict_anomaly. pose proof (get_model_alerts w) as H.
  destruct (get_model w) as [[model|] w']; cbn [snd] in H |- *.
  - destruct (score_point model data); cbn [snd]; exact H.
  - exact H.
Qed.

Lemma predict_anomaly_db w data : db (snd (predict_anomaly w data)) = db w.
Proof.
  unfold predict_anomaly. pose proof (get_model_db w) as H.
  destruct (get_model w) as [[model|] w']; cbn [snd] in H |- *.
  - destruct (score_point model data); cbn [snd]; exact H.
  - exact H.
Qed.

(** The alerts log is no input of the scorer. *)
Lemma load_model_set_alerts a w :
  load_model (set_alerts a w) = set_alerts a (load_model w).
Proof. unfold load_model. cbn. destruct (model_path w); reflexivity. Qed.

Lemma get_model_set_alerts a w :
  get_model (set_alerts a w)
  = (fst (get_model w), set_alerts a (snd (get_model w))).
Proof.
  unfold get_model. cbn [isolation_forest_model set_alerts].
  destruct (isolation_forest_model w); cbn [fst snd]; [reflexivity|].
  rewrite load_model_set_alerts. reflexivity.
Qed.

Lemma predict_anomaly_set_alerts a w data :
  predict_anomaly (set_alerts a w) data
  = (fst (predict_anomaly w data), set_alerts a (snd (predict_anomaly w data))).
Proof.
  unfold predict_anomaly. rewrite get_model_set_alerts.
  destruct (get_model w) as [[model|] w']; cbn [fst snd]; [|reflexivity].
  destruct (score_point model data); reflexivity.
Qed.

Section Route.

Variable fromisoformat : string -> result datetime.
Variable fromtimestamp : value -> result datetime.
Variable isoformat : datetime -> string.
Variable py_float : value -> result float.
Variable float_column : value -> bool.
Variable database_error : refused -> string.

Local Abbreviation process :=
  (process fromisoformat fromtimestamp isoformat py_float float_column
     database_error).
Local Abbreviation detect_anomaly :=
  (detect_anomaly fromisoformat fromtimestamp isoformat py_float float_column
     database_error).

(** [get_or_create] finds or creates the row of every device id but
    null, for which it raises and leaves the database as it was. *)
Lemma get_or_create_registered device_id (d : database) :
  device_id <> VNone ->
  get_or_create database_error device_id d
  = Ok (registered (str_value device_id) d).
Proof.
  intros Hid. unfold get_or_create, first_by_device_id, registered.
  destruct device_id; try (contradiction Hid; reflexivity);
    destruct (devices d !! _); reflexivity.
Qed.

Lemma get_or_create_null (d : database) :
  get_or_create database_error VNone d
  = Raise (database_error (RefusedDevice VNone)).
Proof. reflexivity. Qed.

Lemma get_or_create_ok device_id (d : database) device d' :
  get_or_create database_error device_id d = Ok (device, d') ->
  device_id <> VNone /\ registered (str_value device_id) d = (device, d').
Proof.
  intros H. assert (Hid : device_id <> VNone).
  { intros ->. rewrite get_or_create_null in H. discriminate H. }
  split; [exact Hid|].
  rewrite (get_or_create_registered device_id d Hid) in H.
  injection H as H. exact H.
Qed.

(** The final commit writes the pending rows when the database takes
    them, and raises otherwise. *)
Lemma commit_ok key device row anomaly (d d' : database) :
  commit float_column database_error key device row anomaly d = Ok d' ->
  d' = flushed key device row anomaly d
  /\ takes_sensor_data float_column row = true
  /\ match anomaly with
     | Some a => takes_anomaly float_column a = true
     | None => True
     end.
Proof.
  unfold commit.
  destruct (takes_sensor_data float_column row); cbn [andb];
    [|discriminate].
  destruct anomaly as [a|].
  - destruct (takes_anomaly float_column a); [|discriminate].
    intros [= <-]. auto.
  - intros [= <-]. auto.
Qed.

Lemma commit_taken key device row (d : database) :
  takes_sensor_data float_column row = true ->
  commit float_column database_error key device row None d
  = Ok (flushed key device row None d).
Proof. intros H. unfold commit. rewrite H. reflexivity. Qed.

Lemma commit_refused key device row anomaly (d : database) :
  takes_sensor_data float_column row = false ->
  commit float_column database_error key device row anomaly d
  = Raise (database_error (RefusedRows row anomaly)).
Proof. intros H. unfold commit. rewrite H. reflexivity. Qed.

Lemma classify_alerts w now data :
  alerts (snd (classify w now data)) = alerts w.
Proof.
  unfold Routes.classify. pose proof (predict_anomaly_alerts w data) as H.
  destruct (predict_anomaly w data) as [[[a s] m] w'].
  destruct (if a then _ else _). exact H.
Qed.

Lemma classify_db w now data : db (snd (classify w now data)) = db w.
Proof.
  unfold Routes.classify. pose proof (predict_anomaly_db w data) as H.
  destruct (predict_anomaly w data) as [[[a s] m] w'].
  destruct (if a then _ else _). exact H.
Qed.

(** The correlation [classify] returns: the defaults for a normal
    reading, the result of [check_for_malware] for an anomaly. *)
Lemma classify_correlation w now data :
  (is_potential_malware (fst (classify w now data)),
   anomaly_count (fst (classify w now data)))
  = if is_anomaly (fst (classify w now data))
    then check_for_malware (alerts w) now (device_key data)
    else (false, 0).
Proof.
  unfold Routes.classify. pose proof (predict_anomaly_alerts w data) as H.
  destruct (predict_anomaly w data) as [[[a s] m] w']. cbn [snd] in H.
  rewrite H. destruct a; [|reflexivity].
  destruct (check_for_malware _ _ _). reflexivity.
Qed.

Lemma process_alerts w now utcnow data :
  alerts (snd (process w now utcnow data)) = alerts w.
Proof.
  unfold Routes.process.
  destruct (parse_timestamp _ _ _) as [timestamp|e]; [|reflexivity].
  destruct (get_or_create _ _ _) as [[device d]|e]; [|reflexivity].
  destruct (update_last_seen _ _ _ _) as [device' d'].
  destruct (SensorData_from_dict _ _ _) as [row|e]; [|reflexivity].
  pose proof (classify_alerts (set_db d' w) now data) as H.
  destruct (Routes.classify _ _ _) as [r w1]. cbn [snd] in H.
  destruct (is_anomaly r).
  - destruct (Anomaly_from_dict _ _ _ _ _ _) as [a|e]; cbn [bind snd];
      [|exact H].
    destruct (commit _ _ _ _ _ _ _) as [d1|e]; cbn [snd]; exact H.
  - destruct (commit _ _ _ _ _ _ _) as [d1|e]; cbn [snd]; exact H.
Qed.

(** No request to [/detect] changes the alerts log. *)
Lemma detect_anomaly_alerts w now utcnow data :
  alerts (snd (detect_anomaly w now utcnow data)) = alerts w.
Proof.
  unfold Routes.detect_anomaly.
  destruct (first_missing required_fields data); [reflexivity|].
  pose proof (get_model_alerts w) as Hget.
  destruct (get_model w) as [[m|] w0]; cbn [snd] in Hget; [|exact Hget].
  pose proof (process_alerts w0 now utcnow data) as H.
  destruct (Routes.process _ _ _ _ _ _ _ _ _ _) as [[resp|e] w1];
    cbn [snd] in H |- *; [|unfold log; cbn [alerts]]; congruence.
Qed.

Lemma detection_body_verdict data timestamp r :
  PyDict.lookup "is_anomaly" (detection_body isoformat data timestamp r)
  = Some (VBool (is_anomaly r)).
Proof. reflexivity. Qed.

(** A response that carries a verdict is the body built from what
    [classify] returned, in the state reached after the model check, the
    device lookup and the update of [last_seen]. *)
Lemma detect_anomaly_verdict w now utcnow data b :
  PyDict.lookup "is_anomaly" (snd (fst (detect_anomaly w now utcnow data)))
  = Some (VBool b) ->
  exists m w0 timestamp row,
    first_missing required_fields data = None
    /\ get_model w = (Some m, w0)
    /\ parse_timestamp fromisoformat fromtimestamp (PyDict.get "timestamp" data)
       = Ok timestamp
    /\ let key := device_key data in
       let created := registered key (db w0) in
       let seen := update_last_seen key (fst created) utcnow (snd created) in
       let c := classify (set_db (snd seen) w0) now data in
       SensorData_from_dict fromisoformat data (fst seen) = Ok row
       /\ is_anomaly (fst c) = b
       /\ fst (detect_anomaly w now utcnow data)
          = (200, detection_body isoformat data timestamp (fst c))
       /\ (b = false ->
           snd (detect_anomaly w now utcnow data)
           = set_db (flushed key (fst seen) row None (db (snd c))) (snd c)).
Proof.
  unfold Routes.detect_anomaly.
  destruct (first_missing required_fields data) as [field|] eqn:Hreq;
    [discriminate|].
  destruct (get_model w) as [[m|] w0] eqn:Hget; [|discriminate].
  unfold Routes.process.
  destruct (parse_timestamp _ _ _) as [timestamp|e] eqn:Hts; [|discriminate].
  destruct (get_or_create _ _ _) as [[device d]|e] eqn:Hcreated;
    [|discriminate].
  apply get_or_create_ok in Hcreated. destruct Hcreated as [_ Hcreated].
  change (str_value (PyDict.get "device_id" data)) with (device_key data)
    in Hcreated.
  destruct (update_last_seen _ _ _ _) as [device' d'] eqn:Hseen.
  destruct (SensorData_from_dict _ _ _) as [row|e] eqn:Hrow; [|discriminate].
  destruct (Routes.classify _ _ _) as [r w1] eqn:Hc.
  destruct (is_anomaly r) eqn:Hr.
  - destruct (Anomaly_from_dict _ _ _ _ _ _) as [a|e]; cbn [bind fst snd];
      [|discriminate].
    destruct (commit _ _ _ _ _ _ _) as [d1|e] eqn:Hcommit; cbn [fst snd];
      [|discriminate].
    rewrite detection_body_verdict, Hr. intros [= <-].
    exists m, w0, timestamp, row. cbn zeta.
    rewrite Hcreated. cbn [fst snd]. rewrite Hseen. cbn [fst snd].
    rewrite Hc. cbn [fst snd].
    repeat split; try assumption; try reflexivity. discriminate.
  - destruct (commit _ _ _ _ _ _ _) as [d1|e] eqn:Hcommit; cbn [fst snd];
      [|discriminate].
    apply commit_ok in Hcommit. destruct Hcommit as (-> & _ & _).
    rewrite detection_body_verdict, Hr. intros [= <-].
    exists m, w0, timestamp, row. cbn zeta.
    rewrite Hcreated. cbn [fst snd]. rewrite Hseen. cbn [fst snd].
    rewrite Hc. cbn [fst snd].
    repeat split; try assumption; reflexivity.
Qed.

(** A response that carries a verdict was committed: the device id is
    not null and the database has taken the row of the reading. *)
Lemma detect_anomaly_taken w now utcnow data b :
  PyDict.lookup "is_anomaly" (snd (fst (detect_anomaly w now utcnow data)))
  = Some (VBool b) ->
  PyDict.get "device_id" data <> VNone
  /\ exists row,
       SensorData_from_dict fromisoformat data
         (fst (seen utcnow data (db (snd (get_model w))))) = Ok row
       /\ takes_sensor_data float_column row = true.
Proof.
  unfold Routes.detect_anomaly, seen.
  destruct (first_missing required_fields data) as [field|] eqn:Hreq;
    [discriminate|].
  destruct (get_model w) as [[m|] w0] eqn:Hget; [|discriminate].
  unfold Routes.process. cbn [snd].
  destruct (parse_timestamp _ _ _) as [timestamp|e] eqn:Hts; [|discriminate].
  destruct (get_or_create _ _ _) as [[device d]|e] eqn:Hcreated;
    [|discriminate].
  apply get_or_create_ok in Hcreated. destruct Hcreated as [Hid Hcreated].
  change (str_value (PyDict.get "device_id" data)) with (device_key data)
    in Hcreated.
  rewrite Hcreated. cbn [fst snd].
  destruct (update_last_seen _ _ _ _) as [device' d'] eqn:Hseen.
  cbn [fst].
  destruct (SensorData_from_dict _ _ _) as [row|e] eqn:Hrow; [|discriminate].
  destruct (Routes.classify _ _ _) as [r w1] eqn:Hc.
  destruct (is_anomaly r) eqn:Hr.
  - destruct (Anomaly_from_dict _ _ _ _ _ _) as [a|e]; cbn [bind fst snd];
      [|discriminate].
    destruct (commit _ _ _ _ _ _ _) as [d1|e] eqn:Hcommit; cbn [fst snd];
      [|discriminate].
    apply commit_ok in Hcommit. destruct Hcommit as (_ & Htaken & _).
    intros _. split; [exact Hid|]. exists row. split; [reflexivity|exact Htaken].
  - destruct (commit _ _ _ _ _ _ _) as [d1|e] eqn:Hcommit; cbn [fst snd];
      [|discriminate].
    apply commit_ok in Hcommit. destruct Hcommit as (_ & Htaken & _).
    intros _. split; [exact Hid|]. exists row. split; [reflexivity|exact Htaken].
Qed.

(** *** A reading that is not an anomaly (C7) *)

Lemma classify_normal w now data :
  is_anomaly (fst (classify w now data)) = false ->
  anomaly_count (fst (classify w now data)) = 0
  /\ is_potential_malware (fst (classify w now data)) = false.
Proof.
  intros H. pose proof (classify_correlation w now data) as Hc.
  rewrite H in Hc. injection Hc as Hm Hn. split; assumption.
Qed.

Lemma classify_set_alerts_normal a w now now' data :
  is_anomaly (fst (classify w now data)) = false ->
  fst (classify (set_alerts a w) now' data) = fst (classify w now data).
Proof.
  unfold Routes.classify. rewrite predict_anomaly_set_alerts.
  destruct (predict_anomaly w data) as [[[v s] m] w']. cbn [fst snd].
  destruct v; [|reflexivity].
  destruct (check_for_malware (alerts w') now _). cbn. discriminate.
Qed.

Lemma created_device key (d : database) :
  match devices d !! key with
  | Some device => registered key d = (device, d)
  | None =>
      status (fst (registered key d)) = "active"
      /\ devices (snd (registered key d))
         = <[key := fst (registered key d)]> (devices d)
  end.
Proof.
  unfold registered. destruct (devices d !! key); cbn; auto.
Qed.

Lemma created_anomalies key (d : database) :
  anomalies (snd (registered key d)) = anomalies d.
Proof. unfold registered. destruct (devices d !! key); reflexivity. Qed.

Lemma status_after_normal key utcnow (d : database) k :
  let created := registered key d in
  let seen := update_last_seen key (fst created) utcnow (snd created) in
  let final := <[key := fst seen]> (devices (snd seen)) in
  status <$> final !! k = status <$> devices d !! k
  \/ (status <$> devices d !! k = None
      /\ status <$> final !! k = Some "active").
Proof.
  cbn zeta. unfold update_last_seen. cbn [fst snd devices set_devices status].
  destruct (decide (key = k)) as [<-|Hne].
  - rewrite lookup_insert_eq. cbn.
    pose proof (created_device key d) as H.
    destruct (devices d !! key) as [device|] eqn:Hd.
    + rewrite H. cbn. left. reflexivity.
    + right. destruct H as [-> _]. split; reflexivity.
  - left. rewrite !lookup_insert_ne by assumption.
    pose proof (created_device key d) as H.
    destruct (devices d !! key) as [device|] eqn:Hd.
    + rewrite H. reflexivity.
    + destruct H as [_ ->]. rewrite lookup_insert_ne by assumption. reflexivity.
Qed.

(** C7. A reading that is not classified as an anomaly gets the count 0
    and the malware flag false, and its processing neither reads nor
    changes the correlation state.  For [classify] (the verdict and the
    correlation the route computes): the count and the flag keep their
    defaults, the alerts log is unchanged, and the result is the same for
    every content of the alerts log and every wall clock.  For the whole
    route, when the response carries the verdict "not an anomaly": the
    body has no ["anomaly_count"] and no ["is_potential_malware"] entry,
    the alerts log and the table of anomalies are unchanged, no device
    changes status (a device seen for the first time is created
    ['active']), and the response is the same for every content of the
    alerts log and every wall clock. *)
Theorem normal_reading_leaves_correlation_untouched w now utcnow data :
  (is_anomaly (fst (classify w now data)) = false ->
   anomaly_count (fst (classify w now data)) = 0
   /\ is_potential_malware (fst (classify w now data)) = false
   /\ alerts (snd (classify w now data)) = alerts w
   /\ forall a now',
        fst (classify (set_alerts a w) now' data) = fst (classify w now data))
  /\ (PyDict.lookup "is_anomaly" (snd (fst (detect_anomaly w now utcnow data)))
      = Some (VBool false) ->
      PyDict.lookup "anomaly_count" (snd (fst (detect_anomaly w now utcnow data)))
      = None
      /\ PyDict.lookup "is_potential_malware"
           (snd (fst (detect_anomaly w now utcnow data))) = None
      /\ alerts (snd (detect_anomaly w now utcnow data)) = alerts w
      /\ anomalies (db (snd (detect_anomaly w now utcnow data)))
         = anomalies (db w)
      /\ (forall k,
            status_of (snd (detect_anomaly w now utcnow data)) k = status_of w k
            \/ (status_of w k = None
                /\ status_of (snd (detect_anomaly w now utcnow data)) k
                   = Some "active"))
      /\ forall a now',
           fst (detect_anomaly (set_alerts a w) now' utcnow data)
           = fst (detect_anomaly w now utcnow data)).
Proof.
  split.
  - intros H. destruct (classify_normal w now data H) as [Hn Hm].
    repeat split; try assumption.
    + apply classify_alerts.
    + intros a now'. apply classify_set_alerts_normal. exact H.
  - intros H.
    destruct (detect_anomaly_verdict w now utcnow data false H)
      as (m & w0 & timestamp & row & Hreq & Hget & Hts & Hrest).
    cbn zeta in Hrest. destruct Hrest as (Hrow & Hv & Hresp & Hw').
    specialize (Hw' eq_refl).
    pose proof (get_model_db w) as Hdb. rewrite Hget in Hdb. cbn [snd] in Hdb.
    split; [|split; [|split; [|split; [|split]]]].
    + rewrite Hresp. cbn [snd]. unfold detection_body. rewrite Hv. reflexivity.
    + rewrite Hresp. cbn [snd]. unfold detection_body. rewrite Hv. reflexivity.
    + apply detect_anomaly_alerts.
    + rewrite Hw'. cbn [db set_db flushed anomalies]. rewrite classify_db.
      cbn [db set_db]. rewrite app_nil_r.
      unfold update_last_seen. cbn [snd anomalies set_devices].
      rewrite created_anomalies, Hdb. reflexivity.
    + intros k. unfold status_of. rewrite Hw'.
      cbn [db set_db flushed devices]. rewrite classify_db. cbn [db set_db].
      rewrite <- Hdb.
      exact (status_after_normal (device_key data) utcnow (db w0) k).
    + intros a now'. rewrite Hresp.
      destruct (detect_anomaly_taken w now utcnow data false H)
        as (Hid & row' & Hrow' & Htaken).
      rewrite Hget in Hrow'. cbn [snd] in Hrow'.
      unfold Routes.detect_anomaly. rewrite Hreq.
      rewrite get_model_set_alerts, Hget. cbn [fst snd].
      unfold Routes.process. cbn [db set_alerts]. rewrite Hts.
      rewrite (get_or_create_registered _ (db w0) Hid).
      change (str_value (PyDict.get "device_id" data)) with (device_key data).
      unfold seen in Hrow'.
      destruct (registered _ _) as [device d] eqn:Hcreated.
      cbn [fst snd] in *.
      destruct (update_last_seen _ _ _ _) as [device' d'] eqn:Hseen.
      cbn [fst snd] in *. rewrite Hrow.
      rewrite Hrow in Hrow'. injection Hrow' as <-.
      change (set_db d' (set_alerts a w0)) with (set_alerts a (set_db d' w0)).
      pose proof (classify_set_alerts_normal a (set_db d' w0) now now' data Hv)
        as Hsame.
      destruct (Routes.classify (set_alerts a (set_db d' w0)) now' data)
        as [r w1]. cbn [fst] in Hsame. subst r. rewrite Hv.
      rewrite (commit_taken _ _ _ _ Htaken). reflexivity.
Qed.
(** *** The count of an anomaly (C2) *)

(** The correlation in the body of a response that reports an anomaly is
    what [check_for_malware] returns on the alerts log of the state in
    which the request arrived. *)
Lemma detect_anomaly_correlation w now utcnow data :
  PyDict.lookup "is_anomaly" (snd (fst (detect_anomaly w now utcnow data)))
  = Some (VBool true) ->
  PyDict.lookup "is_potential_malware"
    (snd (fst (detect_anomaly w now utcnow data)))
  = Some (VBool (fst (check_for_malware (alerts w) now (device_key data))))
  /\ PyDict.lookup "anomaly_count"
       (snd (fst (detect_anomaly w now utcnow data)))
     = Some (VInt (snd (check_for_malware (alerts w) now (device_key data)))).
Proof.
  intros H.
  destruct (detect_anomaly_verdict w now utcnow data true H)
    as (m & w0 & timestamp & row & Hreq & Hget & Hts & Hrest).
  cbn zeta in Hrest. destruct Hrest as (Hrow & Hv & Hresp & _).
  pose proof (get_model_alerts w) as Ha. rewrite Hget in Ha. cbn [snd] in Ha.
  match type of Hv with
  | is_anomaly (fst (classify ?w1 _ _)) = _ =>
      pose proof (classify_correlation w1 now data) as Hc
  end.
  rewrite Hv in Hc. cbn [alerts set_db] in Hc. rewrite Ha in Hc.
  rewrite Hresp. cbn [snd]. unfold detection_body. rewrite Hv. cbn.
  rewrite <- Hc. split; reflexivity.
Qed.

(** C2 (what the route does). When the response reports an anomaly, the
    count it reports is the number of lines that the alerts log already
    held for the device in the window, the flag is that count compared
    with the threshold, and the request leaves the alerts log as it was:
    the anomaly just detected is not part of its own count, nor of any
    later one. *)
Theorem detect_anomaly_counts_logged_alerts_only w now utcnow data :
  PyDict.lookup "is_anomaly" (snd (fst (detect_anomaly w now utcnow data)))
  = Some (VBool true) ->
  PyDict.lookup "anomaly_count" (snd (fst (detect_anomaly w now utcnow data)))
  = Some (VInt (window_count (now - timedelta MALWARE_WINDOW_SECONDS)
                  (device_key data) (alerts w)))
  /\ PyDict.lookup "is_potential_malware"
       (snd (fst (detect_anomaly w now utcnow data)))
     = Some (VBool (window_count (now - timedelta MALWARE_WINDOW_SECONDS)
                      (device_key data) (alerts w)
                    >=? MALWARE_THRESHOLD_COUNT))
  /\ alerts (snd (detect_anomaly w now utcnow data)) = alerts w.
Proof.
  intros H. destruct (detect_anomaly_correlation w now utcnow data H)
    as [Hm Hn].
  rewrite check_for_malware_spec in Hm, Hn. cbn [fst snd] in Hm, Hn.
  split; [exact Hn|]. split; [exact Hm|]. apply detect_anomaly_alerts.
Qed.

(** A body that carries the malware flag carries the verdict
    "anomaly". *)
Lemma detect_anomaly_flag_needs_anomaly w now utcnow data v :
  PyDict.lookup "is_potential_malware"
    (snd (fst (detect_anomaly w now utcnow data))) = Some v ->
  PyDict.lookup "is_anomaly" (snd (fst (detect_anomaly w now utcnow data)))
  = Some (VBool true).
Proof.
  unfold Routes.detect_anomaly.
  destruct (first_missing required_fields data); [discriminate|].
  destruct (get_model w) as [[m|] w0]; [|discriminate].
  unfold Routes.process.
  destruct (parse_timestamp _ _ _) as [timestamp|e]; [|discriminate].
  destruct (get_or_create _ _ _) as [[device d]|e]; [|discriminate].
  destruct (update_last_seen _ _ _ _) as [device' d'].
  destruct (SensorData_from_dict _ _ _) as [row|e]; [|discriminate].
  destruct (Routes.classify _ _ _) as [r w1].
  destruct (is_anomaly r) eqn:Hr.
  - destruct (Anomaly_from_dict _ _ _ _ _ _) as [a|e]; cbn [bind fst snd];
      [|discriminate].
    destruct (commit _ _ _ _ _ _ _) as [d1|e]; cbn [fst snd]; [|discriminate].
    intros _. rewrite detection_body_verdict, Hr. reflexivity.
  - destruct (commit _ _ _ _ _ _ _) as [d1|e]; cbn [fst snd]; [|discriminate].
    unfold detection_body. rewrite Hr. discriminate.
Qed.

Lemma serve_alerts requests : forall w,
  alerts (snd (serve fromisoformat fromtimestamp isoformat py_float float_column
                 database_error
                 w requests)) = alerts w.
Proof.
  induction requests as [|[[now utcnow] data] rest IH]; intros w;
    cbn [serve]; [reflexivity|].
  pose proof (detect_anomaly_alerts w now utcnow data) as H.
  destruct (detect_anomaly w now utcnow data) as [resp w1]. cbn [snd] in H.
  specialize (IH w1).
  destruct (serve _ _ _ _ _ _ w1 rest) as [resps w2]. cbn [snd] in IH |- *.
  congruence.
Qed.

(** On an installation whose alerts log does not exist, no sequence of
    requests to the route ever gets the malware flag: whatever the
    readings and their number, no response carries
    [is_potential_malware = true]. *)
Lemma serve_never_flags requests : forall w,
  alerts w = None ->
  Forall (fun resp : response =>
            PyDict.lookup "is_potential_malware" (snd resp)
            <> Some (VBool true))
    (fst (serve fromisoformat fromtimestamp isoformat py_float float_column
                 database_error w requests)).
Proof.
  induction requests as [|[[now utcnow] data] rest IH]; intros w Hw;
    cbn [serve]; [constructor|].
  pose proof (detect_anomaly_alerts w now utcnow data) as Ha.
  pose proof (detect_anomaly_flag_needs_anomaly w now utcnow data
                (VBool true)) as Hflag.
  pose proof (detect_anomaly_correlation w now utcnow data) as Hcount.
  destruct (detect_anomaly w now utcnow data) as [resp w1].
  cbn [fst snd] in Ha, Hflag, Hcount.
  assert (Hw1 : alerts w1 = None) by congruence.
  specialize (IH w1 Hw1).
  destruct (serve _ _ _ _ _ _ w1 rest) as [resps w2]. cbn [fst] in IH |- *.
  constructor; [|exact IH].
  intros Hm. destruct (Hcount (Hflag Hm)) as [Hm' _].
  rewrite Hw in Hm'. rewrite Hm in Hm'. discriminate Hm'.
Qed.

End Route.

(** A normal reading of [D1] one minute after the three alerts: the verdict
    is "not an anomaly", the count is 0 and the flag false although the
    log holds three alerts of the device in the window; the response
    carries no count, and the log is as it was. *)
Lemma normal_reading_example :
  (is_anomaly (fst (classify quiet_world (noon + timedelta 60) reading_D1))
   = false
   /\ check_for_malware (alerts quiet_world) (noon + timedelta 60) "D1"
      = (true, 3)
   /\ PyDict.lookup "is_anomaly"
        (snd (fst (sample_detect quiet_world (noon + timedelta 60)
                     reading_D1)))
      = Some (VBool false))
  /\ (anomaly_count
        (fst (classify quiet_world (noon + timedelta 60) reading_D1)) = 0
      /\ is_potential_malware
           (fst (classify quiet_world (noon + timedelta 60) reading_D1))
         = false
      /\ alerts (snd (classify quiet_world (noon + timedelta 60) reading_D1))
         = alerts quiet_world)
  /\ (PyDict.lookup "anomaly_count"
        (snd (fst (sample_detect quiet_world (noon + timedelta 60)
                     reading_D1)))
      = None
      /\ alerts (snd (sample_detect quiet_world (noon + timedelta 60)
                        reading_D1))
         = alerts quiet_world).
Proof.
  split; [vm_compute; repeat split; reflexivity|].
  destruct (normal_reading_leaves_correlation_untouched
              sample_fromisoformat sample_fromtimestamp
              sample_isoformat sample_py_float sample_float_column
              sample_database_error
              quiet_world (noon + timedelta 60)
              (noon + timedelta 60) reading_D1) as [Hclassify Hroute].
  split.
  - destruct Hclassify as (Hn & Hm & Ha & _); [vm_compute; reflexivity|].
    repeat split; assumption.
  - destruct Hroute as (Hn & _ & Ha & _); [vm_compute; reflexivity|].
    split; assumption.
Defined.

(** The first anomaly of device [D1]: the response reports it with the
    count 0, and no alerts log exists afterwards. *)
Lemma first_anomaly_reports_count_zero :
  PyDict.lookup "is_anomaly"
    (snd (fst (sample_detect alarmed_world (noon + timedelta 60) reading_D1)))
  = Some (VBool true)
  /\ PyDict.lookup "anomaly_count"
       (snd (fst (sample_detect alarmed_world (noon + timedelta 60)
                    reading_D1)))
     = Some (VInt 0)
  /\ alerts (snd (sample_detect alarmed_world (noon + timedelta 60)
                    reading_D1))
     = None.
Proof.
  assert (H : PyDict.lookup "is_anomaly"
                (snd (fst (sample_detect alarmed_world (noon + timedelta 60)
                             reading_D1)))
              = Some (VBool true)) by (vm_compute; reflexivity).
  split; [exact H|].
  destruct (detect_anomaly_counts_logged_alerts_only
              sample_fromisoformat sample_fromtimestamp sample_isoformat
              sample_py_float sample_float_column sample_database_error
              alarmed_world (noon + timedelta 60)
              (noon + timedelta 60) reading_D1 H) as (Hn & _ & Ha).
  split; [exact Hn|exact Ha].
Defined.

(** Three anomalies of [D1] within two minutes, each sent to the route:
    every response reports the count 0 and no malware, where the
    threshold is three anomalies in five minutes. *)
Lemma three_anomalies_are_never_correlated :
  let w1 := after alarmed_world (noon + timedelta 60) reading_D1 in
  let w2 := after w1 (noon + timedelta 120) reading_D1 in
  List.map (fun r => (PyDict.lookup "is_anomaly" (snd r),
                      PyDict.lookup "anomaly_count" (snd r),
                      PyDict.lookup "is_potential_malware" (snd r)))
    [fst (sample_detect alarmed_world (noon + timedelta 60) reading_D1);
     fst (sample_detect w1 (noon + timedelta 120) reading_D1);
     fst (sample_detect w2 (noon + timedelta 180) reading_D1)]
  = [(Some (VBool true), Some (VInt 0), Some (VBool false));
     (Some (VBool true), Some (VInt 0), Some (VBool false));
     (Some (VBool true), Some (VInt 0), Some (VBool false))].
Proof. vm_compute. reflexivity. Qed.

(** ** Devices and the lines counted for them (C3) *)

(** [log_anomaly] then [check_for_malware], for the first anomaly of a
    device: the anomaly just recorded is counted. *)
Lemma recorded_first_anomaly_counts_one :
  check_for_malware (record_all None [(noon, reading_D1)])
    (noon + timedelta 1) "D1" = (false, 1).
Proof. vm_compute. reflexivity. Qed.

(** C3 (what the code does). Device [D1] has no anomaly.  Recording one
    anomaly of device [D10] raises the count of [D1] from 0 to 1, and
    recording three of them flags [D1] as probable malware: the line of
    [D10] holds the text ["Device D10, ..."], in which ["Device D1"]
    occurs. *)
Theorem alert_of_D10_is_counted_for_D1 :
  check_for_malware None (noon + timedelta 200) "D1" = (false, 0)
  /\ check_for_malware (record_all None [(noon, reading_D10)])
       (noon + timedelta 200) "D1" = (false, 1)
  /\ check_for_malware
       (record_all None
          [(noon, reading_D10); (noon + timedelta 60, reading_D10);
           (noon + timedelta 120, reading_D10)])
       (noon + timedelta 200) "D1" = (true, 3)
  /\ log_message noon reading_D10 (-0.5)%float
     = "[2024-01-01 12:00:00] ANOMALY DETECTED: Device D10, Score: -0.5000, Data: temperature=900, pressure=2, rpm=3".
Proof. vm_compute. repeat split; reflexivity. Qed.

(** The text searched for a device occurs wherever the text searched for
    a device with a longer id occurs. *)
Lemma prefix_trans (a b t : string) :
  String.prefix a b = true ->
  String.prefix b t = true -> String.prefix a t = true.
Proof.
  revert a b. induction t as [|d t IHt]; intros a b Hab Hb.
  - destruct b; [exact Hab|cbn in Hb; discriminate Hb].
  - destruct a as [|x a]; [reflexivity|].
    destruct b as [|y b]; [discriminate Hab|].
    cbn [String.prefix] in *.
    destruct (ascii_dec x y) as [->|]; [|discriminate Hab].
    destruct (ascii_dec y d); [|discriminate Hb].
    exact (IHt a b Hab Hb).
Qed.

Lemma prefix_weaken (s a b t : string) :
  String.prefix a b = true ->
  String.prefix (s ++ b) t = true -> String.prefix (s ++ a) t = true.
Proof.
  intros Hab. revert t. induction s as [|c s IH]; intros t.
  - change (EmptyString ++ b) with b. change (EmptyString ++ a) with a.
    apply prefix_trans. exact Hab.
  - change (String c s ++ b) with (String c (s ++ b)).
    change (String c s ++ a) with (String c (s ++ a)).
    destruct t as [|d t]; [intros H; exact H|].
    cbn [String.prefix]. destruct (ascii_dec c d); [apply IH|intros H; exact H].
Qed.

Lemma contains_weaken (s a b line : string) :
  String.prefix a b = true ->
  PyStr.contains (s ++ b) line = true -> PyStr.contains (s ++ a) line = true.
Proof.
  intros Hab. induction line as [|c line IH]; cbn [PyStr.contains];
    rewrite !orb_true_iff.
  - intros [H|H]; [left; exact (prefix_weaken s a b _ Hab H)|discriminate].
  - intros [H|H]; [left; exact (prefix_weaken s a b _ Hab H)|right; auto].
Qed.

(** Isolation fails for every pair of ids of which one begins with the
    other: each line counted for the longer id is counted for the shorter
    one, whatever the log and the clock. *)
Lemma window_count_of_prefix window_start (a b : string) log :
  String.prefix a b = true ->
  window_count window_start b log <= window_count window_start a log.
Proof.
  intros Hab. destruct log as [content|]; [|reflexivity].
  unfold window_count. apply inj_le.
  induction (readlines content) as [|line lines IH]; [reflexivity|].
  cbn [List.filter].
  destruct (counted window_start b line) eqn:Hb.
  - assert (Ha : counted window_start a line = true).
    { apply counted_iff in Hb. destruct Hb as (t & Ht & Hle & Hc).
      apply counted_iff. exists t. split; [exact Ht|]. split; [exact Hle|].
      exact (contains_weaken "Device " a b line Hab Hc). }
    rewrite Ha. cbn [List.length]. lia.
  - destruct (counted window_start a line); cbn [List.length]; lia.
Qed.

(** ** Scoring without a model (C5) *)

Lemma predict_anomaly_unloaded w data :
  fst (get_model w) = None ->
  fst (predict_anomaly w data) = (false, 0%float, MODEL_NOT_LOADED).
Proof.
  intros H. unfold predict_anomaly.
  destruct (get_model w) as [model w']. cbn [fst] in H. subst model.
  reflexivity.
Qed.

(** With a model, the message begins with "Anomaly", "Normal" or "Error":
    it is never the one of the missing model. *)
Lemma predict_anomaly_loaded_message w data :
  fst (get_model w) <> None ->
  snd (fst (predict_anomaly w data)) <> MODEL_NOT_LOADED.
Proof.
  intros H. unfold predict_anomaly.
  destruct (get_model w) as [[model|] w']; [|contradiction H; reflexivity].
  unfold score_point.
  destruct (features_of MODEL_FEATURES data) as [features|e]; cbn [bind];
    [|cbn; discriminate].
  destruct (score_samples model features) as [s|e]; cbn [bind];
    [|cbn; discriminate].
  destruct (s <? ANOMALY_THRESHOLD)%float; cbn; discriminate.
Qed.

(** C5, as amended. When no model is loaded and none can be loaded,
    [predict_anomaly] returns the verdict [is_anomaly = False] with the
    score 0.0 and the reason "Model not loaded, unable to perform anomaly
    detection"; that reason is the message of no result computed with a
    model, so the condition can be told from a normal verdict by the
    message, and by it alone.  The [/detect] route checks for the model
    before it scores: for a body with the required fields it answers with
    the error "No trained model available for anomaly detection" (HTTP
    400) and leaves the alerts log and the database as they were. *)
Theorem missing_model_is_told_by_message w data :
  fst (get_model w) = None ->
  fst (predict_anomaly w data) = (false, 0%float, MODEL_NOT_LOADED)
  /\ (forall w' data', fst (get_model w') <> None ->
        snd (fst (predict_anomaly w' data')) <> MODEL_NOT_LOADED)
  /\ (forall fromisoformat fromtimestamp isoformat py_float float_column
             database_error now utcnow,
        first_missing required_fields data = None ->
        fst (detect_anomaly fromisoformat fromtimestamp isoformat py_float
               float_column database_error w now utcnow data)
        = error_response 400 "No trained model available for anomaly detection"
        /\ alerts (snd (detect_anomaly fromisoformat fromtimestamp isoformat
                          py_float float_column database_error
                          w now utcnow data)) = alerts w
        /\ db (snd (detect_anomaly fromisoformat fromtimestamp isoformat
                      py_float float_column database_error
                      w now utcnow data)) = db w).
Proof.
  intros H. split; [exact (predict_anomaly_unloaded w data H)|].
  split; [exact predict_anomaly_loaded_message|].
  intros fromisoformat fromtimestamp isoformat py_float float_column
    database_error now utcnow Hreq.
  unfold detect_anomaly. rewrite Hreq.
  pose proof (get_model_alerts w) as Ha. pose proof (get_model_db w) as Hd.
  destruct (get_model w) as [model w']. cbn [fst snd] in *. subst model.
  cbn [fst snd]. repeat split; assumption.
Qed.

Lemma missing_model_example :
  fst (get_model untrained_world) = None
  /\ fst (predict_anomaly untrained_world reading_D1)
     = (false, 0%float, MODEL_NOT_LOADED).
Proof.
  split; [reflexivity|].
  exact (proj1 (missing_model_is_told_by_message untrained_world reading_D1
                  eq_refl)).
Defined.

(** C5, as stated, fails. Without a model the scorer does return a
    verdict, and it is "not an anomaly": [is_anomaly] is false and the
    score is 0.0, exactly the verdict and the score of a reading that a
    loaded model scores 0.0.  The two results differ in the message
    only. *)
Lemma missing_model_yields_normal_verdict :
  fst (predict_anomaly untrained_world reading_D1)
  = (false, 0%float,
     "Model not loaded, unable to perform anomaly detection")
  /\ fst (predict_anomaly indifferent_world reading_D1)
     = (false, 0%float, "Normal data point with score 0.0000")
  /\ fst (fst (predict_anomaly untrained_world reading_D1))
     = fst (fst (predict_anomaly indifferent_world reading_D1)).
Proof. vm_compute. repeat split; reflexivity. Qed.

(** ** A load that fails (C6) *)

Lemma load_model_fails w :
  load_fails w -> isolation_forest_model (load_model w) = None.
Proof.
  unfold load_fails, load_model.
  destruct (model_path w); [reflexivity|contradiction|reflexivity].
Qed.

Lemma load_model_path w : model_path (load_model w) = model_path w.
Proof.
  unfold load_model. destruct (model_path w) eqn:H; cbn; exact H.
Qed.

(** C6, as amended. When loading fails (no file at [MODEL_PATH], or
    [joblib.load] raises), [load_model] returns normally, the failure is
    logged (a warning for the missing file, an error with the text of the
    exception otherwise), and the model of the process is reset to
    [None]: a model that was active before the call is dropped.  Scoring
    afterwards tries the load again and, the file being the same, answers
    "Model not loaded" with the verdict false and the score 0.0.  The
    alerts log and the database are not touched. *)
Theorem failed_load_drops_the_model w :
  load_fails w ->
  isolation_forest_model (load_model w) = None
  /\ match model_path w with
     | NoModelFile =>
         logging (load_model w)
         = (logging w
            ++ [(WARNING,
                 "Model file not found. You need to train the model first.")])%list
     | UnreadableModel e =>
         logging (load_model w)
         = (logging w
            ++ [(INFO, ("Loading model from " ++ MODEL_PATH)%string);
                (ERROR, ("Error loading model: " ++ e)%string)])%list
     | SavedModel _ => True
     end
  /\ alerts (load_model w) = alerts w
  /\ db (load_model w) = db w
  /\ forall data,
       fst (predict_anomaly (load_model w) data)
       = (false, 0%float, MODEL_NOT_LOADED).
Proof.
  intros H. split; [exact (load_model_fails w H)|].
  split; [|split; [apply load_model_alerts|split; [apply load_model_db|]]].
  - unfold load_model, log.
    destruct (model_path w); cbn; [reflexivity|exact I|].
    rewrite <- app_assoc. reflexivity.
  - intros data. apply predict_anomaly_unloaded.
    unfold get_model. rewrite (load_model_fails w H). cbn [fst].
    apply load_model_fails. unfold load_fails. rewrite load_model_path.
    exact H.
Qed.

Lemma failed_load_example :
  load_fails reloading_world
  /\ isolation_forest_model (load_model reloading_world) = None
  /\ logging (load_model reloading_world)
     = [(INFO, "Loading model from aegis/model/model.pkl");
        (ERROR, "Error loading model: invalid load key")].
Proof.
  split; [exact I|].
  destruct (failed_load_drops_the_model reloading_world I)
    as (Hm & Hl & _).
  split; [exact Hm|exact Hl].
Defined.

(** C6, as stated, fails. The process scores with its active model: the
    reading of [D1] is an anomaly with the score -0.5.  After a load that
    fails, the process holds no model, and the same reading gets the
    answer "Model not loaded" with the verdict false. *)
Lemma failed_load_loses_active_model :
  fst (predict_anomaly reloading_world reading_D1)
  = (true, (-0.5)%float, "Anomaly detected with score -0.5000")
  /\ isolation_forest_model (load_model reloading_world) = None
  /\ fst (predict_anomaly (load_model reloading_world) reading_D1)
     = (false, 0%float,
        "Model not loaded, unable to perform anomaly detection").
Proof. vm_compute. repeat split; reflexivity. Qed.

(** * Further properties of the code *)

(** ** The calendar of [strftime] and [strptime] *)

Lemma days_from_civil_march y m d era yoe mp :
  0 <= yoe <= 399 ->
  (if m <=? 2 then y - 1 else y) = yoe + era * 400 ->
  (if 2 <? m then m - 3 else m + 9) = mp ->
  days_from_civil y m d
  = era * 146097 + (yoe * 365 + yoe / 4 - yoe / 100 + ((153 * mp + 2) / 5 + d - 1))
    - 719468.
Proof.
  intros Hyoe Hy Hmp. unfold days_from_civil. rewrite Hy, Hmp.
  replace ((yoe + era * 400) / 400) with era
    by (Z.div_mod_to_equations; lia).
  replace (yoe + era * 400 - era * 400) with yoe by lia. lia.
Qed.

Lemma days_in_month_cases y m :
  1 <= m <= 12 ->
  (m = 2 /\ days_in_month y m = if is_leap y then 29 else 28)
  \/ ((m = 4 \/ m = 6 \/ m = 9 \/ m = 11) /\ days_in_month y m = 30)
  \/ ((m = 1 \/ m = 3 \/ m = 5 \/ m = 7 \/ m = 8 \/ m = 10 \/ m = 12)
      /\ days_in_month y m = 31).
Proof.
  intros Hm. unfold days_in_month.
  destruct (Z.eqb_spec m 2); [left; auto|].
  destruct (Z.eqb_spec m 4); [right; left; cbn; auto|].
  destruct (Z.eqb_spec m 6); [right; left; cbn; auto|].
  destruct (Z.eqb_spec m 9); [right; left; cbn; auto|].
  destruct (Z.eqb_spec m 11); [right; left; cbn; auto|].
  right; right. cbn. split; [lia|reflexivity].
Qed.

Lemma is_leap_next yoe era :
  (yoe + 1) mod 4 = 0 -> ((yoe + 1) mod 100 <> 0 \/ yoe = 399) ->
  is_leap (yoe + era * 400 + 1) = true.
Proof.
  intros H4 H100. unfold is_leap. apply andb_true_iff. split.
  - apply Z.eqb_eq. Z.div_mod_to_equations. lia.
  - apply orb_true_iff. destruct H100 as [H100|H100].
    + left. apply negb_true_iff, Z.eqb_neq. Z.div_mod_to_equations. lia.
    + right. apply Z.eqb_eq. Z.div_mod_to_equations. lia.
Qed.

Lemma civil_from_days_valid z :
  let '(y, m, d) := civil_from_days z in
  1 <= m <= 12 /\ 1 <= d <= days_in_month y m /\ days_from_civil y m d = z.
Proof.
  unfold civil_from_days.
  set (z' := z + 719468).
  set (era := z' / 146097).
  set (doe := z' - era * 146097).
  assert (Hdoe : 0 <= doe < 146097).
  { subst doe era. Z.div_mod_to_equations. lia. }
  assert (Hz : z = era * 146097 + doe - 719468) by (subst doe z'; lia).
  set (yoe := (doe - doe / 1460 + doe / 36524 - doe / 146096) / 365).
  set (doy := doe - (365 * yoe + yoe / 4 - yoe / 100)).
  assert (Hy : 0 <= yoe <= 399 /\ 0 <= doy <= 365
    /\ (doy = 365 -> (yoe + 1) mod 4 = 0 /\ ((yoe + 1) mod 100 <> 0 \/ yoe = 399))).
  { subst doy yoe. clearbody doe. clear -Hdoe. Z.div_mod_to_equations. lia. }
  destruct Hy as (Hyoe & Hdoy & Hleap).
  assert (Hdoe' : yoe * 365 + yoe / 4 - yoe / 100 + doy = doe) by (subst doy; lia).
  set (mp := (5 * doy + 2) / 153).
  set (d := doy - (153 * mp + 2) / 5 + 1).
  assert (Hm : 0 <= mp <= 11 /\ 1 <= d /\
    (mp = 0 \/ mp = 2 \/ mp = 4 \/ mp = 5 \/ mp = 7 \/ mp = 9 \/ mp = 10 -> d <= 31) /\
    (mp = 1 \/ mp = 3 \/ mp = 6 \/ mp = 8 -> d <= 30) /\
    (mp = 11 -> d <= 29 /\ (d = 29 -> doy = 365))
    /\ (153 * mp + 2) / 5 + d - 1 = doy).
  { subst d mp. clearbody doy. clear -Hdoy. Z.div_mod_to_equations. lia. }
  destruct Hm as (Hmp & Hd1 & H31 & H30 & H29 & Hdoy').
  clearbody d mp doy yoe doe era. clear z'.
  set (m := if mp <? 10 then mp + 3 else mp - 9).
  assert (Hmv : (mp < 10 /\ m = mp + 3) \/ (10 <= mp /\ m = mp - 9)).
  { subst m. destruct (Z.ltb_spec mp 10); lia. }
  clearbody m.
  set (y := if m <=? 2 then yoe + era * 400 + 1 else yoe + era * 400).
  assert (Hyv : (m <= 2 /\ y = yoe + era * 400 + 1)
                \/ (2 < m /\ y = yoe + era * 400)).
  { subst y. destruct (Z.leb_spec m 2); lia. }
  clearbody y.
  assert (Hm12 : 1 <= m <= 12) by lia.
  split; [exact Hm12|]. split.
  - split; [exact Hd1|].
    destruct (days_in_month_cases y m Hm12) as [[Hm2 ->]|[[Hm30 ->]|[Hm31 ->]]].
    + assert (Hmp11 : mp = 11) by lia. destruct (H29 Hmp11) as [Hle Hd29].
      destruct (Z.eq_dec d 29) as [Hd|Hd];
        [|destruct (is_leap y); lia].
      destruct (Hleap (Hd29 Hd)) as [H4 H100].
      replace y with (yoe + era * 400 + 1) by lia.
      rewrite (is_leap_next yoe era H4 H100). lia.
    + apply H30. lia.
    + apply H31. lia.
  - rewrite (days_from_civil_march y m d era yoe mp Hyoe).
    + lia.
    + destruct (Z.leb_spec m 2); lia.
    + destruct (Z.ltb_spec 2 m); lia.
Qed.

(** ** Times written by [strftime] read back with [strptime] *)

(** The integer [v] is one of [lo], [lo + 1], ...: a goal for each value
    that the hypotheses leave. *)
Ltac enum_from v lo :=
  first [ lia
        | destruct (Z.eq_dec v lo) as [->|?];
          [ | let lo' := eval compute in (lo + 1) in enum_from v lo' ] ].

Lemma parse_m_zfill v rest :
  1 <= v <= 12 -> parse_m (PyStr.zfill 2 v ++ rest) = Some (v, rest).
Proof. intros H. enum_from v 1; reflexivity. Qed.

Lemma parse_d_zfill v rest :
  1 <= v <= 31 -> parse_d (PyStr.zfill 2 v ++ rest) = Some (v, rest).
Proof. intros H. enum_from v 1; reflexivity. Qed.

Lemma parse_H_zfill v rest :
  0 <= v <= 23 ->
  spaces (" " ++ PyStr.zfill 2 v ++ rest) = Some (PyStr.zfill 2 v ++ rest)
  /\ parse_H (PyStr.zfill 2 v ++ rest) = Some (v, rest).
Proof. intros H. enum_from v 0; split; reflexivity. Qed.

Lemma parse_M_zfill v rest :
  0 <= v <= 59 -> parse_M (PyStr.zfill 2 v ++ rest) = Some (v, rest).
Proof. intros H. enum_from v 0; reflexivity. Qed.

Lemma parse_S_zfill v rest :
  0 <= v <= 59 -> parse_S (PyStr.zfill 2 v ++ rest) = Some (v, rest).
Proof. intros H. enum_from v 0; reflexivity. Qed.

Lemma four_digits_all :
  forallb four_digits_read_back (map (fun k => 1000 + Z.of_nat k) (seq 0 (Z.to_nat 9000))) = true.
Proof. vm_compute. reflexivity. Qed.

Lemma parse_Y_zfill y rest :
  1000 <= y <= 9999 -> parse_Y (PyStr.zfill 4 y ++ rest) = Some (y, rest).
Proof.
  intros H.
  assert (Hok : four_digits_read_back y = true).
  { pose proof four_digits_all as Hall. rewrite forallb_forall in Hall.
    apply Hall. apply in_map_iff. exists (Z.to_nat (y - 1000)).
    split; [cbn beta; lia|]. apply in_seq. lia. }
  unfold four_digits_read_back in Hok.
  destruct (PyStr.zfill 4 y) as [|a [|b [|c [|d [|e s]]]]]; try discriminate Hok.
  - cbn in Hok. cbv [String.append]. cbn [parse_Y] in *.
    destruct (is_digit a && is_digit b && is_digit c && is_digit d);
      [|discriminate Hok].
    apply andb_true_iff in Hok. destruct Hok as [Hok _].
    apply Z.eqb_eq in Hok. rewrite Hok. reflexivity.
  - cbn [parse_Y] in Hok.
    destruct (is_digit a && is_digit b && is_digit c && is_digit d);
      discriminate Hok.
Qed.

(** *** Texts *)

Lemma append_empty_r (s : string) : s ++ "" = s.
Proof.
  induction s as [|c s IH]; [reflexivity|].
  change (String c s ++ "") with (String c (s ++ "")). rewrite IH. reflexivity.
Qed.

Lemma append_assoc (a b c : string) : (a ++ b) ++ c = a ++ b ++ c.
Proof.
  induction a as [|x a IH]; [reflexivity|].
  change (String x (a ++ b) ++ c = String x (a ++ b ++ c)).
  change (String x ((a ++ b) ++ c) = String x (a ++ b ++ c)).
  rewrite IH. reflexivity.
Qed.

(** A time written with [%Y-%m-%d %H:%M:%S] reads back as itself, cut to
    the second. *)
Lemma strptime_strftime t :
  1000 <= year_of t <= 9999 ->
  strptime (strftime t) = Some (whole_second t).
Proof.
  unfold year_of, strftime, whole_second. intros Hy.
  set (secs := t / 1000000) in *.
  pose proof (civil_from_days_valid (secs / 86400)) as Hc.
  destruct (civil_from_days (secs / 86400)) as [[y mo] d]. cbn [fst] in Hy.
  destruct Hc as (Hmo & Hd & Hdays).
  set (r := secs mod 86400).
  assert (Hr : 0 <= r < 86400) by (subst r; apply Z.mod_pos_bound; lia).
  assert (HH : 0 <= r / 3600 <= 23) by (Z.div_mod_to_equations; lia).
  assert (HM : 0 <= r mod 3600 / 60 <= 59) by (Z.div_mod_to_equations; lia).
  assert (HS : 0 <= r mod 60 <= 59) by (Z.div_mod_to_equations; lia).
  assert (Hd31 : 1 <= d <= 31).
  { destruct (days_in_month_cases y mo Hmo) as [[_ H]|[[_ H]|[_ H]]];
      rewrite H in Hd; [destruct (is_leap y)|..]; lia. }
  unfold strptime.
  rewrite parse_Y_zfill by exact Hy.
  change (literal "-" ("-" ++ ?s)) with (Some s). cbv beta iota.
  rewrite parse_m_zfill by exact Hmo.
  change (literal "-" ("-" ++ ?s)) with (Some s). cbv beta iota.
  rewrite parse_d_zfill by exact Hd31.
  destruct (parse_H_zfill (r / 3600)
              (":" ++ PyStr.zfill 2 (r mod 3600 / 60) ++ ":"
               ++ PyStr.zfill 2 (r mod 60)) HH) as [Hsp HpH].
  rewrite Hsp, HpH.
  change (literal ":" (":" ++ ?s)) with (Some s). cbv beta iota.
  rewrite parse_M_zfill by exact HM.
  change (literal ":" (":" ++ ?s)) with (Some s). cbv beta iota.
  rewrite <- (append_empty_r (PyStr.zfill 2 (r mod 60))).
  rewrite parse_S_zfill by exact HS.
  unfold make_datetime.
  replace (_ && _) with true.
  - f_equal. rewrite Hdays. unfold timedelta. subst r secs.
    Z.div_mod_to_equations. lia.
  - symmetry. repeat (apply andb_true_iff; split); apply Z.leb_le; lia.
Qed.


(** *** The characters of the texts that are written *)

Lemma all_chars_app p a b :
  all_chars p (a ++ b) = all_chars p a && all_chars p b.
Proof.
  induction a as [|c a IH]; [reflexivity|].
  change (String c a ++ b) with (String c (a ++ b)). cbn [all_chars].
  rewrite IH. apply andb_assoc.
Qed.

Lemma all_chars_weaken (p q : ascii -> bool) s :
  (forall c, p c = true -> q c = true) ->
  all_chars p s = true -> all_chars q s = true.
Proof.
  intros Hpq. induction s as [|c s IH]; [reflexivity|]. cbn [all_chars].
  rewrite !andb_true_iff. intros [Hc Hs]. split; [apply Hpq; exact Hc|auto].
Qed.

Lemma one_line_app a b : one_line (a ++ b) = one_line a && one_line b.
Proof.
  unfold one_line, without. rewrite !all_chars_app.
  destruct (all_chars _ a), (all_chars _ b), (all_chars _ a), (all_chars _ b);
    reflexivity.
Qed.

Lemma plain_without sep s :
  plain sep = false -> all_chars plain s = true -> without sep s = true.
Proof.
  intros Hsep. apply all_chars_weaken. intros c Hc.
  destruct (Ascii.eqb_spec c sep) as [->|]; [congruence|reflexivity].
Qed.

Lemma plain_one_line s : all_chars plain s = true -> one_line s = true.
Proof.
  intros H. unfold one_line.
  rewrite (plain_without LF s), (plain_without CR s); auto.
Qed.

Lemma string_of_uint_plain d :
  all_chars plain (NilEmpty.string_of_uint d) = true.
Proof. induction d; cbn [NilEmpty.string_of_uint all_chars]; auto. Qed.

Lemma str_int_plain n : all_chars plain (PyStr.str_int n) = true.
Proof.
  unfold PyStr.str_int, NilZero.string_of_int, NilZero.string_of_uint.
  destruct (Z.to_int n) as [d|d]; destruct d;
    try reflexivity; try apply string_of_uint_plain;
    cbn [all_chars]; apply string_of_uint_plain.
Qed.

Lemma zeros_plain k : all_chars plain (PyStr.zeros k) = true.
Proof. induction k; [reflexivity|exact IHk]. Qed.

Lemma zfill_plain w n : all_chars plain (PyStr.zfill w n) = true.
Proof.
  unfold PyStr.zfill. rewrite all_chars_app, zeros_plain, str_int_plain.
  reflexivity.
Qed.

Lemma strftime_plain t : all_chars plain (strftime t) = true.
Proof.
  unfold strftime. destruct (civil_from_days _) as [[y mo] d].
  repeat (rewrite all_chars_app; apply andb_true_iff; split);
    try apply zfill_plain; reflexivity.
Qed.

Lemma format_4f_plain x :
  one_line (PyFloat.format_4f x) = true.
Proof.
  unfold PyFloat.format_4f.
  destruct (Prim2SF x) as [s|s| |s m e]; try (destruct s; reflexivity);
    try reflexivity.
  rewrite one_line_app. apply andb_true_iff. split; [destruct s; reflexivity|].
  apply plain_one_line. unfold PyFloat.fixed4.
  repeat (rewrite all_chars_app; apply andb_true_iff; split);
    try apply zfill_plain; try apply str_int_plain; reflexivity.
Qed.

(** ** The lines of the alerts log *)

Lemma split_cons sep c s :
  PyStr.split sep (String c s)
  = if Ascii.eqb c sep then EmptyString :: PyStr.split sep s
    else match PyStr.split sep s with
         | h :: t => String c h :: t
         | [] => [String c EmptyString]
         end.
Proof. reflexivity. Qed.

Lemma split_app_sep sep a rest :
  without sep a = true ->
  PyStr.split sep (a ++ String sep rest) = a :: PyStr.split sep rest.
Proof.
  induction a as [|c a IH]; intros Ha.
  - change (EmptyString ++ String sep rest) with (String sep rest).
    rewrite split_cons, Ascii.eqb_refl. reflexivity.
  - change (String c a ++ String sep rest) with (String c (a ++ String sep rest)).
    cbn [without all_chars] in Ha. apply andb_true_iff in Ha.
    destruct Ha as [Hc Ha]. rewrite split_cons.
    apply negb_true_iff in Hc. rewrite Hc, (IH Ha). reflexivity.
Qed.

Lemma split_app_head sep a b :
  without sep a = true ->
  exists h t, PyStr.split sep b = h :: t
              /\ PyStr.split sep (a ++ b) = (a ++ h) :: t.
Proof.
  intros Ha.
  assert (Hb : exists h t, PyStr.split sep b = h :: t).
  { destruct b as [|c b]; [exists EmptyString, []; reflexivity|].
    rewrite split_cons. destruct (Ascii.eqb c sep); [eauto|].
    destruct (PyStr.split sep b); eauto. }
  destruct Hb as (h & t & Hb). exists h, t. split; [exact Hb|].
  induction a as [|c a IH].
  - exact Hb.
  - change (String c a ++ b) with (String c (a ++ b)).
    cbn [without all_chars] in Ha. apply andb_true_iff in Ha.
    destruct Ha as [Hc Ha]. rewrite split_cons.
    apply negb_true_iff in Hc. rewrite Hc, (IH Ha). reflexivity.
Qed.

(** The timestamp read off a line that starts with a bracketed text. *)
Lemma parse_log_time_bracketed ts rest :
  without "[" ts = true -> without "]" ts = true ->
  parse_log_time ("[" ++ ts ++ "]" ++ rest) = strptime ts.
Proof.
  intros Hopen Hclose. unfold parse_log_time.
  change ("[" ++ ts ++ "]" ++ rest) with (String "[" (ts ++ String "]" rest)).
  rewrite split_cons. change (Ascii.eqb "[" "[") with true. cbv iota.
  destruct (split_app_head "[" ts (String "]" rest) Hopen)
    as (h & t & Hh & ->).
  rewrite split_cons in Hh. change (Ascii.eqb "]" "[") with false in Hh.
  cbv iota in Hh.
  assert (Hshape : exists h', h = String "]" h').
  { destruct (PyStr.split "[" rest); injection Hh as <- _; eauto. }
  destruct Hshape as (h' & ->).
  rewrite (split_app_sep "]" ts h' Hclose). reflexivity.
Qed.

Lemma contains_prefix sub s :
  String.prefix sub s = true -> PyStr.contains sub s = true.
Proof. intros H. destruct s; cbn [PyStr.contains]; rewrite H; reflexivity. Qed.

Lemma contains_app sub pre post :
  PyStr.contains sub (pre ++ sub ++ post) = true.
Proof.
  induction pre as [|c pre IH].
  - change (EmptyString ++ sub ++ post) with (sub ++ post).
    apply contains_prefix. apply prefix_append.
  - change (String c pre ++ sub ++ post) with (String c (pre ++ sub ++ post)).
    cbn [PyStr.contains]. rewrite IH. apply orb_true_r.
Qed.

Lemma contains_skip sub pre s :
  PyStr.contains sub s = true -> PyStr.contains sub (pre ++ s) = true.
Proof.
  intros H. induction pre as [|c pre IH]; [exact H|].
  change (String c pre ++ s) with (String c (pre ++ s)).
  cbn [PyStr.contains]. rewrite IH. apply orb_true_r.
Qed.

(** The line of the alerts log that [log_anomaly] writes carries the time
    of writing, cut to the second, and names the device of the reading. *)
Lemma parse_log_time_log_message now data score :
  1000 <= year_of now <= 9999 ->
  parse_log_time (log_message now data score ++ String LF EmptyString)
  = Some (whole_second now).
Proof.
  intros Hy. unfold log_message. cbv zeta.
  rewrite !append_assoc.
  change ("[" ++ strftime now ++ "] ANOMALY DETECTED: Device " ++ ?r)
    with ("[" ++ strftime now ++ "]" ++ " ANOMALY DETECTED: Device " ++ r).
  rewrite parse_log_time_bracketed.
  - apply strptime_strftime. exact Hy.
  - apply plain_without; [reflexivity|apply strftime_plain].
  - apply plain_without; [reflexivity|apply strftime_plain].
Qed.

Lemma contains_device_log_message now data score tail :
  PyStr.contains
    ("Device "
     ++ str_value (PyDict.get_default "device_id" (VStr "unknown") data))
    (log_message now data score ++ tail) = true.
Proof.
  unfold log_message. cbv zeta. rewrite !append_assoc.
  apply (contains_skip _ "["), contains_skip.
  change ("] ANOMALY DETECTED: Device " ++ ?id ++ ?r)
    with ("] ANOMALY DETECTED: " ++ ("Device " ++ id) ++ r).
  apply contains_app.
Qed.

(** *** Lines of a text *)

Lemma readlines_cons c rest :
  readlines (String c rest)
  = if Ascii.eqb c LF then String LF EmptyString :: readlines rest
    else if Ascii.eqb c CR then
      match rest with
      | String c' rest' =>
          if Ascii.eqb c' LF then String LF EmptyString :: readlines rest'
          else String LF EmptyString :: readlines rest
      | EmptyString => [String LF EmptyString]
      end
    else
      match readlines rest with
      | [] => [String c EmptyString]
      | line :: lines => String c line :: lines
      end.
Proof. reflexivity. Qed.

Lemma readlines_nonempty c rest : readlines (String c rest) <> [].
Proof.
  rewrite readlines_cons.
  destruct (Ascii.eqb c LF); [discriminate|].
  destruct (Ascii.eqb c CR).
  - destruct rest as [|c' rest']; [discriminate|].
    destruct (Ascii.eqb c' LF); discriminate.
  - destruct (readlines rest); discriminate.
Qed.

(** A text without a line break, followed by a line feed, is one line. *)
Lemma readlines_line s rest :
  one_line s = true ->
  readlines (s ++ String LF rest)
  = (s ++ String LF EmptyString) :: readlines rest.
Proof.
  induction s as [|c s IH]; intros Hs.
  - change (EmptyString ++ String LF rest) with (String LF rest).
    rewrite readlines_cons, Ascii.eqb_refl. reflexivity.
  - change (String c s ++ String LF rest) with (String c (s ++ String LF rest)).
    change (String c s ++ String LF EmptyString)
      with (String c (s ++ String LF EmptyString)).
    unfold one_line, without in Hs. cbn [all_chars] in Hs.
    apply andb_true_iff in Hs. destruct Hs as [Hlf Hcr].
    apply andb_true_iff in Hlf, Hcr.
    destruct Hlf as [Hc1 Hlf], Hcr as [Hc2 Hcr].
    apply negb_true_iff in Hc1, Hc2.
    rewrite readlines_cons, Hc1, Hc2, IH.
    + reflexivity.
    + unfold one_line, without. rewrite Hlf, Hcr. reflexivity.
Qed.

Lemma complete_tail c c' rest :
  complete (String c (String c' rest)) = complete (String c' rest).
Proof. reflexivity. Qed.

(** Reading a text that ends with a line feed, followed by more text. *)
Lemma readlines_app_aux b a :
  (complete a = true -> readlines (a ++ b) = (readlines a ++ readlines b)%list)
  /\ (forall c r, a = String c r -> complete r = true ->
        readlines (r ++ b) = (readlines r ++ readlines b)%list).
Proof.
  induction a as [|c a [IH1 IH2]].
  - split; [reflexivity|discriminate].
  - split; [|intros c0 r [= _ <-]; exact IH1].
    destruct a as [|c' a'].
    + cbn [complete]. intros Hc. apply Ascii.eqb_eq in Hc. subst c.
      reflexivity.
    + rewrite complete_tail. intros Hc.
      change (String c (String c' a') ++ b)
        with (String c (String c' (a' ++ b))).
      rewrite !readlines_cons with (c := c).
      change (String c' (a' ++ b)) with (String c' a' ++ b).
      destruct (Ascii.eqb c LF); [rewrite (IH1 Hc); reflexivity|].
      destruct (Ascii.eqb c CR).
      * change (String c' a' ++ b) with (String c' (a' ++ b)).
        destruct (Ascii.eqb c' LF) eqn:Hc'.
        -- rewrite (IH2 c' a' eq_refl); [reflexivity|].
           destruct a' as [|c'' a'']; [reflexivity|exact Hc].
        -- change (String c' (a' ++ b)) with (String c' a' ++ b).
           rewrite (IH1 Hc). reflexivity.
      * rewrite (IH1 Hc).
        pose proof (readlines_nonempty c' a') as Hne.
        destruct (readlines (String c' a')); [contradiction|reflexivity].
Qed.

Lemma readlines_app a b :
  complete a = true ->
  readlines (a ++ b) = (readlines a ++ readlines b)%list.
Proof. exact (proj1 (readlines_app_aux b a)). Qed.

Lemma complete_app_line a : complete (a ++ String LF EmptyString) = true.
Proof.
  induction a as [|c a IH]; [reflexivity|].
  change (String c a ++ String LF EmptyString)
    with (String c (a ++ String LF EmptyString)).
  destruct a as [|c' a']; [reflexivity|].
  change (String c' a' ++ String LF EmptyString)
    with (String c' (a' ++ String LF EmptyString)) in *.
  rewrite complete_tail. exact IH.
Qed.

Lemma readlines_append log line :
  complete_log log = true -> one_line line = true ->
  match append_text log (line ++ String LF EmptyString) with
  | Some content =>
      readlines content
      = (match log with Some c => readlines c | None => [] end
         ++ [(line ++ String LF EmptyString)%string])%list
      /\ complete content = true
  | None => False
  end.
Proof.
  intros Hlog Hline. destruct log as [content|]; cbn [append_text].
  - split.
    + rewrite readlines_app by exact Hlog.
      rewrite readlines_line by exact Hline. reflexivity.
    + rewrite <- append_assoc. apply complete_app_line.
  - split; [|apply complete_app_line].
    rewrite readlines_line by exact Hline. reflexivity.
Qed.

Lemma one_line_join sep parts :
  one_line sep = true -> forallb one_line parts = true ->
  one_line (PyStr.join sep parts) = true.
Proof.
  intros Hsep. induction parts as [|p parts IH]; [reflexivity|].
  cbn [forallb PyStr.join]. rewrite andb_true_iff. intros [Hp Hps].
  destruct parts as [|q parts]; [exact Hp|].
  rewrite !one_line_app, Hp, Hsep, (IH Hps). reflexivity.
Qed.

Lemma one_line_log_message now data score :
  one_line_reading data = true ->
  one_line (log_message now data score) = true.
Proof.
  unfold one_line_reading, logged_values, log_message. cbn [forallb].
  rewrite andb_true_iff. intros [Hid Hvalues]. cbv zeta.
  rewrite !one_line_app, Hid, format_4f_plain,
    (plain_one_line _ (strftime_plain now)).
  cbn [andb].
  change (one_line "[") with true. change (one_line ", Score: ") with true.
  change (one_line "] ANOMALY DETECTED: Device ") with true.
  change (one_line ", Data: ") with true. cbn [andb].
  apply one_line_join; [reflexivity|]. clear Hid. revert Hvalues.
  induction data as [|[k v] data IH]; intros Hvalues; [reflexivity|].
  cbn [List.filter fst] in *.
  destruct (existsb (String.eqb k) logged_fields) eqn:Hk; [|exact (IH Hvalues)].
  cbn [map forallb fst snd] in *. apply andb_true_iff in Hvalues.
  destruct Hvalues as [Hv Hvalues].
  apply andb_true_iff. split; [|exact (IH Hvalues)].
  rewrite !one_line_app, Hv. change (one_line "=") with true.
  cbn [andb]. rewrite andb_true_r.
  cbn [existsb logged_fields] in Hk.
  repeat (apply orb_true_iff in Hk; destruct Hk as [Hk|Hk];
          [apply String.eqb_eq in Hk; subst k; reflexivity|]).
  discriminate Hk.
Qed.


(** ** Recording an anomaly and counting it *)

Lemma window_count_append window_start device_id log line :
  complete_log log = true -> one_line line = true ->
  window_count window_start device_id
    (append_text log (line ++ String LF EmptyString))
  = window_count window_start device_id log
    + (if counted window_start device_id (line ++ String LF EmptyString)
       then 1 else 0).
Proof.
  intros Hlog Hline. pose proof (readlines_append log line Hlog Hline) as H.
  destruct (append_text log _) as [content|]; [|contradiction].
  destruct H as [H _]. unfold window_count. rewrite H.
  rewrite List.filter_app, List.length_app, Nat2Z.inj_add. cbn [List.filter].
  destruct log as [c|];
    destruct (counted _ _ (line ++ String LF EmptyString));
    cbn [List.length List.filter Z.of_nat]; lia.
Qed.

Lemma counted_log_message window_start device_id now data score :
  1000 <= year_of now <= 9999 ->
  counted window_start device_id
    (log_message now data score ++ String LF EmptyString)
  = (window_start <=? whole_second now)
    && PyStr.contains ("Device " ++ device_id)
         (log_message now data score ++ String LF EmptyString).
Proof.
  intros Hy. unfold counted.
  rewrite parse_log_time_log_message by exact Hy. reflexivity.
Qed.

Lemma log_anomaly_count log now data score now' device_id :
  complete_log log = true -> recordable now data ->
  snd (check_for_malware (fst (log_anomaly log now data score)) now' device_id)
  = snd (check_for_malware log now' device_id)
    + (if (now' - timedelta MALWARE_WINDOW_SECONDS <=? whole_second now)
          && PyStr.contains ("Device " ++ device_id)
               (log_message now data score ++ String LF EmptyString)
       then 1 else 0).
Proof.
  intros Hlog [Hdata Hy]. rewrite !check_for_malware_spec. cbn [fst snd].
  unfold log_anomaly. cbn [fst].
  rewrite window_count_append
    by (try exact Hlog; apply one_line_log_message; exact Hdata).
  rewrite counted_log_message by exact Hy. reflexivity.
Qed.

Lemma log_anomaly_complete log now data score :
  complete_log (fst (log_anomaly log now data score)) = true.
Proof.
  unfold log_anomaly. cbn [fst]. destruct log as [content|]; cbn.
  - rewrite <- append_assoc. apply complete_app_line.
  - apply complete_app_line.
Qed.

(** X1. [log_anomaly] then [check_for_malware]. On an alerts log that
    does not exist, is empty or ends with a line feed, recording a reading
    whose printed values hold no line break, at a time whose year has four
    digits, raises the count of the device of the reading by one in every
    check whose window ([now' - 300 s]) starts no later than the second of
    the recording, and leaves the count as it was in every later check;
    the log it leaves ends with a line feed again. *)
Theorem recorded_anomaly_is_counted_within_window log now data score now' :
  complete_log log = true -> recordable now data ->
  let log' := fst (log_anomaly log now data score) in
  snd (check_for_malware log' now' (device_text data))
  = snd (check_for_malware log now' (device_text data))
    + (if now' - timedelta MALWARE_WINDOW_SECONDS <=? whole_second now
       then 1 else 0)
  /\ complete_log log' = true.
Proof.
  intros Hlog Hrec. cbv zeta. split; [|apply log_anomaly_complete].
  rewrite (log_anomaly_count log now data score now' _ Hlog Hrec).
  unfold device_text. rewrite contains_device_log_message, andb_true_r.
  reflexivity.
Qed.

(** A first anomaly of [D1] recorded at noon is counted one minute later,
    and no longer six minutes later. *)
Lemma recorded_anomaly_example :
  (snd (check_for_malware (fst (log_anomaly None noon reading_D1 (-0.5)%float))
          (noon + timedelta 60) "D1") = 1
   /\ complete_log (fst (log_anomaly None noon reading_D1 (-0.5)%float)) = true)
  /\ snd (check_for_malware
            (fst (log_anomaly None noon reading_D1 (-0.5)%float))
            (noon + timedelta 360) "D1") = 0.
Proof.
  assert (Hrec : recordable noon reading_D1).
  { split; [reflexivity|]. vm_compute. split; discriminate. }
  split.
  - exact (recorded_anomaly_is_counted_within_window None noon reading_D1
             (-0.5)%float (noon + timedelta 60) eq_refl Hrec).
  - exact (proj1 (recorded_anomaly_is_counted_within_window None noon
                    reading_D1 (-0.5)%float (noon + timedelta 360) eq_refl
                    Hrec)).
Defined.

Lemma log_anomalies_count now' device_id records : forall log,
  complete_log log = true ->
  Forall (counted_record now' device_id) records ->
  snd (check_for_malware (log_anomalies log records) now' device_id)
  = snd (check_for_malware log now' device_id) + Z.of_nat (List.length records).
Proof.
  induction records as [|[[now data] score] records IH]; intros log Hlog Hall.
  - cbn. lia.
  - inversion Hall as [|r rs [Hrec [Hid Hin]] Hrest]; subst. cbn [fst snd] in *.
    cbn [log_anomalies]. rewrite IH.
    + rewrite (log_anomaly_count log now data score now' _ Hlog Hrec).
      unfold device_text. rewrite contains_device_log_message, andb_true_r.
      apply Z.leb_le in Hin. rewrite Hin. cbn [List.length]. lia.
    + apply log_anomaly_complete.
    + exact Hrest.
Qed.

(** X2. On an alerts log that is absent, empty or ends with a line feed,
    anomalies of one device recorded with [log_anomaly], all of them
    inside the window of a check, add their number to the count of the
    device, and the check flags the device exactly when the sum reaches
    [MALWARE_THRESHOLD_COUNT]: on an installation without alerts log,
    three recorded anomalies flag the device and two do not.  Each
    recording is of a reading whose printed values (the device id among
    them) hold no line break, in a year of four digits. *)
Theorem recorded_anomalies_reach_the_threshold log now' device_id records :
  complete_log log = true ->
  Forall (counted_record now' device_id) records ->
  check_for_malware (log_anomalies log records) now' device_id
  = (snd (check_for_malware log now' device_id)
       + Z.of_nat (List.length records) >=? MALWARE_THRESHOLD_COUNT,
     snd (check_for_malware log now' device_id)
       + Z.of_nat (List.length records)).
Proof.
  intros Hlog Hall.
  pose proof (log_anomalies_count now' device_id records log Hlog Hall) as H.
  rewrite check_for_malware_spec in H |- *. cbn [fst snd] in H |- *.
  rewrite H. reflexivity.
Qed.

(** Three anomalies of [D1] recorded within two minutes on a fresh
    installation: the check made a minute later flags the device. *)
Lemma three_recorded_anomalies_flag_the_device :
  check_for_malware
    (log_anomalies None
       [(noon, reading_D1, (-0.5)%float);
        (noon + timedelta 60, reading_D1, (-0.25)%float);
        (noon + timedelta 120, reading_D1, (-0.75)%float)])
    (noon + timedelta 180) "D1"
  = (true, 3).
Proof.
  apply (recorded_anomalies_reach_the_threshold None (noon + timedelta 180)
           "D1"); [reflexivity|].
  repeat constructor; try reflexivity; vm_compute; discriminate.
Defined.

Lemma counted_later ws1 ws2 device_id line :
  ws1 <= ws2 ->
  counted ws2 device_id line = true -> counted ws1 device_id line = true.
Proof.
  intros Hle. rewrite !counted_iff. intros (t & Ht & Hws & Hc).
  exists t. repeat split; try assumption. lia.
Qed.

Lemma window_count_later ws1 ws2 device_id log :
  ws1 <= ws2 ->
  window_count ws2 device_id log <= window_count ws1 device_id log.
Proof.
  intros Hle. destruct log as [content|]; [|reflexivity].
  unfold window_count. apply inj_le.
  induction (readlines content) as [|line lines IH]; [reflexivity|].
  cbn [List.filter].
  pose proof (counted_later ws1 ws2 device_id line Hle) as H.
  destruct (counted ws2 device_id line).
  - rewrite (H eq_refl). cbn [List.length]. lia.
  - destruct (counted ws1 device_id line); cbn [List.length]; lia.
Qed.

(** X3. The count of [check_for_malware] never grows with the clock: on
    the same log, a later check counts no more lines for a device than an
    earlier one, and a device that the later check flags is flagged by the
    earlier one. *)
Theorem count_never_grows_with_the_clock log now1 now2 device_id :
  now1 <= now2 ->
  snd (check_for_malware log now2 device_id)
  <= snd (check_for_malware log now1 device_id)
  /\ (fst (check_for_malware log now2 device_id) = true ->
      fst (check_for_malware log now1 device_id) = true).
Proof.
  intros Hle. rewrite !check_for_malware_spec. cbn [fst snd].
  pose proof (window_count_later
                (now1 - timedelta MALWARE_WINDOW_SECONDS)
                (now2 - timedelta MALWARE_WINDOW_SECONDS) device_id log) as H.
  assert (Hws : now1 - timedelta MALWARE_WINDOW_SECONDS
                <= now2 - timedelta MALWARE_WINDOW_SECONDS) by lia.
  specialize (H Hws). split; [exact H|].
  rewrite !Z.geb_leb, !Z.leb_le. lia.
Qed.

(** Three alerts of [D1] written at noon: the check of 12:01 counts three
    and flags the device, the check of 13:00 counts none. *)
Lemma count_never_grows_example :
  noon + timedelta 60 <= noon + timedelta 3600
  /\ snd (check_for_malware (Some (sample_log 3)) (noon + timedelta 3600) "D1")
     <= snd (check_for_malware (Some (sample_log 3)) (noon + timedelta 60) "D1").
Proof.
  assert (H : noon + timedelta 60 <= noon + timedelta 3600)
    by (vm_compute; discriminate).
  split; [exact H|].
  exact (proj1 (count_never_grows_with_the_clock (Some (sample_log 3))
                  (noon + timedelta 60) (noon + timedelta 3600) "D1" H)).
Defined.

(** ** The recent alerts *)

Lemma slice_from_suffix {A : Type} (start : Z) (l : list A) :
  exists dropped, l = (dropped ++ slice_from start l)%list.
Proof.
  unfold slice_from. eexists. symmetry. apply firstn_skipn.
Qed.

Lemma slice_from_last_n {A : Type} (n : Z) (l : list A) :
  1 <= n ->
  slice_from (- n) l = skipn (List.length l - Z.to_nat n) l
  /\ Z.of_nat (List.length (slice_from (- n) l))
     = Z.min n (Z.of_nat (List.length l)).
Proof.
  intros Hn. unfold slice_from.
  replace (- n <? 0) with true by (symmetry; apply Z.ltb_lt; lia).
  replace (Z.to_nat (Z.max (- n + Z.of_nat (List.length l)) 0))
    with (List.length l - Z.to_nat n)%nat by lia.
  split; [reflexivity|]. rewrite List.length_skipn. lia.
Qed.

(** X4. [get_recent_logs(n)] returns under ["alerts"] the last lines of
    the alerts log: for [n >= 1] the last [n] of them, or all of them
    when the log holds fewer; for [n = 0] all the lines of the log, not
    none; for a negative [n] the lines after the first [-n]; and no line
    when the log does not exist. The lines keep their order and their
    line feeds. *)
Theorem get_recent_logs_returns_the_last_lines data_logs log n :
  fst (get_recent_logs data_logs log n) = data_logs
  /\ (exists dropped,
        alert_lines log = (dropped ++ snd (get_recent_logs data_logs log n))%list)
  /\ (1 <= n ->
      Z.of_nat (List.length (snd (get_recent_logs data_logs log n)))
      = Z.min n (Z.of_nat (List.length (alert_lines log))))
  /\ (n = 0 -> snd (get_recent_logs data_logs log n) = alert_lines log)
  /\ (n < 0 ->
      snd (get_recent_logs data_logs log n)
      = skipn (Z.to_nat (- n)) (alert_lines log)).
Proof.
  unfold get_recent_logs, alert_lines. cbn [fst snd].
  split; [reflexivity|].
  destruct log as [content|].
  - split; [apply slice_from_suffix|]. split; [|split].
    + intros Hn. apply slice_from_last_n. exact Hn.
    + intros ->. unfold slice_from. cbn [Z.opp Z.ltb Z.compare].
      rewrite Z.min_l by lia. reflexivity.
    + intros Hn. unfold slice_from.
      replace (- n <? 0) with false by (symmetry; apply Z.ltb_ge; lia).
      destruct (Z.le_ge_cases (- n) (Z.of_nat (List.length (readlines content)))).
      * rewrite Z.min_l by assumption. reflexivity.
      * rewrite Z.min_r by assumption. rewrite Nat2Z.id.
        rewrite !List.skipn_all2; [reflexivity|lia|lia].
  - split; [exists []; reflexivity|]. split; [|split].
    + intros Hn. cbn. lia.
    + reflexivity.
    + intros _. destruct (Z.to_nat (- n)); reflexivity.
Qed.

(** X5. [log_anomaly] then [get_recent_logs]: the line just recorded is
    the last of the recent alerts, whatever the number of alerts asked
    for (one at least). *)
Theorem recorded_anomaly_is_the_last_recent_alert
    data_logs log now data score n :
  complete_log log = true -> one_line_reading data = true -> 1 <= n ->
  last (snd (get_recent_logs data_logs
               (fst (log_anomaly log now data score)) n))
  = Some (log_message now data score ++ String LF EmptyString).
Proof.
  intros Hlog Hdata Hn. unfold log_anomaly, get_recent_logs. cbn [fst snd].
  pose proof (readlines_append log (log_message now data score) Hlog
                (one_line_log_message now data score Hdata)) as H.
  destruct (append_text log _) as [content|]; [|contradiction].
  destruct H as [-> _].
  destruct (slice_from_last_n n
              (alert_lines log
               ++ [(log_message now data score ++ String LF EmptyString)%string])%list
              Hn)
    as [Hs _].
  unfold alert_lines in Hs. rewrite Hs.
  rewrite List.skipn_app, List.length_app. cbn [List.length].
  replace (_ + 1 - Z.to_nat n - _)%nat with 0%nat by lia.
  cbn [skipn]. apply last_snoc.
Qed.

(** The first anomaly of [D1], recorded at noon, is the last of the
    hundred most recent alerts. *)
Lemma last_recent_alert_example :
  last (snd (get_recent_logs []
               (fst (log_anomaly None noon reading_D1 (-0.5)%float))
               DEFAULT_LOG_ENTRIES))
  = Some sample_line.
Proof.
  apply (recorded_anomaly_is_the_last_recent_alert [] None noon reading_D1
           (-0.5)%float DEFAULT_LOG_ENTRIES); [reflexivity|reflexivity|].
  vm_compute. discriminate.
Defined.

(** ** Entries of a dictionary *)

Lemma lookup_setitem_eq key v d :
  PyDict.lookup key (PyDict.setitem key v d) = Some v.
Proof.
  induction d as [|[k x] d IH]; cbn [PyDict.setitem PyDict.lookup].
  - rewrite String.eqb_refl. reflexivity.
  - destruct (String.eqb k key) eqn:Hk; cbn [PyDict.lookup]; rewrite Hk;
      [reflexivity|exact IH].
Qed.

Lemma lookup_setitem_ne key key' v d :
  key' <> key ->
  PyDict.lookup key' (PyDict.setitem key v d) = PyDict.lookup key' d.
Proof.
  intros Hne. induction d as [|[k x] d IH]; cbn [PyDict.setitem PyDict.lookup].
  - destruct (String.eqb_spec key key'); [congruence|reflexivity].
  - destruct (String.eqb_spec k key) as [->|Hk]; cbn [PyDict.lookup].
    + destruct (String.eqb_spec key key'); [congruence|reflexivity].
    + destruct (String.eqb k key'); [reflexivity|exact IH].
Qed.

Lemma setitem_same key v d :
  PyDict.lookup key d = Some v -> PyDict.setitem key v d = d.
Proof.
  induction d as [|[k x] d IH]; cbn [PyDict.setitem PyDict.lookup];
    [discriminate|].
  destruct (String.eqb_spec k key) as [->|Hk].
  - intros [= ->]. reflexivity.
  - intros H. rewrite (IH H). reflexivity.
Qed.

(** Validation reads the presence of the required fields and the values
    of the numeric ones, and nothing else. *)
Lemma validate_data_ext d1 d2 :
  (forall f, In f REQUIRED_FIELDS -> PyDict.mem f d1 = PyDict.mem f d2) ->
  (forall f, In f numeric_fields -> PyDict.get f d1 = PyDict.get f d2) ->
  validate_data d1 = validate_data d2.
Proof.
  intros Hmem Hget. unfold validate_data.
  replace (List.filter (fun field => negb (PyDict.mem field d1)) REQUIRED_FIELDS)
    with (List.filter (fun field => negb (PyDict.mem field d2)) REQUIRED_FIELDS).
  - destruct (List.filter _ REQUIRED_FIELDS); [|reflexivity].
    unfold numeric_fields, check_numeric.
    rewrite !Hget by (cbn; auto). reflexivity.
  - apply List.filter_ext_in. intros f Hf. rewrite (Hmem f Hf). reflexivity.
Qed.

Section Preprocessed.

Variable timestamp : datetime -> epoch_seconds.

Local Abbreviation preprocess_data := (preprocess_data timestamp).

(** What [preprocess_data] returns: the reading with the time stamped,
    and with the timestamp replaced when it converts. *)
Lemma preprocess_data_shape clock data processed :
  preprocess_data clock data = Ok processed ->
  processed = PyDict.setitem "received_at" (VInt clock) data
  \/ exists s t n,
       PyDict.lookup "timestamp" data = Some (VStr s)
       /\ strptime_T s = Some t /\ timestamp t = Seconds n
       /\ processed = PyDict.setitem "received_at" (VInt clock)
                        (PyDict.setitem "timestamp" (VInt n) data).
Proof.
  unfold Utils.preprocess_data, PyDict.get, PyDict.get_default.
  destruct (PyDict.lookup "timestamp" data) as [[| | | |s|]|] eqn:Hts;
    try (intros [= <-]; left; reflexivity).
  destruct (strptime_T s) as [t|] eqn:Ht;
    [|intros [= <-]; left; reflexivity].
  destruct (timestamp t) as [n| |msg] eqn:Hn;
    [|intros [= <-]; left; reflexivity|discriminate].
  intros [= <-]. right. exists s, t, n. auto.
Qed.

Lemma preprocess_data_lookup clock data processed key :
  preprocess_data clock data = Ok processed ->
  key <> "timestamp" -> key <> "received_at" ->
  PyDict.lookup key processed = PyDict.lookup key data.
Proof.
  intros H Hts Hrec.
  destruct (preprocess_data_shape clock data processed H)
    as [->|(s & t & n & _ & _ & _ & ->)];
    rewrite !lookup_setitem_ne by assumption; reflexivity.
Qed.

Lemma preprocess_data_mem_timestamp clock data processed :
  preprocess_data clock data = Ok processed ->
  PyDict.mem "timestamp" processed = PyDict.mem "timestamp" data.
Proof.
  intros H. unfold PyDict.mem.
  destruct (preprocess_data_shape clock data processed H)
    as [->|(s & t & n & Hs & _ & _ & ->)];
    rewrite lookup_setitem_ne by discriminate; [reflexivity|].
  rewrite lookup_setitem_eq, Hs. reflexivity.
Qed.

(** X6. [preprocess_data] keeps what [validate_data] reads: every entry
    of the reading other than ["timestamp"] and ["received_at"] is
    returned as it came, a timestamp is present after the call exactly
    when it was before, and the verdict of [validate_data] on the
    preprocessed reading is its verdict on the reading. *)
Theorem preprocess_data_keeps_validation clock data processed :
  preprocess_data clock data = Ok processed ->
  (forall key, key <> "timestamp" -> key <> "received_at" ->
     PyDict.lookup key processed = PyDict.lookup key data)
  /\ PyDict.mem "timestamp" processed = PyDict.mem "timestamp" data
  /\ validate_data processed = validate_data data.
Proof.
  intros H. split; [|split].
  - intros key. exact (preprocess_data_lookup clock data processed key H).
  - exact (preprocess_data_mem_timestamp clock data processed H).
  - apply validate_data_ext.
    + intros f Hf. cbn in Hf.
      destruct Hf as [<-|Hf];
        [exact (preprocess_data_mem_timestamp clock data processed H)|].
      unfold PyDict.mem.
      repeat (destruct Hf as [<-|Hf];
              [rewrite (preprocess_data_lookup clock data processed _ H);
               [reflexivity|discriminate|discriminate]|]).
      destruct Hf.
    + intros f Hf. cbn in Hf. unfold PyDict.get, PyDict.get_default.
      repeat (destruct Hf as [<-|Hf];
              [rewrite (preprocess_data_lookup clock data processed _ H);
               [reflexivity|discriminate|discriminate]|]).
      destruct Hf.
Qed.

(** X7. [preprocess_data] stamps the reading with the clock of the
    server, whatever ["received_at"] the client sent, and preprocessing
    its own result at the same clock changes nothing: a timestamp that
    has been converted is not converted again. *)
Theorem preprocess_data_is_idempotent clock data processed :
  preprocess_data clock data = Ok processed ->
  PyDict.lookup "received_at" processed = Some (VInt clock)
  /\ preprocess_data clock processed = Ok processed.
Proof.
  intros H.
  assert (Hrec : PyDict.lookup "received_at" processed = Some (VInt clock)).
  { destruct (preprocess_data_shape clock data processed H)
      as [->|(s & t & n & _ & _ & _ & ->)]; apply lookup_setitem_eq. }
  split; [exact Hrec|].
  assert (Hsame : PyDict.setitem "received_at" (VInt clock) processed
                  = processed) by (apply setitem_same; exact Hrec).
  assert (Hts : forall v, PyDict.lookup "timestamp" data = v ->
                PyDict.lookup "timestamp"
                  (PyDict.setitem "received_at" (VInt clock) data) = v).
  { intros v <-. apply lookup_setitem_ne. discriminate. }
  revert H Hsame Hts.
  unfold Utils.preprocess_data, PyDict.get, PyDict.get_default.
  destruct (PyDict.lookup "timestamp" data) as [[| | | |s|]|] eqn:Hv;
    try (intros [= <-] Hsame Hts; rewrite (Hts _ eq_refl), Hsame;
         reflexivity).
  destruct (strptime_T s) as [t|] eqn:Ht;
    [|intros [= <-] Hsame Hts; rewrite (Hts _ eq_refl), Ht, Hsame;
      reflexivity].
  destruct (timestamp t) as [n| |msg] eqn:Hn;
    [|intros [= <-] Hsame Hts; rewrite (Hts _ eq_refl), Ht, Hn, Hsame;
      reflexivity|discriminate].
  intros [= <-] Hsame _.
  rewrite lookup_setitem_ne by discriminate.
  rewrite lookup_setitem_eq, Hsame. reflexivity.
Qed.

End Preprocessed.

(** The reading of [D1], received forty seconds after its timestamp on a
    host whose local time is UTC. *)
Lemma preprocess_data_example :
  preprocess_data utc_timestamp 1704110500 reading_D1 = Ok preprocessed_D1
  /\ validate_data preprocessed_D1 = validate_data reading_D1.
Proof.
  assert (H : preprocess_data utc_timestamp 1704110500 reading_D1
              = Ok preprocessed_D1) by (vm_compute; reflexivity).
  split; [exact H|].
  exact (proj2 (proj2 (preprocess_data_keeps_validation utc_timestamp
                         1704110500 reading_D1 preprocessed_D1 H))).
Defined.

Lemma preprocess_data_twice_example :
  preprocess_data utc_timestamp 1704110500 reading_D1 = Ok preprocessed_D1
  /\ preprocess_data utc_timestamp 1704110500 preprocessed_D1
     = Ok preprocessed_D1.
Proof.
  assert (H : preprocess_data utc_timestamp 1704110500 reading_D1
              = Ok preprocessed_D1) by (vm_compute; reflexivity).
  split; [exact H|].
  exact (proj2 (preprocess_data_is_idempotent utc_timestamp 1704110500
                  reading_D1 preprocessed_D1 H)).
Defined.


(** ** Scoring: the features read, and a scoring that fails *)

Lemma features_of_ext features data1 data2 :
  (forall f, In f features -> PyDict.lookup f data1 = PyDict.lookup f data2) ->
  features_of features data1 = features_of features data2.
Proof.
  induction features as [|f features IH]; intros H; [reflexivity|].
  cbn [features_of]. unfold PyDict.item.
  rewrite (H f (or_introl eq_refl)), IH; [reflexivity|].
  intros g Hg. apply H. right. exact Hg.
Qed.

(** X8. The verdict of [predict_anomaly] is a function of the values of
    temperature, pressure and rpm and of the state of the scorer: two
    readings that agree on the three features get the same verdict, score
    and message, whatever their device, timestamp and other entries. *)
Theorem verdict_depends_on_the_features_only w data1 data2 :
  (forall f, In f MODEL_FEATURES ->
     PyDict.lookup f data1 = PyDict.lookup f data2) ->
  predict_anomaly w data1 = predict_anomaly w data2.
Proof.
  intros H. unfold predict_anomaly, score_point.
  rewrite (features_of_ext MODEL_FEATURES data1 data2 H). reflexivity.
Qed.

(** The readings of [D1] and [D2] hold the same feature values: they get
    the same answer. *)
Lemma same_features_example :
  predict_anomaly alarmed_world reading_D1
  = predict_anomaly alarmed_world reading_D2.
Proof.
  apply verdict_depends_on_the_features_only.
  intros f Hf. cbn in Hf.
  repeat (destruct Hf as [<-|Hf]; [reflexivity|]). destruct Hf.
Defined.

(** The first feature that a reading lacks is the one [features_of]
    fails on, with the text of its [KeyError]. *)
Lemma features_of_missing features data f :
  first_missing features data = Some f ->
  features_of features data = Raise ("'" ++ f ++ "'").
Proof.
  induction features as [|g features IH]; [discriminate|].
  cbn [first_missing features_of]. unfold PyDict.mem, PyDict.item.
  destruct (PyDict.lookup g data) as [v|]; cbn [negb bind].
  - intros H. rewrite (IH H). reflexivity.
  - intros [= ->]. reflexivity.
Qed.

Lemma predict_anomaly_failure w data m e :
  fst (get_model w) = Some m ->
  score_point m data = Raise e ->
  predict_anomaly w data
  = ((false, 0%float, "Error during prediction: " ++ e),
     log ERROR ("Error during anomaly prediction: " ++ e) (snd (get_model w))).
Proof.
  intros Hm He. unfold predict_anomaly.
  destruct (get_model w) as [model w']. cbn [fst snd] in *. subst model.
  rewrite He. reflexivity.
Qed.

(** X9. A scoring that fails is answered as a normal reading. With a
    model loaded, when the reading lacks a feature or the model raises on
    the feature values, [predict_anomaly] returns the verdict false and
    the score 0.0 with the message "Error during prediction: ..." (for a
    missing feature, the name of the first one missing between quotes),
    logs the error, and keeps the model. *)
Theorem scoring_failure_is_answered_as_normal w data m :
  fst (get_model w) = Some m ->
  (forall f, first_missing MODEL_FEATURES data = Some f ->
     fst (predict_anomaly w data)
     = (false, 0%float, "Error during prediction: '" ++ f ++ "'"))
  /\ (forall features e,
        features_of MODEL_FEATURES data = Ok features ->
        score_samples m features = Raise e ->
        predict_anomaly w data
        = ((false, 0%float, "Error during prediction: " ++ e),
           log ERROR ("Error during anomaly prediction: " ++ e)
             (snd (get_model w))))
  /\ (forall e, score_point m data = Raise e ->
        isolation_forest_model (snd (predict_anomaly w data)) = Some m).
Proof.
  intros Hm. split; [|split].
  - intros f Hf.
    rewrite (predict_anomaly_failure w data m ("'" ++ f ++ "'") Hm);
      [reflexivity|].
    unfold score_point. rewrite (features_of_missing _ _ _ Hf). reflexivity.
  - intros features e Hf He. apply (predict_anomaly_failure w data m e Hm).
    unfold score_point. rewrite Hf. cbn [bind]. rewrite He. reflexivity.
  - intros e He. rewrite (predict_anomaly_failure w data m e Hm He).
    cbn [snd log isolation_forest_model].
    revert Hm. unfold get_model.
    destruct (isolation_forest_model w) as [m'|] eqn:Hw; cbn [fst snd];
      [intros [= ->]; exact Hw|intros H; exact H].
Qed.

(** A reading without pressure, scored by a process that holds a model:
    the answer is "not an anomaly", with the name of the feature. *)
Lemma missing_feature_example :
  fst (predict_anomaly alarmed_world reading_text_temperature)
  = (false, 0%float, "Error during prediction: 'pressure'").
Proof.
  exact (proj1 (scoring_failure_is_answered_as_normal alarmed_world
                  reading_text_temperature (constant_model (-0.5)%float)
                  eq_refl) "pressure" eq_refl).
Defined.

(** ** The [/ingest] route, and [/detect] beside it *)

Section Ingestion.

Variable fromisoformat : string -> result datetime.
Variable fromtimestamp : value -> result datetime.
Variable isoformat : datetime -> string.
Variable py_float : value -> result float.
Variable float_column : value -> bool.
Variable database_error : refused -> string.

Local Abbreviation parse_timestamp := (parse_timestamp fromisoformat fromtimestamp).
Local Abbreviation store :=
  (store fromisoformat fromtimestamp float_column database_error).
Local Abbreviation ingest_data :=
  (ingest_data fromisoformat fromtimestamp float_column database_error).
Local Abbreviation process :=
  (process fromisoformat fromtimestamp isoformat py_float float_column
     database_error).
Local Abbreviation detect_anomaly :=
  (detect_anomaly fromisoformat fromtimestamp isoformat py_float float_column
     database_error).

(** A timestamp that the route has parsed is one [from_dict] can keep. *)
Lemma stored_timestamp_parsed v timestamp :
  parse_timestamp v = Ok timestamp ->
  exists column, stored_timestamp fromisoformat v = Ok column.
Proof.
  unfold Routes.parse_timestamp, stored_timestamp.
  destruct v; try (intros _; eexists; reflexivity).
  intros ->. eexists. reflexivity.
Qed.

Lemma SensorData_from_dict_parsed data device timestamp :
  parse_timestamp (PyDict.get "timestamp" data) = Ok timestamp ->
  exists row, SensorData_from_dict fromisoformat data device = Ok row
              /\ sd_device_id row = id device.
Proof.
  intros H. unfold SensorData_from_dict.
  destruct (stored_timestamp_parsed _ _ H) as [column ->]. cbn [bind].
  eexists. split; reflexivity.
Qed.

Lemma not_null_spec v : not_null v = true <-> v <> VNone.
Proof. destruct v; cbn; split; congruence. Qed.


(** The database takes the row [from_dict] builds exactly when it takes
    the reading. *)
Lemma SensorData_from_dict_takes data device row :
  PyDict.get "device_id" data <> VNone ->
  SensorData_from_dict fromisoformat data device = Ok row ->
  takes_sensor_data float_column row = takes_reading float_column data.
Proof.
  intros Hid. apply not_null_spec in Hid.
  unfold SensorData_from_dict, stored_timestamp, takes_reading,
    takes_sensor_data.
  rewrite Hid.
  destruct (PyDict.get "timestamp" data) as [| | | |text|];
    cbn [bind]; try (intros [= <-]; reflexivity).
  destruct (fromisoformat _); cbn [bind]; [|discriminate].
  intros [= <-]. reflexivity.
Qed.

Lemma store_spec w utcnow data :
  match parse_timestamp (PyDict.get "timestamp" data) with
  | Raise e => store w utcnow data = (Raise e, w)
  | Ok _ =>
      (PyDict.get "device_id" data = VNone ->
       store w utcnow data
       = (Raise (database_error (RefusedDevice VNone)), w))
      /\ (PyDict.get "device_id" data <> VNone ->
          exists row,
            SensorData_from_dict fromisoformat data
              (fst (seen utcnow data (db w))) = Ok row
            /\ store w utcnow data
               = if takes_reading float_column data
                 then (Ok (200, [("status", VStr "success");
                                 ("message",
                                  VStr "Data ingested successfully")]),
                       set_db (flushed (device_key data)
                                 (fst (seen utcnow data (db w))) row None
                                 (snd (seen utcnow data (db w)))) w)
                 else (Raise (database_error (RefusedRows row None)),
                       set_db (snd (seen utcnow data (db w))) w))
  end.
Proof.
  unfold Routes.store, seen.
  destruct (parse_timestamp _) as [timestamp|e] eqn:Hts; [|reflexivity].
  split.
  - intros ->. reflexivity.
  - intros Hid. rewrite (get_or_create_registered database_error _ (db w) Hid).
    change (str_value (PyDict.get "device_id" data)) with (device_key data).
    destruct (registered _ _) as [device d]. cbn [fst snd].
    destruct (update_last_seen _ _ _ _) as [device' d']. cbn [fst snd].
    destruct (SensorData_from_dict_parsed data device' timestamp Hts)
      as (row & Hrow & _).
    exists row. rewrite Hrow. split; [reflexivity|].
    cbn [db set_db]. unfold commit.
    rewrite (SensorData_from_dict_takes data device' row Hid Hrow).
    destruct (takes_reading float_column data); reflexivity.
Qed.

Lemma ingest_data_spec w utcnow data :
  match first_missing required_fields data with
  | Some field =>
      ingest_data w utcnow data
      = (error_response 400 ("Missing required field: " ++ field), w)
  | None =>
      match parse_timestamp (PyDict.get "timestamp" data) with
      | Raise e =>
          ingest_data w utcnow data
          = (error_response 500 ("Error processing data: " ++ e),
             log ERROR ("Error processing data: " ++ e) w)
      | Ok _ =>
          (PyDict.get "device_id" data = VNone ->
           ingest_data w utcnow data
           = (error_response 500
                ("Error processing data: "
                 ++ database_error (RefusedDevice VNone)),
              log ERROR ("Error processing data: "
                         ++ database_error (RefusedDevice VNone)) w))
          /\ (PyDict.get "device_id" data <> VNone ->
              exists row,
                SensorData_from_dict fromisoformat data
                  (fst (seen utcnow data (db w))) = Ok row
                /\ ingest_data w utcnow data
                   = if takes_reading float_column data
                     then ((200, [("status", VStr "success");
                                  ("message",
                                   VStr "Data ingested successfully")]),
                           set_db (flushed (device_key data)
                                     (fst (seen utcnow data (db w))) row None
                                     (snd (seen utcnow data (db w)))) w)
                     else (error_response 500
                             ("Error processing data: "
                              ++ database_error (RefusedRows row None)),
                           log ERROR
                             ("Error processing data: "
                              ++ database_error (RefusedRows row None))
                             (set_db (snd (seen utcnow data (db w))) w)))
      end
  end.
Proof.
  unfold Routes.ingest_data.
  destruct (first_missing required_fields data); [reflexivity|].
  pose proof (store_spec w utcnow data) as H.
  destruct (parse_timestamp _) as [timestamp|e].
  - destruct H as [Hnull Hrow]. split.
    + intros Hid. rewrite (Hnull Hid). reflexivity.
    + intros Hid. destruct (Hrow Hid) as (row & Hr & ->). exists row.
      split; [exact Hr|].
      destruct (takes_reading float_column data); reflexivity.
  - rewrite H. reflexivity.
Qed.



(** X11. A reading that [/detect] finds normal is stored as [/ingest]
    stores it: when the response of [/detect] carries the verdict "not an
    anomaly", the database it leaves is the one [/ingest] leaves for the
    same request, which [/ingest] answers with the status 200. *)
Theorem normal_detection_stores_what_ingest_stores w now utcnow data :
  PyDict.lookup "is_anomaly" (snd (fst (detect_anomaly w now utcnow data)))
  = Some (VBool false) ->
  db (snd (detect_anomaly w now utcnow data))
  = db (snd (ingest_data w utcnow data))
  /\ fst (fst (ingest_data w utcnow data)) = 200.
Proof.
  intros H.
  destruct (detect_anomaly_verdict fromisoformat fromtimestamp isoformat
              py_float float_column database_error w now utcnow data false H)
    as (m & w0 & timestamp & row & Hreq & Hget & Hts & Hrest).
  destruct (detect_anomaly_taken fromisoformat fromtimestamp isoformat
              py_float float_column database_error w now utcnow data false H)
    as (Hid & taken & Htaken & Htakes).
  cbn zeta in Hrest. destruct Hrest as (Hrow & _ & _ & Hw').
  rewrite (Hw' eq_refl). clear Hw'.
  pose proof (get_model_db w) as Hdb. rewrite Hget in Hdb. cbn [snd] in Hdb.
  rewrite Hget in Htaken. cbn [snd] in Htaken. rewrite Hdb in Htaken.
  pose proof (ingest_data_spec w utcnow data) as Hi.
  rewrite Hreq, Hts in Hi. destruct Hi as [_ Hi].
  destruct (Hi Hid) as (row' & Hrow' & ->).
  rewrite Hrow' in Htaken. injection Htaken as <-.
  rewrite <- (SensorData_from_dict_takes data _ row' Hid Hrow'), Htakes.
  cbn [fst snd db set_db]. split; [|reflexivity].
  rewrite classify_db. cbn [db set_db].
  unfold seen in Hrow' |- *. rewrite Hdb in Hrow |- *.
  rewrite Hrow in Hrow'. injection Hrow' as <-. reflexivity.
Qed.

End Ingestion.


(** The normal reading of [D1]: [/detect] and [/ingest] leave the same
    database. *)
Lemma normal_detection_example :
  db (snd (sample_detect quiet_world (noon + timedelta 60) reading_D1))
  = db (snd (ingest_data sample_fromisoformat sample_fromtimestamp
               sample_float_column sample_database_error
               quiet_world (noon + timedelta 60) reading_D1))
  /\ fst (fst (ingest_data sample_fromisoformat sample_fromtimestamp
                 sample_float_column sample_database_error
                 quiet_world (noon + timedelta 60) reading_D1)) = 200.
Proof.
  apply (normal_detection_stores_what_ingest_stores sample_fromisoformat
           sample_fromtimestamp sample_isoformat sample_py_float
           sample_float_column sample_database_error).
  vm_compute. reflexivity.
Defined.


Lemma first_missing_none fields data :
  first_missing fields data = None
  <-> forall f, In f fields -> present data f = true.
Proof.
  unfold present. induction fields as [|g fields IH]; cbn [first_missing].
  - split; [intros _ f []|reflexivity].
  - destruct (PyDict.mem g data) eqn:Hg; cbn [negb].
    + rewrite IH. split.
      * intros H f [<-|Hf]; [exact Hg|exact (H f Hf)].
      * intros H f Hf. apply H. right. exact Hf.
    + split; [discriminate|]. intros H.
      specialize (H g (or_introl eq_refl)). congruence.
Qed.

Lemma first_missing_some fields data f :
  first_missing fields data = Some f ->
  In f fields /\ present data f = false.
Proof.
  unfold present. induction fields as [|g fields IH]; cbn [first_missing];
    [discriminate|].
  destruct (PyDict.mem g data) eqn:Hg; cbn [negb].
  - intros H. destruct (IH H). split; [right|]; assumption.
  - intros [= <-]. split; [left; reflexivity|exact Hg].
Qed.

Lemma required_fields_same f : In f required_fields <-> In f REQUIRED_FIELDS.
Proof. cbn. tauto. Qed.

Lemma validate_data_reports_missing data :
  missing_field_error (validate_data data)
  <-> exists f, In f REQUIRED_FIELDS /\ present data f = false.
Proof.
  destruct (List.filter (fun field => negb (present data field)) REQUIRED_FIELDS)
    as [|f rest] eqn:Hmiss.
  - pose proof (proj1 (missing_fields_nil data REQUIRED_FIELDS) Hmiss) as Hall.
    rewrite (validate_data_present data Hmiss). split.
    + intros [Hfst Hpre]. exfalso.
      destruct (check_numeric_rejects data numeric_fields)
        as (field & _ & _ & Heq).
      { intros Heq. rewrite Heq in Hfst. discriminate. }
      rewrite Heq in Hpre. cbn in Hpre. discriminate.
    + intros (f & Hin & Hf). rewrite (Hall f Hin) in Hf. discriminate.
  - destruct (missing_fields_cons data REQUIRED_FIELDS f rest Hmiss)
      as [Hin Hf].
    assert (Hne : List.filter (fun field => negb (present data field))
                    REQUIRED_FIELDS <> []) by (rewrite Hmiss; discriminate).
    rewrite (validate_data_missing data Hne). split.
    + intros _. exists f. split; assumption.
    + intros _. split; [reflexivity|]. cbn [snd]. apply prefix_append.
Qed.

Section Requests.

Variable fromisoformat : string -> result datetime.
Variable fromtimestamp : value -> result datetime.
Variable isoformat : datetime -> string.
Variable py_float : value -> result float.
Variable float_column : value -> bool.
Variable database_error : refused -> string.

Local Abbreviation ingest_data :=
  (ingest_data fromisoformat fromtimestamp float_column database_error).
Local Abbreviation detect_anomaly :=
  (detect_anomaly fromisoformat fromtimestamp isoformat py_float float_column
     database_error).

(** X12. The two routes and [validate_data] require the same five
    fields. [/ingest] and [/detect] go on past their check of the fields
    exactly when [validate_data] does not report a missing field (so
    whenever it accepts the reading); otherwise both answer with the
    status 400 and the name of the first field absent, in the order
    device_id, timestamp, temperature, pressure, rpm, and leave the state
    of the process and of its files as it was. *)
Theorem routes_require_the_fields_of_validate_data data :
  (first_missing required_fields data = None
   <-> ~ missing_field_error (validate_data data))
  /\ (validate_data data = (true, "") ->
      first_missing required_fields data = None)
  /\ forall field,
       first_missing required_fields data = Some field ->
       In field REQUIRED_FIELDS /\ present data field = false
       /\ (forall w utcnow,
             ingest_data w utcnow data
             = (error_response 400 ("Missing required field: " ++ field), w))
       /\ (forall w now utcnow,
             detect_anomaly w now utcnow data
             = (error_response 400 ("Missing required field: " ++ field), w)).
Proof.
  assert (Hiff : first_missing required_fields data = None
                 <-> ~ missing_field_error (validate_data data)).
  { rewrite first_missing_none, validate_data_reports_missing. split.
    - intros H (f & Hin & Hf).
      rewrite (H f (proj2 (required_fields_same f) Hin)) in Hf. discriminate.
    - intros H f Hin. destruct (present data f) eqn:Hf; [reflexivity|].
      contradiction H. exists f.
      split; [apply required_fields_same; exact Hin|exact Hf]. }
  split; [exact Hiff|]. split.
  - intros Hv. apply Hiff. rewrite Hv. intros [Hfst _]. discriminate.
  - intros field Hf. destruct (first_missing_some _ _ _ Hf) as [Hin Hp].
    split; [apply required_fields_same; exact Hin|]. split; [exact Hp|].
    split.
    + intros w utcnow. unfold Routes.ingest_data. rewrite Hf. reflexivity.
    + intros w now utcnow. unfold Routes.detect_anomaly. rewrite Hf.
      reflexivity.
Qed.






End Requests.



(** ** Saving a model *)

Lemma filter_deactivate_all table :
  List.filter mm_is_active (deactivate_all table) = [].
Proof.
  unfold deactivate_all. induction table as [|row table IH]; [reflexivity|].
  cbn [map List.filter set_is_active mm_is_active]. exact IH.
Qed.

Section Saved.

Variable joblib_dump : Model -> model_file -> model_file * option string.
Variable json_dumps : dict -> result string.
Variable getattr : Model -> string -> value -> value.

Local Abbreviation save_model := (save_model joblib_dump json_dumps getattr).
Local Abbreviation recorded_parameters := (recorded_parameters getattr).

(** X14. [save_model] writes the file and never the model of the running
    process. Whatever the outcome, the model held in memory, the alerts
    log and the database of readings are as before; a process that holds
    a model therefore scores every reading after the save as it did
    before, with the model it held.  Only a process that holds no model
    picks the saved one up, at its next [get_model], when the dump has
    written it. *)
Theorem save_model_keeps_the_running_model
    w table in_app_context version_time insert_time model size parameters :
  let saved := save_model w table in_app_context version_time insert_time
                 model size parameters in
  isolation_forest_model (snd (fst saved)) = isolation_forest_model w
  /\ alerts (snd (fst saved)) = alerts w
  /\ db (snd (fst saved)) = db w
  /\ (isolation_forest_model w <> None ->
      forall data,
        fst (predict_anomaly (snd (fst saved)) data)
        = fst (predict_anomaly w data))
  /\ (isolation_forest_model w = None ->
      model_path (snd (fst saved)) = SavedModel model ->
      fst (get_model (snd (fst saved))) = Some model).
Proof.
  cbv zeta.
  assert (H : isolation_forest_model
                (snd (fst (save_model w table in_app_context version_time
                             insert_time model size parameters)))
              = isolation_forest_model w
              /\ alerts (snd (fst (save_model w table in_app_context
                                     version_time insert_time model size
                                     parameters))) = alerts w
              /\ db (snd (fst (save_model w table in_app_context
                                 version_time insert_time model size
                                 parameters))) = db w).
  { unfold MlModel.save_model.
    destruct (joblib_dump model (model_path w)) as [file [e|]];
      [cbn; auto|].
    destruct in_app_context; [|cbn; auto].
    destruct (json_dumps _); cbn; auto. }
  destruct H as (Hm & Ha & Hd).
  split; [exact Hm|]. split; [exact Ha|]. split; [exact Hd|]. split.
  - intros Hloaded data. unfold predict_anomaly, get_model. rewrite Hm.
    destruct (isolation_forest_model w) as [m|]; [|contradiction].
    destruct (score_point m data); reflexivity.
  - intros Hnone Hfile. unfold get_model. rewrite Hm, Hnone. cbn [fst].
    unfold load_model. rewrite Hfile. reflexivity.
Qed.

(** X15. A save that stores its metadata activates exactly one model.
    Inside an application context, when the dump succeeds and the
    parameters serialize, [save_model] returns true and the table
    [model_metadata] is the old one with every row deactivated, followed
    by one new active row: the row carries the version
    ["model-<YYYYmmddHHMMSS>"] of the time of the save, the features
    [["temperature", "pressure", "rpm"]] as JSON, and the size of the
    training set ([0] when none is given); it is the only active row and
    the only row [get_active_model] can return. *)
Theorem save_model_activates_exactly_one
    w table version_time insert_time model size parameters file text :
  joblib_dump model (model_path w) = (file, None) ->
  json_dumps (recorded_parameters model parameters) = Ok text ->
  exists row,
    save_model w table true version_time insert_time model size parameters
    = (true,
       log INFO ("Model metadata saved to database with version "
                 ++ mm_version row)
         (log INFO ("Model saved to " ++ MODEL_PATH) (set_model_path file w)),
       (deactivate_all table ++ [row])%list)
    /\ mm_is_active row = true
    /\ mm_version row = "model-" ++ strftime_compact version_time
    /\ mm_created_at row = insert_time
    /\ mm_features row
       = "[" ++ PyStr.quote ++ "temperature" ++ PyStr.quote ++ ", "
         ++ PyStr.quote ++ "pressure" ++ PyStr.quote ++ ", "
         ++ PyStr.quote ++ "rpm" ++ PyStr.quote ++ "]"
    /\ mm_parameters row = Some text
    /\ mm_training_samples row = match size with Some n => n | None => 0 end
    /\ List.filter mm_is_active (deactivate_all table ++ [row]) = [row]
    /\ latest_active (deactivate_all table ++ [row]) = [row].
Proof.
  intros Hdump Hjson. unfold MlModel.save_model. rewrite Hdump, Hjson.
  exists {| mm_id := Z.of_nat (List.length (deactivate_all table)) + 1;
            mm_version := create_version version_time;
            mm_created_at := insert_time;
            mm_features := MODEL_FEATURES_json;
            mm_parameters := Some text;
            mm_training_samples := match size with
                                   | Some n => n
                                   | None => 0
                                   end;
            mm_performance_metrics := None;
            mm_is_active := true |}.
  split; [reflexivity|].
  cbn [mm_is_active mm_version mm_created_at mm_features mm_parameters
       mm_training_samples].
  repeat (split; [reflexivity|]).
  assert (Hf : forall row,
            mm_is_active row = true ->
            List.filter mm_is_active (deactivate_all table ++ [row]) = [row]).
  { intros row Hrow. rewrite List.filter_app, filter_deactivate_all.
    cbn [List.filter app]. rewrite Hrow. reflexivity. }
  split; [apply Hf; reflexivity|].
  unfold latest_active. rewrite Hf by reflexivity.
  cbn [List.filter forallb mm_created_at].
  rewrite Z.leb_refl. reflexivity.
Qed.

(** X16. [save_model] leaves at most one active row whenever it touches
    the table. A save that returns false (the dump raised) and a save
    outside an application context leave the table [model_metadata] as it
    was.  Every other save, whatever the table held, leaves a table with
    at most one active row: the old rows are all there, deactivated, and
    they are followed by the new row, which is active, or by nothing
    when the parameters did not serialize, and then no row is active. *)
Theorem save_model_leaves_at_most_one_active_row
    w table in_app_context version_time insert_time model size parameters :
  let saved := save_model w table in_app_context version_time insert_time
                 model size parameters in
  (fst (fst saved) = false -> snd saved = table)
  /\ (in_app_context = false -> snd saved = table)
  /\ (fst (fst saved) = true -> in_app_context = true ->
      (List.length (List.filter mm_is_active (snd saved)) <= 1)%nat
      /\ (exists added,
            snd saved = (deactivate_all table ++ added)%list
            /\ List.filter mm_is_active (snd saved) = added
            /\ (List.length added <= 1)%nat)
      /\ forall e,
           json_dumps (recorded_parameters model parameters) = Raise e ->
           List.filter mm_is_active (snd saved) = []).
Proof.
  cbv zeta. unfold MlModel.save_model.
  destruct (joblib_dump model (model_path w)) as [file [e|]];
    [cbn; split; [reflexivity|]; split; [reflexivity|]; discriminate|].
  destruct in_app_context;
    [|cbn; split; [reflexivity|]; split; [reflexivity|]; discriminate].
  destruct (json_dumps _) as [text|e]; cbn [fst snd].
  - split; [discriminate|]. split; [discriminate|]. intros _ _.
    rewrite List.filter_app, filter_deactivate_all.
    cbn [List.filter mm_is_active app List.length].
    split; [lia|]. split; [|discriminate].
    eexists. split; [reflexivity|]. split; [reflexivity|]. cbn. lia.
  - split; [discriminate|]. split; [discriminate|]. intros _ _.
    rewrite filter_deactivate_all. cbn [List.length].
    split; [lia|]. split; [|reflexivity].
    exists []. rewrite app_nil_r. split; [reflexivity|].
    split; [reflexivity|]. cbn. lia.
Qed.

Lemma lookup_update_other d other key :
  ~ In key (map fst other) ->
  PyDict.lookup key (PyDict.update d other) = PyDict.lookup key d.
Proof.
  unfold PyDict.update. revert d.
  induction other as [|[k v] other IH]; intros d Hkey; [reflexivity|].
  cbn [fold_left fst snd]. cbn [map fst In] in Hkey.
  rewrite IH by tauto. apply lookup_setitem_ne. intros ->. tauto.
Qed.

Lemma lookup_update_last d other key v :
  ~ In key (map fst other) ->
  PyDict.lookup key (PyDict.update (PyDict.setitem key v d) other) = Some v.
Proof.
  intros H. rewrite lookup_update_other by exact H. apply lookup_setitem_eq.
Qed.

(** X17. The attributes of the model override the parameters given to
    [save_model]: under each of the names n_estimators, max_samples,
    contamination and random_state the parameters recorded hold the
    attribute of the model (its default when the model has none),
    whatever the caller gave under that name; every other parameter is
    recorded as given. *)
Theorem model_attributes_override_given_parameters model parameters :
  PyDict.lookup "n_estimators" (recorded_parameters model parameters)
  = Some (getattr model "n_estimators" (VInt 100))
  /\ PyDict.lookup "max_samples" (recorded_parameters model parameters)
     = Some (getattr model "max_samples" (VStr "auto"))
  /\ PyDict.lookup "contamination" (recorded_parameters model parameters)
     = Some (getattr model "contamination" (VFloat 0x1.999999999999ap-4%float))
  /\ PyDict.lookup "random_state" (recorded_parameters model parameters)
     = Some (getattr model "random_state" (VInt 42))
  /\ forall key, ~ In key model_attributes ->
       PyDict.lookup key (recorded_parameters model parameters)
       = match parameters with
         | Some given => PyDict.lookup key given
         | None => None
         end.
Proof.
  unfold MlModel.recorded_parameters.
  set (given := match parameters with Some p => p | None => [] end).
  unfold PyDict.update. cbn [fold_left fst snd].
  repeat split.
  - rewrite !lookup_setitem_ne by discriminate. apply lookup_setitem_eq.
  - rewrite !lookup_setitem_ne by discriminate. apply lookup_setitem_eq.
  - rewrite !lookup_setitem_ne by discriminate. apply lookup_setitem_eq.
  - apply lookup_setitem_eq.
  - intros key Hkey. cbn [model_attributes In] in Hkey.
    rewrite !lookup_setitem_ne by (intros ->; tauto).
    subst given. destruct parameters; reflexivity.
Qed.

End Saved.

(** A first model saved on a fresh installation, trained on 4998 rows:
    the table holds one row, active, and the query for the active model
    can only return it. *)
Lemma save_model_example :
  exists row,
    save_model sample_dump sample_dumps sample_getattr untrained_world []
      true noon noon (constant_model 0.125%float) (Some 4998) None
    = (true,
       log INFO ("Model metadata saved to database with version "
                 ++ mm_version row)
         (log INFO ("Model saved to " ++ MODEL_PATH)
            (set_model_path (SavedModel (constant_model 0.125%float))
               untrained_world)),
       [row])
    /\ mm_version row = "model-20240101120000"
    /\ mm_training_samples row = 4998
    /\ latest_active [row] = [row].
Proof.
  destruct (save_model_activates_exactly_one sample_dump sample_dumps
              sample_getattr untrained_world [] noon noon
              (constant_model 0.125%float) (Some 4998) None
              (SavedModel (constant_model 0.125%float)) "{}"
              eq_refl eq_refl)
    as (row & Hsave & _ & Hversion & _ & _ & _ & Hsize & _ & Hlatest).
  exists row. split; [exact Hsave|]. split; [exact Hversion|].
  split; [exact Hsize|exact Hlatest].
Defined.

(** ** What [/detect] stores *)

Section Stored.

Variable fromisoformat : string -> result datetime.
Variable fromtimestamp : value -> result datetime.
Variable isoformat : datetime -> string.
Variable py_float : value -> result float.
Variable float_column : value -> bool.
Variable database_error : refused -> string.

Local Abbreviation detect_anomaly :=
  (detect_anomaly fromisoformat fromtimestamp isoformat py_float float_column
     database_error).









End Stored.





(** ** The synthetic training data *)

Lemma DataFrame_rows t p r rows :
  TrainModel.DataFrame t p r = Ok rows ->
  List.length rows = List.length t.
Proof.
  unfold TrainModel.DataFrame.
  destruct (Nat.eqb_spec (List.length t) (List.length p)) as [Htp|];
    [|discriminate].
  destruct (Nat.eqb_spec (List.length p) (List.length r)) as [Hpr|];
    [|discriminate].
  intros [= <-]. unfold TrainModel.row. rewrite !List.length_combine. lia.
Qed.

Section Generated.

Variable rng : Type.
Variable normal : float -> float -> Z -> rng -> result (list float) * rng.
Variable sample : list TrainModel.row -> rng -> list TrainModel.row * rng.

(** The generator returns as many draws as it is asked for, and a sample
    of a whole frame is a reordering of its rows. *)
Hypothesis normal_size : forall loc scale size g draws g',
  normal loc scale size g = (Ok draws, g') ->
  Z.of_nat (List.length draws) = size.
Hypothesis sample_size : forall rows g,
  List.length (fst (sample rows g)) = List.length rows.

(** The rows of the frame: the normal ones, and three groups of
    anomalous ones. *)
Lemma generate_synthetic_data_rows n_samples contamination g rows g' :
  TrainModel.generate_synthetic_data rng normal sample n_samples contamination g
  = (Ok rows, g') ->
  exists n n_normal,
    TrainModel.int_to_float n_samples = Ok n
    /\ TrainModel.int_of_float (n * (1 - contamination))%float = Ok n_normal
    /\ 0 <= n_normal
    /\ 0 <= (n_samples - n_normal) / 3
    /\ Z.of_nat (List.length rows)
       = n_normal + 3 * ((n_samples - n_normal) / 3).
Proof.
  unfold TrainModel.generate_synthetic_data, TrainModel.and_then,
    TrainModel.lift.
  destruct (TrainModel.int_to_float n_samples) as [n|e] eqn:Hfloat;
    [|discriminate].
  destruct (TrainModel.int_of_float _) as [n_normal|e] eqn:Hint;
    [|discriminate].
  set (k := (n_samples - n_normal) / 3).
  destruct (normal 75 5 n_normal g)%float as [[t|e] g1] eqn:Ht; [|discriminate].
  destruct (normal 100 10 n_normal g1)%float as [[p|e] g2] eqn:Hp;
    [|discriminate].
  destruct (normal 3000 200 n_normal g2)%float as [[r|e] g3] eqn:Hr;
    [|discriminate].
  destruct (TrainModel.DataFrame t p r) as [normal_data|e] eqn:Hn;
    [|discriminate].
  destruct (normal 40 5 k g3)%float as [[t1|e] g4] eqn:Ht1; [|discriminate].
  destruct (normal 110 10 k g4)%float as [[t2|e] g5] eqn:Ht2; [|discriminate].
  destruct (normal 75 20 k g5)%float as [[t3|e] g6] eqn:Ht3; [|discriminate].
  destruct (normal 50 10 k g6)%float as [[p1|e] g7] eqn:Hp1; [|discriminate].
  destruct (normal 150 15 k g7)%float as [[p2|e] g8] eqn:Hp2; [|discriminate].
  destruct (normal 100 30 k g8)%float as [[p3|e] g9] eqn:Hp3; [|discriminate].
  destruct (normal 1000 200 k g9)%float as [[r1|e] g10] eqn:Hr1;
    [|discriminate].
  destruct (normal 5000 300 k g10)%float as [[r2|e] g11] eqn:Hr2;
    [|discriminate].
  destruct (normal 3000 800 k g11)%float as [[r3|e] g12] eqn:Hr3;
    [|discriminate].
  destruct (TrainModel.DataFrame (t1 ++ t2 ++ t3) _ _) as [anomalous_data|e]
    eqn:Ha; [|discriminate].
  pose proof (sample_size (normal_data ++ anomalous_data)%list g12) as Hs.
  destruct (sample _ g12) as [all_data g13]. cbn [fst] in Hs.
  intros [= <- <-]. exists n, n_normal.
  split; [reflexivity|]. split; [exact Hint|].
  apply DataFrame_rows in Hn, Ha.
  apply normal_size in Ht, Ht1, Ht2, Ht3.
  rewrite Hs, List.length_app, Hn, Ha, !List.length_app. lia.
Qed.

(** The rows that three groups of [a // 3] make, for [a] rows asked
    for. *)
Lemma three_groups a :
  0 <= a / 3 -> 0 <= a /\ a - 2 <= 3 * (a / 3) <= a.
Proof.
  intros Hk.
  assert (Ha : 0 <= a).
  { destruct (Z.le_gt_cases 0 a); [assumption|].
    exfalso. assert (a / 3 < 0) by (apply Z.div_lt_upper_bound; lia). lia. }
  split; [exact Ha|]. Z.div_mod_to_equations. lia.
Qed.

(** X18. [generate_synthetic_data] returns up to two rows fewer than it
    is asked for. When it returns, the number of normal rows
    [n_normal = int(n_samples * (1 - contamination))] lies between 0 and
    [n_samples], and the frame holds [n_normal] rows and three groups of
    [(n_samples - n_normal) // 3] anomalous rows: [n_samples] rows when
    the number of anomalous rows is a multiple of three, one or two
    fewer otherwise. *)
Theorem generate_synthetic_data_row_count n_samples contamination g rows g' :
  TrainModel.generate_synthetic_data rng normal sample n_samples contamination g
  = (Ok rows, g') ->
  exists n n_normal,
    TrainModel.int_to_float n_samples = Ok n
    /\ TrainModel.int_of_float (n * (1 - contamination))%float = Ok n_normal
    /\ 0 <= n_normal <= n_samples
    /\ Z.of_nat (List.length rows)
       = n_normal + 3 * ((n_samples - n_normal) / 3)
    /\ n_samples - 2 <= Z.of_nat (List.length rows) <= n_samples
    /\ (Z.of_nat (List.length rows) = n_samples
        <-> (n_samples - n_normal) mod 3 = 0).
Proof.
  intros Hgen.
  destruct (generate_synthetic_data_rows n_samples contamination g rows g' Hgen)
    as (n & n_normal & Hn & Hnormal & H0 & Hk & Hrows).
  destruct (three_groups (n_samples - n_normal) Hk) as [Ha Hgroups].
  exists n, n_normal. split; [exact Hn|]. split; [exact Hnormal|].
  split; [lia|]. split; [exact Hrows|]. split; [lia|].
  rewrite Hrows. clear -Ha. Z.div_mod_to_equations. lia.
Qed.

End Generated.

Lemma sample_normal_size loc scale size g draws g' :
  sample_normal loc scale size g = (Ok draws, g') ->
  Z.of_nat (List.length draws) = size.
Proof.
  unfold sample_normal. destruct (Z.ltb_spec size 0); [discriminate|].
  intros [= <- _]. rewrite List.repeat_length. lia.
Qed.

Lemma sample_shuffle_size rows g :
  List.length (fst (sample_shuffle rows g)) = List.length rows.
Proof. reflexivity. Qed.

(** The call of [train_and_save_model]: 5000 samples with the
    contamination 0.1 give 4500 normal rows and three groups of 166
    anomalous ones, 4998 rows in all. *)
Lemma generate_synthetic_data_example :
  exists rows,
    TrainModel.generate_synthetic_data unit sample_normal sample_shuffle
      5000 0x1.999999999999ap-4%float tt = (Ok rows, tt)
    /\ Z.of_nat (List.length rows) = 4998.
Proof.
  destruct (TrainModel.generate_synthetic_data unit sample_normal
              sample_shuffle 5000 0x1.999999999999ap-4%float tt)
    as [[rows|e] []] eqn:Hgen; [|vm_compute in Hgen; discriminate Hgen].
  exists rows. split; [reflexivity|].
  destruct (generate_synthetic_data_row_count unit sample_normal
              sample_shuffle sample_normal_size sample_shuffle_size
              5000 0x1.999999999999ap-4%float tt rows tt Hgen)
    as (n & n_normal & Hn & Hnormal & _ & Hrows & _ & _).
  vm_compute in Hn. injection Hn as <-.
  vm_compute in Hnormal. injection Hnormal as <-.
  exact Hrows.
Defined.


(** ** The [/train-synthetic] route *)

Lemma nan_is_in_no_order (x y : float) :
  Prim2SF x = S754_nan -> (x <? y)%float = false /\ (y <? x)%float = false.
Proof.
  intros H. rewrite !FloatAxioms.ltb_spec, H. unfold SFltb, SFcompare.
  split; [reflexivity|]. destruct (Prim2SF y); reflexivity.
Qed.

Lemma int_of_product_with_nan (n c : float) :
  Prim2SF c = S754_nan ->
  TrainModel.int_of_float (n * (1 - c))%float
  = Raise "cannot convert float NaN to integer".
Proof.
  intros H. unfold TrainModel.int_of_float.
  rewrite FloatAxioms.mul_spec, FloatAxioms.sub_spec, H.
  replace (SF64sub (Prim2SF 1) S754_nan) with S754_nan
    by (vm_compute; reflexivity).
  unfold SF64mul, SFmul. destruct (Prim2SF n); reflexivity.
Qed.

Section Trained.

Variable py_int : value -> result Z.
Variable py_float : value -> result float.
Variable rng : Type.
Variable normal : float -> float -> Z -> rng -> result (list float) * rng.
Variable sample : list TrainModel.row -> rng -> list TrainModel.row * rng.
Variable fit : list TrainModel.row -> result Model.
Variable joblib_dump : Model -> model_file -> model_file * option string.
Variable json_dumps : dict -> result string.
Variable getattr : Model -> string -> value -> value.

Local Abbreviation train_synthetic :=
  (train_synthetic py_int py_float rng normal sample fit joblib_dump
     json_dumps getattr).
Local Abbreviation train_synthetic_try :=
  (train_synthetic_try py_int py_float rng normal sample fit joblib_dump
     json_dumps getattr).

(** The response and the state when the [try] does not raise or raises. *)
Lemma train_synthetic_answer st start_time end_time version_time insert_time
    params :
  train_synthetic st start_time end_time version_time insert_time params
  = match train_synthetic_try st start_time end_time version_time insert_time
            params with
    | (Ok resp, st) => (resp, st)
    | (Raise e, (w, table, g)) =>
        (training_error 500 ("An error occurred: " ++ e),
         (log ERROR ("Error in train_synthetic endpoint: " ++ e) w, table, g))
    end.
Proof. reflexivity. Qed.

(** X19. [/train-synthetic] checks its two parameters before it does
    anything. For a request whose parameters convert, the response has the
    status 400 exactly when the sample count is below 1000 or above 50000
    or the contamination rate is below 0.01 or above 0.5, and then
    nothing is generated, trained or saved: the state is as it was.  A
    contamination rate that is not a number is in neither order: it
    passes the check, and the request ends with the status 500 and the
    table of models as it was. *)
Theorem train_synthetic_checks_its_parameters
    st start_time end_time version_time insert_time params
    sample_count contamination :
  py_int (PyDict.get_default "sample_count" (VInt 5000) params)
  = Ok sample_count ->
  py_float (PyDict.get_default "contamination"
              (VFloat 0x1.999999999999ap-4%float) params)
  = Ok contamination ->
  let answer := train_synthetic st start_time end_time version_time
                  insert_time params in
  (fst (fst (fst answer)) = 400
   <-> sample_count < 1000 \/ 50000 < sample_count
       \/ (contamination <? 0x1.47ae147ae147bp-7)%float = true
       \/ (0.5 <? contamination)%float = true)
  /\ (fst (fst (fst answer)) = 400 -> snd answer = st)
  /\ (1000 <= sample_count <= 50000 ->
      Prim2SF contamination = S754_nan ->
      fst (fst (fst answer)) = 500
      /\ snd (fst (snd answer)) = snd (fst st)
      /\ model_path (fst (fst (snd answer))) = model_path (fst (fst st))).
Proof.
  intros Hint Hfloat. cbv zeta. rewrite train_synthetic_answer.
  unfold Routes.train_synthetic_try. destruct st as [[w table] g].
  rewrite Hint, Hfloat.
  destruct (Z.ltb_spec sample_count 1000) as [Hlo|Hlo]; cbn [orb].
  { cbn. repeat split; auto; lia. }
  destruct (Z.ltb_spec 50000 sample_count) as [Hhi|Hhi]; cbn [orb].
  { cbn. repeat split; auto; lia. }
  destruct (contamination <? 0x1.47ae147ae147bp-7)%float eqn:Hclo; cbn [orb].
  { cbn. split; [split; auto|]. split; [reflexivity|].
    intros _ Hnan.
    destruct (nan_is_in_no_order contamination 0x1.47ae147ae147bp-7%float Hnan).
    congruence. }
  destruct (0.5 <? contamination)%float eqn:Hchi.
  { cbn. split; [split; auto|]. split; [reflexivity|].
    intros _ Hnan.
    destruct (nan_is_in_no_order contamination 0.5%float Hnan). congruence. }
  assert (Hnot : ~ (sample_count < 1000 \/ 50000 < sample_count
                    \/ false = true \/ false = true))
    by (intros [?|[?|[?|?]]]; try lia; discriminate).
  destruct (TrainModel.generate_synthetic_data _ _ _ _ _ g)
    as [[training_data|e] g'] eqn:Hgen.
  - destruct (fit training_data) as [model|e].
    + destruct (save_model _ _ _ _ _ _ _ _ _ _ _) as [[success w'] table'].
      split; [|split].
      * destruct success; cbn; split; try discriminate; intros H;
          contradiction.
      * destruct success; cbn; discriminate.
      * intros _ Hnan. exfalso. revert Hgen.
        unfold TrainModel.generate_synthetic_data, TrainModel.and_then,
          TrainModel.lift.
        destruct (TrainModel.int_to_float sample_count); [|discriminate].
        rewrite (int_of_product_with_nan _ _ Hnan). discriminate.
    + cbn. split; [split; [discriminate|intros H; contradiction]|].
      split; [discriminate|]. auto.
  - cbn. split; [split; [discriminate|intros H; contradiction]|].
    split; [discriminate|]. auto.
Qed.

Hypothesis normal_size : forall loc scale size g draws g',
  normal loc scale size g = (Ok draws, g') ->
  Z.of_nat (List.length draws) = size.
Hypothesis sample_size : forall rows g,
  List.length (fst (sample rows g)) = List.length rows.

(** X20. [/train-synthetic] reports the rows generated, not the rows
    asked for. In a response with the status 200 the entry [n_samples]
    of the details is the number of rows of the training set, which is
    the sample count of the request or up to two less; a row added to
    the table of models, after the older rows have been deactivated, is
    active and records that number as its training samples; and the
    model of the running process is the one it held before the
    request. *)
Theorem train_synthetic_reports_the_rows_generated
    st start_time end_time version_time insert_time params :
  let answer := train_synthetic st start_time end_time version_time
                  insert_time params in
  fst (fst (fst answer)) = 200 ->
  exists sample_count n,
    py_int (PyDict.get_default "sample_count" (VInt 5000) params)
    = Ok sample_count
    /\ PyDict.lookup "n_samples" (snd (fst answer)) = Some (VInt n)
    /\ sample_count - 2 <= n <= sample_count
    /\ (snd (fst (snd answer)) = deactivate_all (snd (fst st))
        \/ exists row,
             snd (fst (snd answer))
             = (deactivate_all (snd (fst st)) ++ [row])%list
             /\ mm_training_samples row = n
             /\ mm_is_active row = true)
    /\ isolation_forest_model (fst (fst (snd answer)))
       = isolation_forest_model (fst (fst st)).
Proof.
  cbv zeta. rewrite train_synthetic_answer.
  unfold Routes.train_synthetic_try. destruct st as [[w table] g].
  destruct (py_int _) as [sample_count|e]; [|cbn; discriminate].
  destruct (py_float _) as [contamination|e]; [|cbn; discriminate].
  destruct ((sample_count <? 1000) || (50000 <? sample_count));
    [cbn; discriminate|].
  destruct ((contamination <? _) || (_ <? contamination))%float;
    [cbn; discriminate|].
  destruct (TrainModel.generate_synthetic_data _ _ _ _ _ g)
    as [[training_data|e] g'] eqn:Hgen; [|cbn; discriminate].
  destruct (fit training_data) as [model|e]; [|cbn; discriminate].
  destruct (generate_synthetic_data_rows rng normal sample normal_size
              sample_size sample_count contamination g training_data g' Hgen)
    as (x & n_normal & _ & _ & H0 & Hk & Hrows).
  destruct (three_groups (sample_count - n_normal) Hk) as [Ha Hgroups].
  unfold save_model.
  destruct (joblib_dump model (model_path w)) as [file [e|]];
    [cbn; discriminate|].
  destruct (json_dumps _) as [text|e]; cbn; intros _;
    exists sample_count, (Z.of_nat (List.length training_data)).
  - repeat split; try lia. right. eexists. repeat split.
  - repeat split; try lia. left. reflexivity.
Qed.

End Trained.

(** A request for 500 samples is refused, and changes nothing; a request
    without parameters trains on 4998 rows. *)
Lemma train_synthetic_refusal_example :
  fst (fst (fst (sample_train [("sample_count", VInt 500)]))) = 400
  /\ snd (sample_train [("sample_count", VInt 500)])
     = (untrained_world, [], tt).
Proof.
  destruct (train_synthetic_checks_its_parameters sample_py_int
              sample_py_float unit sample_normal sample_shuffle sample_fit
              sample_dump sample_dumps sample_getattr
              (untrained_world, [], tt) 0%float 1.5%float noon noon
              [("sample_count", VInt 500)] 500 0x1.999999999999ap-4%float
              eq_refl eq_refl) as (Hiff & Hstate & _).
  assert (H : fst (fst (fst (sample_train [("sample_count", VInt 500)]))) = 400).
  { apply Hiff. left. vm_compute. reflexivity. }
  split; [exact H|exact (Hstate H)].
Defined.

Lemma train_synthetic_example :
  fst (fst (fst (sample_train []))) = 200
  /\ exists sample_count n,
       sample_py_int (PyDict.get_default "sample_count" (VInt 5000) [])
       = Ok sample_count
       /\ PyDict.lookup "n_samples" (snd (fst (sample_train [])))
          = Some (VInt n)
       /\ sample_count - 2 <= n <= sample_count
       /\ (snd (fst (snd (sample_train []))) = deactivate_all []
           \/ exists row,
                snd (fst (snd (sample_train [])))
                = (deactivate_all [] ++ [row])%list
                /\ mm_training_samples row = n
                /\ mm_is_active row = true)
       /\ isolation_forest_model (fst (fst (snd (sample_train []))))
          = isolation_forest_model untrained_world.
Proof.
  assert (H : fst (fst (fst (sample_train []))) = 200)
    by (vm_compute; reflexivity).
  split; [exact H|].
  exact (train_synthetic_reports_the_rows_generated sample_py_int
           sample_py_float unit sample_normal sample_shuffle sample_fit
           sample_dump sample_dumps sample_getattr sample_normal_size
           sample_shuffle_size (untrained_world, [], tt) 0%float 1.5%float
           noon noon [] H).
Defined.

(** ** The model reported by [/model] *)

Section Informed.

Variable isoformat : datetime -> string.
Variable json_loads : string -> result value.
Variable joblib_dump : Model -> model_file -> model_file * option string.
Variable json_dumps : dict -> result string.
Variable getattr : Model -> string -> value -> value.

Local Abbreviation get_model_info := (get_model_info isoformat json_loads).
Local Abbreviation save_model := (save_model joblib_dump json_dumps getattr).

Lemma get_model_info_version w row :
  fst (fst (fst (get_model_info w (Some row)))) = 200 ->
  PyDict.lookup "status" (snd (fst (fst (get_model_info w (Some row)))))
  = Some (VStr "success")
  /\ PyDict.lookup "version" (snd (fst (get_model_info w (Some row))))
     = Some (VStr (mm_version row))
  /\ PyDict.lookup "training_samples" (snd (fst (get_model_info w (Some row))))
     = Some (VInt (mm_training_samples row)).
Proof.
  unfold Routes.get_model_info.
  destruct (loads_or json_loads _ (Some (mm_features row))) as [f|e];
    cbn [bind]; [|cbn; discriminate].
  destruct (loads_or json_loads _ (mm_parameters row)) as [p|e];
    cbn [bind]; [|cbn; discriminate].
  destruct (loads_or json_loads _ (mm_performance_metrics row)) as [m|e];
    cbn [bind]; [|cbn; discriminate].
  intros _. repeat split.
Qed.

(** X21. [/model] reports the model that [save_model] has just recorded.
    After a save that stores its metadata, whichever row the query for
    the active model returns, a response of [/model] with the status 200
    has the status "success" and carries the version and the number of
    training samples of that save.  On a table without an active row
    (a fresh installation, or a save whose parameters did not
    serialize) the query returns nothing and [/model] answers with the
    status 200, the status "warning", the version "default" and 0
    training samples. *)
Theorem saved_model_is_the_model_reported
    w table version_time insert_time model size parameters file text :
  joblib_dump model (model_path w) = (file, None) ->
  json_dumps (recorded_parameters getattr model parameters) = Ok text ->
  (forall active w',
     may_be_first
       (latest_active
          (snd (save_model w table true version_time insert_time model size
                  parameters))) active ->
     fst (fst (fst (get_model_info w' active))) = 200 ->
     PyDict.lookup "status" (snd (fst (fst (get_model_info w' active))))
     = Some (VStr "success")
     /\ PyDict.lookup "version" (snd (fst (get_model_info w' active)))
        = Some (VStr ("model-" ++ strftime_compact version_time))
     /\ PyDict.lookup "training_samples" (snd (fst (get_model_info w' active)))
        = Some (VInt match size with Some n => n | None => 0 end))
  /\ (forall inactive active w',
        List.filter mm_is_active inactive = [] ->
        may_be_first (latest_active inactive) active ->
        get_model_info w' active
        = ((200,
            [("status", VStr "warning");
             ("message", VStr "No active model found in database")],
            [("version", VStr "default");
             ("created_at", VNone);
             ("features", VOther "['temperature', 'pressure', 'rpm']");
             ("training_samples", VInt 0)]), w')).
Proof.
  intros Hdump Hjson. split.
  - intros active w'. unfold MlModel.save_model. rewrite Hdump, Hjson.
    cbn [snd]. unfold latest_active.
    rewrite List.filter_app.
    rewrite filter_deactivate_all.
    cbn [List.filter app mm_is_active forallb mm_created_at].
    rewrite Z.leb_refl. cbn [andb List.filter may_be_first].
    destruct active as [row|]; cbn [may_be_first]; [|discriminate].
    intros [<-|[]] H200.
    exact (get_model_info_version w' _ H200).
  - intros inactive active w' Hnone. unfold latest_active. rewrite Hnone.
    cbn [List.filter]. destruct active as [row|]; cbn [may_be_first];
      [intros []|reflexivity].
Qed.

End Informed.

(** After the first save of the sample, [/model] reports its version and
    its 4998 training samples. *)
Lemma saved_model_example :
  PyDict.lookup "status"
    (snd (fst (fst (get_model_info sample_isoformat sample_loads
                      untrained_world (Some first_model_row)))))
  = Some (VStr "success")
  /\ PyDict.lookup "version"
       (snd (fst (get_model_info sample_isoformat sample_loads
                    untrained_world (Some first_model_row))))
     = Some (VStr "model-20240101120000")
  /\ PyDict.lookup "training_samples"
       (snd (fst (get_model_info sample_isoformat sample_loads
                    untrained_world (Some first_model_row))))
     = Some (VInt 4998).
Proof.
  apply (proj1 (saved_model_is_the_model_reported sample_isoformat
                  sample_loads sample_dump sample_dumps sample_getattr
                  untrained_world [] noon noon (constant_model 0.125%float)
                  (Some 4998) None
                  (SavedModel (constant_model 0.125%float)) "{}"
                  eq_refl eq_refl)
           (Some first_model_row) untrained_world).
  - left. reflexivity.
  - reflexivity.
Defined.
